(** * grep_search: a shallow embedding of [search.py]

    The development follows the two functions of [src/search.py] that do the
    work: [search_files] (the directory walk, the whole-word matcher and the
    per-keyword counters) and [save_results_to_excel] (the sort, the banding
    pre-pass and the border pass of the detail sheet).  The command line
    ([main], [get_default_output_filename], [write_to_excel]) and
    [draw_border_around_group] are embedded in the modules [Cli] and
    [Group].

    Python values are modelled as follows:
    - [str] is a list of Unicode code points ([N]);
    - [int] is [Z];
    - a [dict] is an insertion-ordered association list with unique keys;
    - a statement that can raise lives in a state-and-exception monad, so
      that [try ... except Exception] sees the state as the exception left
      it. *)

From Stdlib Require Import ZArith NArith List Bool Lia String Ascii.
From Stdlib Require Import DecimalString Permutation Sorted.
Import ListNotations.

(* ================================================================== *)
(** ** Python strings *)

Module Py.

Definition char := N.
Definition str := list char.

(** UTF-8 decoding of a source literal into code points: [py "..."] is the
    Python string written between the quotes. *)
Fixpoint utf8_decode (fuel : nat) (bs : list N) : str :=
  match fuel with
  | O => []
  | S fuel' =>
    match bs with
    | [] => []
    | b0 :: r0 =>
      if (b0 <? 128)%N then b0 :: utf8_decode fuel' r0
      else if (b0 <? 224)%N then
        match r0 with
        | b1 :: r1 =>
            ((b0 mod 32) * 64 + b1 mod 64)%N :: utf8_decode fuel' r1
        | _ => []
        end
      else if (b0 <? 240)%N then
        match r0 with
        | b1 :: b2 :: r2 =>
            ((b0 mod 16) * 4096 + (b1 mod 64) * 64 + b2 mod 64)%N
              :: utf8_decode fuel' r2
        | _ => []
        end
      else
        match r0 with
        | b1 :: b2 :: b3 :: r3 =>
            ((b0 mod 8) * 262144 + (b1 mod 64) * 4096
             + (b2 mod 64) * 64 + b3 mod 64)%N :: utf8_decode fuel' r3
        | _ => []
        end
    end
  end.

Definition py (s : string) : str :=
  let bs := map N_of_ascii (list_ascii_of_string s) in
  utf8_decode (List.length bs) bs.

Definition chr (s : string) : char :=
  match py s with c :: _ => c | [] => 0%N end.

Fixpoint str_eqb (a b : str) : bool :=
  match a, b with
  | [], [] => true
  | x :: a', y :: b' => (x =? y)%N && str_eqb a' b'
  | _, _ => false
  end.

(** [a < b] on strings: code point by code point, a proper prefix first. *)
Fixpoint str_ltb (a b : str) : bool :=
  match a, b with
  | _, [] => false
  | [], _ :: _ => true
  | x :: a', y :: b' =>
      if (x <? y)%N then true
      else if (x =? y)%N then str_ltb a' b' else false
  end.

(** [str.isspace] for one character (the table of [_PyUnicode_IsWhitespace]). *)
Definition isspace (c : char) : bool :=
  ((9 <=? c) && (c <=? 13) || (28 <=? c) && (c <=? 32)
   || (c =? 133) || (c =? 160) || (c =? 5760)
   || (8192 <=? c) && (c <=? 8202)
   || (c =? 8232) || (c =? 8233) || (c =? 8239) || (c =? 8287)
   || (c =? 12288))%N.

Fixpoint lstrip (s : str) : str :=
  match s with
  | c :: s' => if isspace c then lstrip s' else s
  | [] => []
  end.

(** [s.strip()] *)
Definition strip (s : str) : str := rev (lstrip (rev (lstrip s))).

(** ["".join(parts)] *)
Definition join_empty (parts : list str) : str := List.concat parts.

(** [sep.join(parts)] *)
Fixpoint join (sep : str) (parts : list str) : str :=
  match parts with
  | [] => []
  | [p] => p
  | p :: rest => p ++ sep ++ join sep rest
  end.

(** [str(n)] for an [int]. *)
Definition str_of_int (n : Z) : str := py (NilZero.string_of_int (Z.to_int n)).

(** [l[start:stop]] with Python's treatment of negative and oversized
    indices. *)
Definition clamp_index (len i : Z) : Z :=
  if (i <? 0)%Z then Z.max (i + len) 0 else Z.min i len.

Definition slice {A} (l : list A) (start stop : Z) : list A :=
  let n := Z.of_nat (List.length l) in
  let a := clamp_index n start in
  let b := clamp_index n stop in
  firstn (Z.to_nat (b - a)) (skipn (Z.to_nat a) l).

(** [enumerate(l, start)] *)
Fixpoint enumerate {A} (start : Z) (l : list A) : list (Z * A) :=
  match l with
  | [] => []
  | x :: l' => (start, x) :: enumerate (start + 1) l'
  end.

(** Insertion-ordered dictionaries keyed by strings. *)
Definition dict (V : Type) := list (str * V).

Fixpoint dict_get {V} (k : str) (d : dict V) : option V :=
  match d with
  | [] => None
  | (k', v) :: d' => if str_eqb k k' then Some v else dict_get k d'
  end.

(** [d[k] = v]: an existing key keeps its place, a new key goes last. *)
Fixpoint dict_set {V} (k : str) (v : V) (d : dict V) : dict V :=
  match d with
  | [] => [(k, v)]
  | (k', v') :: d' =>
      if str_eqb k k' then (k', v) :: d' else (k', v') :: dict_set k v d'
  end.

Definition dict_mem {V} (k : str) (d : dict V) : bool :=
  match dict_get k d with Some _ => true | None => false end.

(** [s.encode('utf-8')] with the strict error handler succeeds unless [s]
    holds a surrogate code point (U+D800 to U+DFFF). *)
Definition surrogate (c : char) : bool :=
  ((55296 <=? c) && (c <=? 57343))%N.

Definition utf8_encodable (s : str) : bool :=
  forallb (fun c => negb (surrogate c)) s.

(** [{k: v for k in ks}] *)
Definition dict_comprehension {V} (ks : list str) (v : str -> V) : dict V :=
  fold_left (fun d k => dict_set k (v k) d) ks [].

End Py.
Import Py.

(** The letters and digits outside ASCII ([str.isalnum] beyond code point
    127) come from the Unicode database of the interpreter, which is not part
    of the repository: the table is a parameter of the development. *)
Class UnicodeTable := uni_isalnum : char -> bool.

(* ================================================================== *)
(** ** The [re] fragment used by [search_files] *)

Module Re.

Definition ascii_letter (c : char) : bool :=
  ((65 <=? c) && (c <=? 90) || (97 <=? c) && (c <=? 122))%N.

Definition ascii_digit (c : char) : bool := ((48 <=? c) && (c <=? 57))%N.

(** [\w] for a [str] pattern: [c.isalnum() or c == '_']. *)
Definition is_word `{UnicodeTable} (c : char) : bool :=
  ascii_letter c || ascii_digit c || (c =? 95)%N
  || ((128 <=? c)%N && uni_isalnum c).

Definition backslash : char := 92%N.

(** The characters [re.escape] prefixes with a backslash
    ([_special_chars_map]): the punctuation below, then tab, newline,
    carriage return, vertical tab and form feed. *)
Definition escape_specials : list char :=
  py "()[]{}?*+-|^$\.&~# " ++ [9; 10; 13; 11; 12]%N.

Definition mem_char (c : char) (l : list char) : bool := existsb (N.eqb c) l.

Definition escape (pattern : str) : str :=
  flat_map (fun c => if mem_char c escape_specials then [backslash; c] else [c])
           pattern.

(** [SPECIAL_CHARS] of the pattern parser. *)
Definition SPECIAL_CHARS : list char := py ".\[{()*+?^$|".

(** Parsed pattern items.  [search_files] only builds patterns of the shape
    [\b], escaped literal text, [\b]. *)
Inductive item :=
| AT_BOUNDARY
| LITERAL (c : char).

Definition pattern := list item.

(** The parser on the fragment: [\b] is a word boundary, a backslash before
    a character that is neither an ASCII letter nor a digit is that
    character, a character outside [SPECIAL_CHARS] is itself.  [None] is
    every other pattern: a backslash at the end or before another letter or
    digit, or an unescaped special character. *)
Fixpoint parse (src : str) : option pattern :=
  match src with
  | [] => Some []
  | c :: rest =>
      if (c =? backslash)%N then
        match rest with
        | [] => None
        | e :: rest' =>
            if (e =? chr "b")%N then option_map (cons AT_BOUNDARY) (parse rest')
            else if ascii_letter e || ascii_digit e then None
            else option_map (cons (LITERAL e)) (parse rest')
        end
      else if mem_char c SPECIAL_CHARS then None
      else option_map (cons (LITERAL c)) (parse rest)
  end.

Definition compile (src : str) : option pattern := parse src.

Section Matching.
Context `{UnicodeTable}.

(** [\b] between the character before the cursor and the text after it: the
    sides differ in word-ness, a missing side counting as not a word. *)
Definition at_boundary (prev : option char) (rest : str) : bool :=
  let thatp := match prev with Some c => is_word c | None => false end in
  let thisp := match rest with c :: _ => is_word c | [] => false end in
  negb (Bool.eqb thisp thatp).

(** Match the items at the cursor. *)
Fixpoint match_here (p : pattern) (prev : option char) (rest : str) : bool :=
  match p with
  | [] => true
  | AT_BOUNDARY :: p' => at_boundary prev rest && match_here p' prev rest
  | LITERAL c :: p' =>
      match rest with
      | x :: rest' => (x =? c)%N && match_here p' (Some x) rest'
      | [] => false
      end
  end.

Fixpoint search_from (p : pattern) (prev : option char) (rest : str) : bool :=
  match_here p prev rest
  || match rest with
     | [] => false
     | x :: rest' => search_from p (Some x) rest'
     end.

(** [pattern.search(line)] as a truth value. *)
Definition search (p : pattern) (line : str) : bool := search_from p None line.

End Matching.

End Re.

(* ================================================================== *)
(** ** Exceptions and the state-and-exception monad *)

Inductive exn :=
| OSError (msg : str)
| KeyError (key : str)
| UnboundLocalError (name : str)
| re_error (pattern : str)
| ValueError (msg : str)
| UnicodeEncodeError (text : str)
| IllegalCharacterError (value : str).

(** A statement run from a state either finishes with a value or raises, and
    in both cases leaves a state behind. *)
Definition M (S A : Type) : Type := S -> (exn + A) * S.

Definition ret {S A} (a : A) : M S A := fun s => (inr a, s).

Definition raise {S A} (e : exn) : M S A := fun s => (inl e, s).

Definition bind {S A B} (m : M S A) (k : A -> M S B) : M S B :=
  fun s => match m s with
           | (inr a, s') => k a s'
           | (inl e, s') => (inl e, s')
           end.

Definition get {S} : M S S := fun s => (inr s, s).

Definition modify {S} (f : S -> S) : M S unit := fun s => (inr tt, f s).

(** [try: body except Exception as e: handler(e)] *)
Definition try_except {S A} (body : M S A) (handler : exn -> M S A) : M S A :=
  fun s => match body s with
           | (inr a, s') => (inr a, s')
           | (inl e, s') => handler e s'
           end.

(** [for x in l: body(x)] *)
Fixpoint for_each {S A} (l : list A) (body : A -> M S unit) : M S unit :=
  match l with
  | [] => ret tt
  | x :: l' => bind (body x) (fun _ => for_each l' body)
  end.

(** [d[k]] as an expression. *)
Definition lookup {S V} (k : str) (d : dict V) : M S V :=
  match dict_get k d with
  | Some v => ret v
  | None => raise (KeyError k)
  end.

Declare Scope monad_scope.
Delimit Scope monad_scope with monad.
Notation "x <- m ;; k" := (bind m (fun x => k))
  (at level 61, m at next level, right associativity) : monad_scope.
Notation "m ;;; k" := (bind m (fun _ => k))
  (at level 61, right associativity) : monad_scope.

(* ================================================================== *)
(** ** The directory tree and [os.walk] *)

Module Os.

#[local] Set Warnings "-register-all".

(** What the scan can see of the file system.  A file carries what
    [open(...).readlines()] gives for it: the lines, each with its line
    ending, or the exception that [open] raises ([open] follows a symbolic
    link, so that a link to a file is a file here).  A directory carries
    whether it can be listed, and its entries in listing order; [DirLink]
    is a symbolic link to a directory, with what is found behind it. *)
Inductive node :=
| File (name : str) (content : exn + list str)
| Dir (name : str) (listable : bool) (entries : list node)
| DirLink (name : str) (listable : bool) (entries : list node).

Definition sep : str := py "/".

(** [os.path.join(a, b)] on POSIX. *)
Definition path_join (a b : str) : str :=
  match b with
  | c :: _ =>
      if (c =? chr "/")%N then b
      else match rev a with
           | [] => b
           | l :: _ => if (l =? chr "/")%N then a ++ b else a ++ sep ++ b
           end
  | [] => match rev a with
          | [] => b
          | l :: _ => if (l =? chr "/")%N then a else a ++ sep
          end
  end.

(** One triple [(root, dirs, files)] of the walk.  [rel] lists the directory
    names from the base directory down to [root], and each file name comes
    with what reading it gives. *)
Record walk_item := {
  root : str;
  rel : list str;
  dirs : list str;
  files : list (str * (exn + list str))
}.

(** [entry.is_dir()] follows symbolic links: a link to a directory is
    listed among the directories. *)
Fixpoint dirnames (es : list node) : list str :=
  match es with
  | [] => []
  | Dir nm _ _ :: es' => nm :: dirnames es'
  | DirLink nm _ _ :: es' => nm :: dirnames es'
  | File _ _ :: es' => dirnames es'
  end.

Fixpoint nondirs (es : list node) : list (str * (exn + list str)) :=
  match es with
  | [] => []
  | File nm c :: es' => (nm, c) :: nondirs es'
  | Dir _ _ _ :: es' => nondirs es'
  | DirLink _ _ _ :: es' => nondirs es'
  end.

(** The walk below a directory [top], with the defaults of [os.walk]
    (top-down, [onerror=None], [followlinks=False]): a [top] that cannot be
    listed yields nothing, the error being dropped; otherwise the triple of
    [top] comes first and the walks of its sub-directories follow in
    listing order.  A symbolic link to a directory is named in [dirs] and
    not walked. *)
Fixpoint walk_node (top : str) (rel : list str) (n : node) : list walk_item :=
  match n with
  | File _ _ => []
  | DirLink _ _ _ => []
  | Dir _ false _ => []
  | Dir _ true es =>
      {| root := top; rel := rel; dirs := dirnames es; files := nondirs es |}
      :: flat_map (fun e => match e with
                            | Dir nm _ _ =>
                                walk_node (path_join top nm) (rel ++ [nm]) e
                            | DirLink _ _ _ => []
                            | File _ _ => []
                            end) es
  end.

(** What the file system interface makes of a path given as a string, with
    the UTF-8 file system encoding of POSIX systems: the path is encoded
    with the [surrogateescape] handler, which takes the surrogates U+DC80
    to U+DCFF and no other, and must hold no NUL. *)
Definition escaped_byte (c : char) : bool :=
  ((56448 <=? c) && (c <=? 56575))%N.

Definition path_error (path : str) : option exn :=
  if existsb (fun c => surrogate c && negb (escaped_byte c)) path
  then Some (UnicodeEncodeError path)
  else if existsb (N.eqb 0) path
  then Some (ValueError (py "embedded null byte"))
  else None.

(** [os.walk(base_dir)], run to its end: the error that [os.scandir]
    raises for a string that is no path is no [OSError] and is not
    dropped; otherwise the triples, for what is found at [base_dir]
    ([None] when the path does not exist).  The walk follows a symbolic
    link that is its starting point. *)
Definition walk (base_dir : str) (found : option node)
  : exn + list walk_item :=
  match path_error base_dir with
  | Some e => inl e
  | None =>
      inr match found with
          | None => []
          | Some (DirLink nm listable es) =>
              walk_node base_dir [] (Dir nm listable es)
          | Some n => walk_node base_dir [] n
          end
  end.

(** [os.path.relpath(os.path.join(root, file), base_dir)] for a file that the
    walk reached through the directories [rel] below the base directory. *)
Definition relpath (rel : list str) (file : str) : str :=
  Py.join sep (rel ++ [file]).

End Os.

(* ================================================================== *)
(** ** The data of a run *)

(** One entry of [excel_data]: the list
    [[keyword, relative_file_path, i + 1, hit_line, full_context]], whose
    positions 0 to 4 are the fields below. *)
Record MatchRecord := {
  keyword : str;
  file : str;
  lineno : Z;
  hit_line : str;
  full_context : str
}.

(** One value of [results]:
    [{'hit_count': ..., 'file_count': ..., 'files': {...}}]. *)
Record KeywordSummary := {
  hit_count : Z;
  file_count : Z;
  files : dict (list str)
}.

(* ================================================================== *)
(** ** [save_results_to_excel] *)

Module Excel.

Inductive border_style := thin | medium.

(** [Border(left=Side(..), right=Side(..), top=Side(..), bottom=Side(..))];
    [None] is a side without a style. *)
Record Border := {
  left : option border_style;
  right : option border_style;
  top : option border_style;
  bottom : option border_style
}.

Record Alignment := {
  horizontal : option str;
  vertical : option str;
  wrap_text : bool
}.

Record cell_style := {
  border : Border;
  fill : option str;
  alignment : Alignment
}.

Definition no_border : Border :=
  {| left := None; right := None; top := None; bottom := None |}.

Definition default_style : cell_style :=
  {| border := no_border; fill := None;
     alignment := {| horizontal := None; vertical := None;
                     wrap_text := false |} |}.

(** The styles of a sheet by row and column, both counted from 1;
    [ws.cell(row=r, column=c)] always gives a cell. *)
Definition styles := Z -> Z -> cell_style.

Definition set_style (r c : Z) (f : cell_style -> cell_style) (s : styles)
  : styles :=
  fun r' c' => if ((r' =? r) && (c' =? c))%Z then f (s r' c') else s r' c'.

Definition set_border (b : Border) (st : cell_style) : cell_style :=
  {| border := b; fill := fill st; alignment := alignment st |}.

Definition set_fill (color : str) (st : cell_style) : cell_style :=
  {| border := border st; fill := Some color; alignment := alignment st |}.

Definition set_alignment (a : Alignment) (st : cell_style) : cell_style :=
  {| border := border st; fill := fill st; alignment := a |}.

(** The detail sheet: its header in row 1, the appended records from row 2
    on (the values of their cells), and the cell styles.  The summary
    sheet: the values of one row per item of [results]; its styles, and
    the column widths and frozen panes of both sheets, are constants of
    the layout and are left out. *)
Record worksheet := {
  body : list MatchRecord;
  style : styles
}.

Record Workbook := {
  ws_summary : list (str * Z * Z);
  ws_details : worksheet
}.

(** [a < b] on the sort keys [(x[1], x[0])]: tuples compare by their first
    differing component. *)
Definition key_ltb (a b : str * str) : bool :=
  str_ltb (fst a) (fst b)
  || (str_eqb (fst a) (fst b) && str_ltb (snd a) (snd b)).

Definition sort_key (x : MatchRecord) : str * str := (file x, keyword x).

(** [sorted(l, key=key)].  The built-in sort is stable and compares keys
    with [<] only; the result is the one list that is ordered by key and
    keeps equal keys in their order in [l], computed here by inserting from
    the right, each element before the first one that is not smaller. *)
Fixpoint insert {A K} (ltb : K -> K -> bool) (key : A -> K) (x : A)
  (l : list A) : list A :=
  match l with
  | [] => [x]
  | y :: l' => if ltb (key y) (key x) then y :: insert ltb key x l'
               else x :: y :: l'
  end.

Definition sorted {A K} (ltb : K -> K -> bool) (key : A -> K) (l : list A)
  : list A :=
  fold_right (insert ltb key) [] l.

(** The characters that [ILLEGAL_CHARACTERS_RE] finds: U+0000 to U+0008,
    U+000B, U+000C and U+000E to U+001F. *)
Definition illegal_character (c : char) : bool :=
  ((c <=? 8) || (11 <=? c) && (c <=? 12) || (14 <=? c) && (c <=? 31))%N.

(** [Cell.check_string(value)], which every string put into a cell goes
    through: the string is cut at 32767 characters, and what is left must
    hold no illegal character. *)
Definition check_string (value : str) : exn + str :=
  let value := slice value 0 32767 in
  if existsb illegal_character value
  then inl (IllegalCharacterError value)
  else inr value.

(** The cells that [ws.append(row_data)] makes of a record, column by
    column; the line number is an [int] and goes in as it is. *)
Definition check_row (row_data : MatchRecord) : exn + MatchRecord :=
  match check_string (keyword row_data) with
  | inl e => inl e
  | inr k =>
  match check_string (file row_data) with
  | inl e => inl e
  | inr f =>
  match check_string (hit_line row_data) with
  | inl e => inl e
  | inr h =>
  match check_string (full_context row_data) with
  | inl e => inl e
  | inr c =>
      inr {| keyword := k; file := f; lineno := lineno row_data;
             hit_line := h; full_context := c |}
  end end end end.

(** [for keyword, data in results.items(): ws_summary.append([...])] *)
Fixpoint summary_rows (results : dict KeywordSummary)
  : exn + list (str * Z * Z) :=
  match results with
  | [] => inr []
  | (keyword, data) :: rest =>
      match check_string keyword with
      | inl e => inl e
      | inr k =>
          match summary_rows rest with
          | inl e => inl e
          | inr rows => inr ((k, hit_count data, file_count data) :: rows)
          end
      end
  end.

Definition color_a1 : str := py "BBDEFB".
Definition color_a2 : str := py "E3F2FD".
Definition color_b1 : str := py "FFCC80".
Definition color_b2 : str := py "FFF3E0".

(** The local variables of [save_results_to_excel] that the two passes
    read and write.  [None] in [current_keyword_toggle] is the variable
    before its first assignment; [None] in [current_file] and
    [current_keyword] is the Python value [None]. *)
Record locals := {
  file_colors : dict str;
  keyword_colors : dict (dict str);
  current_file : option str;
  file_toggle : bool;
  current_keyword_toggle : option bool;
  current_keyword : option str;
  details : worksheet
}.

(** Lines 247 to 251: the five cells of the header row are filled and
    centred, with wrapping. *)
Definition header_style : cell_style :=
  {| border := no_border; fill := Some (py "66CCFF");
     alignment := {| horizontal := Some (py "center");
                     vertical := Some (py "center");
                     wrap_text := true |} |}.

Definition header_styles : styles :=
  fun r c => if ((r =? 1) && (1 <=? c) && (c <=? 5))%Z then header_style
             else default_style.

(** The locals before the pre-pass, the detail sheet holding its header. *)
Definition init_locals : locals :=
  {| file_colors := []; keyword_colors := []; current_file := None;
     file_toggle := false; current_keyword_toggle := None;
     current_keyword := None;
     details := {| body := []; style := header_styles |} |}.

Definition with_file_colors v (l : locals) : locals :=
  {| file_colors := v; keyword_colors := keyword_colors l;
     current_file := current_file l; file_toggle := file_toggle l;
     current_keyword_toggle := current_keyword_toggle l;
     current_keyword := current_keyword l; details := details l |}.

Definition with_keyword_colors v (l : locals) : locals :=
  {| file_colors := file_colors l; keyword_colors := v;
     current_file := current_file l; file_toggle := file_toggle l;
     current_keyword_toggle := current_keyword_toggle l;
     current_keyword := current_keyword l; details := details l |}.

Definition with_current_file v (l : locals) : locals :=
  {| file_colors := file_colors l; keyword_colors := keyword_colors l;
     current_file := v; file_toggle := file_toggle l;
     current_keyword_toggle := current_keyword_toggle l;
     current_keyword := current_keyword l; details := details l |}.

Definition with_file_toggle v (l : locals) : locals :=
  {| file_colors := file_colors l; keyword_colors := keyword_colors l;
     current_file := current_file l; file_toggle := v;
     current_keyword_toggle := current_keyword_toggle l;
     current_keyword := current_keyword l; details := details l |}.

Definition with_current_keyword_toggle v (l : locals) : locals :=
  {| file_colors := file_colors l; keyword_colors := keyword_colors l;
     current_file := current_file l; file_toggle := file_toggle l;
     current_keyword_toggle := v;
     current_keyword := current_keyword l; details := details l |}.

Definition with_current_keyword v (l : locals) : locals :=
  {| file_colors := file_colors l; keyword_colors := keyword_colors l;
     current_file := current_file l; file_toggle := file_toggle l;
     current_keyword_toggle := current_keyword_toggle l;
     current_keyword := v; details := details l |}.

Definition with_details v (l : locals) : locals :=
  {| file_colors := file_colors l; keyword_colors := keyword_colors l;
     current_file := current_file l; file_toggle := file_toggle l;
     current_keyword_toggle := current_keyword_toggle l;
     current_keyword := current_keyword l; details := v |}.

(** [x != current] for a string [x] and a variable holding a string or
    [None]. *)
Definition differs (x : str) (current : option str) : bool :=
  match current with
  | None => true
  | Some y => negb (str_eqb x y)
  end.

Definition is_not_None {A} (v : option A) : bool :=
  match v with Some _ => true | None => false end.

Local Open Scope monad_scope.

(** The banding pre-pass, one record of the sorted data. *)
Definition band_step (row_data : MatchRecord) : M locals unit :=
  let keyword := keyword row_data in
  let file_path := file row_data in
  l <- get ;;
  (if differs file_path (current_file l) then
     modify (with_current_file (Some file_path)) ;;;
     modify (with_file_toggle (negb (file_toggle l))) ;;;
     l <- get ;;
     modify (with_file_colors
               (dict_set file_path
                  (if file_toggle l then color_a1 else color_a2)
                  (file_colors l))) ;;;
     modify (with_keyword_colors (dict_set file_path [] (keyword_colors l))) ;;;
     modify (with_current_keyword_toggle (Some false))
   else ret tt) ;;;
  l <- get ;;
  kc <- lookup file_path (keyword_colors l) ;;
  if negb (dict_mem keyword kc) then
    t <- match current_keyword_toggle l with
         | Some t => ret t
         | None => raise (UnboundLocalError (py "current_keyword_toggle"))
         end ;;
    modify (with_current_keyword_toggle (Some (negb t))) ;;;
    modify (with_keyword_colors
              (dict_set file_path
                 (dict_set keyword (if negb t then color_b1 else color_b2) kc)
                 (keyword_colors l)))
  else ret tt.

Definition columns_1_to_5 : list Z := [1; 2; 3; 4; 5]%Z.
Definition columns_1_to_4 : list Z := [1; 2; 3; 4]%Z.

Definition set_cell (r c : Z) (f : cell_style -> cell_style) : M locals unit :=
  modify (fun l => with_details
                     {| body := body (details l);
                        style := set_style r c f (style (details l)) |} l).

Definition center : Alignment :=
  {| horizontal := Some (py "center"); vertical := Some (py "center");
     wrap_text := false |}.

(** [ws_details.append(row_data)]: the row is there once every cell has
    taken its value. *)
Definition append_row (row_data : MatchRecord) : M locals unit :=
  match check_row row_data with
  | inr cells =>
      modify (fun l => with_details
                         {| body := body (details l) ++ [cells];
                            style := style (details l) |} l)
  | inl e => raise e
  end.

(** Lines 305 to 313: the weight of the border above the row. *)
Definition choose_border_type (row_data : MatchRecord)
  : M locals border_style :=
  let keyword := keyword row_data in
  let file_path := file row_data in
  l <- get ;;
  if is_not_None (current_file l) && differs file_path (current_file l)
  then modify (with_current_keyword None) ;;; ret medium
  else if is_not_None (current_keyword l)
          && differs keyword (current_keyword l)
          && negb (differs file_path (current_file l))
  then ret thin
  else ret thin.

(** The border of a cell of the previous row once its bottom side is
    drawn: the other sides are kept, but for the outer frame. *)
Definition with_bottom (border_type : border_style) (col : Z)
  (cell : cell_style) : cell_style :=
  let current_border := border cell in
  let left_border :=
    if (col =? 1)%Z then Some medium else left current_border in
  let right_border :=
    if (col =? 1)%Z then right current_border
    else if (col =? 5)%Z then Some medium
    else right current_border in
  set_border {| left := left_border; right := right_border;
                top := top current_border;
                bottom := Some border_type |} cell.

(** Lines 316 to 338: the bottom border of the previous row. *)
Definition close_previous_row (row_idx : Z) (border_type : border_style)
  : M locals unit :=
  if (row_idx >? 2)%Z then
    for_each columns_1_to_5 (fun col =>
      set_cell (row_idx - 1) col (with_bottom border_type col))
  else ret tt.

(** The fresh border of a cell of the current row. *)
Definition top_only (border_type : border_style) (col : Z) : Border :=
  if (col =? 1)%Z then
    {| left := Some medium; right := None;
       top := Some border_type; bottom := None |}
  else if (col =? 5)%Z then
    {| left := None; right := Some medium;
       top := Some border_type; bottom := None |}
  else
    {| left := None; right := None;
       top := Some border_type; bottom := None |}.

(** Lines 341 to 358: the top border of the current row. *)
Definition open_current_row (row_idx : Z) (border_type : border_style)
  : M locals unit :=
  for_each columns_1_to_5 (fun col =>
    set_cell row_idx col (set_border (top_only border_type col))).

(** Lines 364 to 382: alignment and fill of one of the columns A to D. *)
Definition fill_cell (row_idx : Z) (row_data : MatchRecord) (col_idx : Z)
  : M locals unit :=
  let keyword := keyword row_data in
  let file_path := file row_data in
  set_cell row_idx col_idx (set_alignment center) ;;;
  if (col_idx =? 2)%Z then
    l <- get ;;
    color <- lookup file_path (file_colors l) ;;
    set_cell row_idx col_idx (set_fill color)
  else if (col_idx =? 1)%Z then
    l <- get ;;
    kc <- lookup file_path (keyword_colors l) ;;
    color <- lookup keyword kc ;;
    set_cell row_idx col_idx (set_fill color)
  else ret tt.

Definition top_wrapped : Alignment :=
  {| horizontal := None; vertical := Some (py "top"); wrap_text := true |}.

(** The body of the second loop for the record at sheet row [row_idx]. *)
Definition row_step (row : Z * MatchRecord) : M locals unit :=
  let row_idx := fst row in
  let row_data := snd row in
  append_row row_data ;;;
  border_type <- choose_border_type row_data ;;
  close_previous_row row_idx border_type ;;;
  open_current_row row_idx border_type ;;;
  modify (with_current_file (Some (file row_data))) ;;;
  modify (with_current_keyword (Some (keyword row_data))) ;;;
  for_each columns_1_to_4 (fill_cell row_idx row_data) ;;;
  set_cell row_idx 5 (set_alignment top_wrapped).

(** The bottom border of the last row, after the loop. *)
Definition last_row_pass (sorted_excel_data : list MatchRecord)
  : M locals unit :=
  if (Z.of_nat (List.length sorted_excel_data) >? 0)%Z then
    let last_row := (Z.of_nat (List.length sorted_excel_data) + 1)%Z in
    for_each columns_1_to_5 (fun col =>
      set_cell last_row col
        (set_border
           (if (col =? 1)%Z then
              {| left := Some medium; right := None;
                 top := None; bottom := Some medium |}
            else if (col =? 5)%Z then
              {| left := None; right := Some medium;
                 top := None; bottom := Some medium |}
            else
              {| left := None; right := None;
                 top := None; bottom := Some medium |})))
  else ret tt.

Definition sorted_data (excel_data : list MatchRecord) : list MatchRecord :=
  sorted key_ltb sort_key excel_data.

(** The banding pre-pass over the sorted data. *)
Definition band_pass (sorted_excel_data : list MatchRecord) : M locals unit :=
  modify (with_current_file None) ;;;
  modify (with_file_toggle false) ;;;
  for_each sorted_excel_data band_step.

(** The second loop: rows, borders and fills. *)
Definition border_pass (sorted_excel_data : list MatchRecord)
  : M locals unit :=
  modify (with_current_file None) ;;;
  modify (with_current_keyword None) ;;;
  for_each (enumerate 2 sorted_excel_data) row_step.

(** The two loops over the sorted data, then the last row. *)
Definition render_loops (excel_data : list MatchRecord) : M locals unit :=
  let sorted_excel_data := sorted_data excel_data in
  band_pass sorted_excel_data ;;;
  border_pass sorted_excel_data.

Definition render (excel_data : list MatchRecord) : M locals unit :=
  render_loops excel_data ;;;
  last_row_pass (sorted_data excel_data).

(** [save_results_to_excel(output_excel, results, excel_data)] up to its
    last line: the workbook handed to [wb.save], or the exception that
    stops the function - in the summary sheet first, which is filled
    first. *)
Definition save_results_to_excel (results : dict KeywordSummary)
  (excel_data : list MatchRecord) : exn + Workbook :=
  match summary_rows results with
  | inl e => inl e
  | inr rows =>
      match render excel_data init_locals with
      | (inr _, l) => inr {| ws_summary := rows; ws_details := details l |}
      | (inl e, _) => inl e
      end
  end.

End Excel.

(* ================================================================== *)
(** ** [search_files] *)

Module Search.

(** What the run prints, and what it writes. *)
Inductive output :=
| print (text : str)
| print_error (file_path : str) (e : exn).

Inductive artifact :=
| text_file (content : str)
| excel_file (wb : Excel.Workbook).

(** The variables of [search_files] that its loops update, with the standard
    output and the files written so far. *)
Record state := {
  results : dict KeywordSummary;
  excel_data : list MatchRecord;
  file_hits : dict Z;
  file_results : dict (list str);
  stdout : list output;
  written : list (str * artifact)
}.

Definition init_state : state :=
  {| results := []; excel_data := []; file_hits := []; file_results := [];
     stdout := []; written := [] |}.

Definition with_results v (s : state) : state :=
  {| results := v; excel_data := excel_data s; file_hits := file_hits s;
     file_results := file_results s; stdout := stdout s;
     written := written s |}.

Definition with_excel_data v (s : state) : state :=
  {| results := results s; excel_data := v; file_hits := file_hits s;
     file_results := file_results s; stdout := stdout s;
     written := written s |}.

Definition with_file_hits v (s : state) : state :=
  {| results := results s; excel_data := excel_data s; file_hits := v;
     file_results := file_results s; stdout := stdout s;
     written := written s |}.

Definition with_file_results v (s : state) : state :=
  {| results := results s; excel_data := excel_data s;
     file_hits := file_hits s; file_results := v; stdout := stdout s;
     written := written s |}.

Definition with_stdout v (s : state) : state :=
  {| results := results s; excel_data := excel_data s;
     file_hits := file_hits s; file_results := file_results s; stdout := v;
     written := written s |}.

Definition with_written v (s : state) : state :=
  {| results := results s; excel_data := excel_data s;
     file_hits := file_hits s; file_results := file_results s;
     stdout := stdout s; written := v |}.

Definition add_hit (s : KeywordSummary) : KeywordSummary :=
  {| hit_count := hit_count s + 1; file_count := file_count s;
     files := files s |}.

Definition add_file (rel : str) (descs : list str) (s : KeywordSummary)
  : KeywordSummary :=
  {| hit_count := hit_count s; file_count := file_count s + 1;
     files := dict_set rel descs (files s) |}.

Definition empty_summary : KeywordSummary :=
  {| hit_count := 0; file_count := 0; files := [] |}.

Local Open Scope monad_scope.

(** [str(e)] for the exception [e] of a file that could not be read. *)
Definition exception_text (e : exn) : str :=
  match e with
  | OSError msg => msg
  | KeyError key => key
  | UnboundLocalError name => name
  | re_error pattern => pattern
  | ValueError msg => msg
  | UnicodeEncodeError text => text
  | IllegalCharacterError value => value
  end.

(** The line printed for a file that could not be read. *)
Definition warning_text (file_path : str) (e : exn) : str :=
  py "エラー: " ++ file_path ++ py " を読み込めませんでした - "
  ++ exception_text e.

(** [print(text)], recorded as [o].  The standard output is taken to be a
    UTF-8 stream with the strict error handler, as in a UTF-8 locale: a
    text that holds a surrogate raises, and nothing of it is printed. *)
Definition print_as (o : output) (text : str) : M state unit :=
  if utf8_encodable text
  then modify (fun s => with_stdout (stdout s ++ [o]) s)
  else raise (UnicodeEncodeError text).

Definition print_text (text : str) : M state unit :=
  print_as (print text) text.

(** [with open(path, 'w', encoding='utf-8') as f: f.write(text)]: [open]
    raises for a string that is no path, and creates the file otherwise;
    a text that cannot be encoded raises and leaves the file empty.  The
    target is taken to be writable. *)
Definition write_text (path text : str) : M state unit :=
  match Os.path_error path with
  | Some e => raise e
  | None =>
      if utf8_encodable text
      then modify (fun s => with_written
                              (written s ++ [(path, text_file text)]) s)
      else bind (modify (fun s => with_written
                                    (written s ++ [(path, text_file [])]) s))
                (fun _ => raise (UnicodeEncodeError text))
  end.

(** [wb.save(path)]: the target is opened like any file and is taken to
    be writable. *)
Definition save_workbook (path : str) (wb : Excel.Workbook) : M state unit :=
  match Os.path_error path with
  | Some e => raise e
  | None => modify (fun s => with_written
                               (written s ++ [(path, excel_file wb)]) s)
  end.

(** [re.compile(rf'\b{re.escape(keyword)}\b')] *)
Definition keyword_source (keyword : str) : str :=
  py "\b" ++ Re.escape keyword ++ py "\b".

Definition compile_keyword {S} (keyword : str) : M S Re.pattern :=
  match Re.compile (keyword_source keyword) with
  | Some p => ret p
  | None => raise (re_error (keyword_source keyword))
  end.

Fixpoint compile_keywords {S} (keywords : list str) : M S (list Re.pattern) :=
  match keywords with
  | [] => ret []
  | keyword :: rest =>
      p <- compile_keyword keyword ;;
      ps <- compile_keywords rest ;;
      ret (p :: ps)
  end.

(** The context of the hit at index [i]: [lines[start:end]] joined and
    stripped. *)
Definition context_start (i : Z) : Z := Z.max (i - 2) 0.

Definition context_end (i : Z) (lines : list str) : Z :=
  Z.min (i + 3) (Z.of_nat (List.length lines)).

Definition context_window (i : Z) (lines : list str) : list str :=
  slice lines (context_start i) (context_end i lines).

Definition hit_description (relative_file_path : str) (i : Z) (hit_line : str)
  : str :=
  relative_file_path ++ py " (Line " ++ str_of_int (i + 1) ++ py "): "
  ++ hit_line.

Section Scan.
Context `{UnicodeTable}.

(** The body of [if pattern.search(line):]. *)
Definition record_hit (relative_file_path : str) (lines : list str) (i : Z)
  (line : str) (keyword : str) : M state unit :=
  s <- get ;;
  summary <- lookup keyword (results s) ;;
  modify (with_results (dict_set keyword (add_hit summary) (results s))) ;;;
  s <- get ;;
  hits <- lookup keyword (file_hits s) ;;
  modify (with_file_hits (dict_set keyword (hits + 1)%Z (file_hits s))) ;;;
  let hit_line := strip line in
  let full_context := strip (join_empty (context_window i lines)) in
  s <- get ;;
  descs <- lookup keyword (file_results s) ;;
  modify (with_file_results
            (dict_set keyword
               (descs ++ [hit_description relative_file_path i hit_line])
               (file_results s))) ;;;
  modify (fun s => with_excel_data
                     (excel_data s
                      ++ [{| keyword := keyword; file := relative_file_path;
                             lineno := i + 1; hit_line := hit_line;
                             full_context := full_context |}]) s).

(** [for i, line in enumerate(lines): for keyword, pattern in zip(...)]. *)
Definition scan_lines (keywords : list str) (keyword_patterns : list Re.pattern)
  (relative_file_path : str) (lines : list str) : M state unit :=
  for_each (enumerate 0 lines) (fun il =>
    for_each (combine keywords keyword_patterns) (fun kp =>
      if Re.search (snd kp) (snd il)
      then record_hit relative_file_path lines (fst il) (snd il) (fst kp)
      else ret tt)).

(** The loop that registers the file under each keyword that hit in it. *)
Definition register_file (keywords : list str) (relative_file_path : str)
  : M state unit :=
  for_each keywords (fun keyword =>
    s <- get ;;
    hits <- lookup keyword (file_hits s) ;;
    if (hits >? 0)%Z then
      summary <- lookup keyword (results s) ;;
      descs <- lookup keyword (file_results s) ;;
      modify (with_results
                (dict_set keyword (add_file relative_file_path descs summary)
                   (results s)))
    else ret tt).

(** The body of [for file in files]. *)
Definition scan_file (keywords : list str) (keyword_patterns : list Re.pattern)
  (root : str) (rel : list str) (entry : str * (exn + list str))
  : M state unit :=
  let file := fst entry in
  let file_path := Os.path_join root file in
  let relative_file_path := Os.relpath rel file in
  try_except
    (lines <- match snd entry with
              | inr lines => ret lines
              | inl e => raise e
              end ;;
     modify (with_file_hits (dict_comprehension keywords (fun _ => 0%Z))) ;;;
     modify (with_file_results (dict_comprehension keywords (fun _ => []))) ;;;
     scan_lines keywords keyword_patterns relative_file_path lines ;;;
     register_file keywords relative_file_path)
    (fun e => print_as (print_error file_path e) (warning_text file_path e)).

(** The scan: lines 129 to 170. *)
Definition scan (keywords : list str) (base_dir : str)
  (found : option Os.node) : M state unit :=
  keyword_patterns <- compile_keywords keywords ;;
  modify (with_results (dict_comprehension keywords (fun _ => empty_summary))) ;;;
  modify (with_excel_data []) ;;;
  items <- match Os.walk base_dir found with
           | inr items => ret items
           | inl e => raise e
           end ;;
  for_each items (fun item =>
    for_each (Os.files item)
      (scan_file keywords keyword_patterns (Os.root item) (Os.rel item))).

End Scan.

(** The text report: lines 172 to 185. *)
Definition keyword_lines (keyword : str) (summary : KeywordSummary)
  : list str :=
  [py "検索ワード: '" ++ keyword ++ py "'";
   py "  ヒット総数: " ++ str_of_int (hit_count summary);
   py "  該当ファイル数: " ++ str_of_int (file_count summary);
   []]
  ++ flat_map (fun fl =>
       [py "  " ++ fst fl ++ py ":"]
       ++ map (fun line => py "    " ++ line) (snd fl)
       ++ [[]]) (files summary).

Fixpoint output_lines (keywords : list str) (results : dict KeywordSummary)
  : M state (list str) :=
  match keywords with
  | [] => ret []
  | keyword :: rest =>
      summary <- lookup keyword results ;;
      tail <- output_lines rest results ;;
      ret (keyword_lines keyword summary ++ tail)
  end.

Definition newline : str := [10%N].

(** A string or [None] used as a condition. *)
Definition truthy (v : option str) : option str :=
  match v with
  | Some (c :: s) => Some (c :: s)
  | _ => None
  end.

(** Lines 187 to 192: the report goes to the file, or to the standard
    output. *)
Definition write_report (output_file : option str) (result_text : str)
  : M state unit :=
  match truthy output_file with
  | Some path =>
      write_text path result_text ;;;
      print_text (py "検索結果を '" ++ path ++ py "' に保存しました。")
  | None => print_text result_text
  end.

(** Lines 194 to 196: the workbook, when it is asked for. *)
Definition write_excel (output_excel : option str) : M state unit :=
  match truthy output_excel with
  | Some path =>
      s <- get ;;
      match Excel.save_results_to_excel (results s) (excel_data s) with
      | inr wb =>
          save_workbook path wb ;;;
          print_text (py "検索結果を Excelファイル '" ++ path
                      ++ py "' に保存しました。")
      | inl e => raise e
      end
  | None => ret tt
  end.

(** [search_files(keywords, base_dir, output_file, output_excel)], with
    [found] the directory tree at [base_dir]. *)
Definition search_files `{UnicodeTable} (keywords : list str) (base_dir : str)
  (found : option Os.node) (output_file output_excel : option str)
  : M state unit :=
  scan keywords base_dir found ;;;
  s <- get ;;
  lines <- output_lines keywords (results s) ;;
  let result_text := Py.join newline lines in
  write_report output_file result_text ;;;
  write_excel output_excel.

(** A run from the start. *)
Definition run `{UnicodeTable} (keywords : list str) (base_dir : str)
  (found : option Os.node) (output_file output_excel : option str)
  : (exn + unit) * state :=
  search_files keywords base_dir found output_file output_excel init_state.

End Search.

(* ================================================================== *)
(** ** The command line: [main] and its helpers *)

Module Cli.

(** [datetime.now()]: the fields that [strftime] reads. *)
Record datetime := {
  year : Z;
  month : Z;
  day : Z;
  hour : Z;
  minute : Z;
  second : Z
}.

Definition digit (n : Z) : char := (48 + Z.to_N n)%N.

(** The zero-padded decimal fields of [strftime]: [%m], [%d], [%H], [%M]
    and [%S] have two digits; [%Y] has four for the years 1000 to 9999
    (below 1000 the padding depends on the platform). *)
Definition pad2 (n : Z) : str := [digit (n / 10); digit (n mod 10)].

Definition pad4 (n : Z) : str :=
  [digit (n / 1000); digit (n / 100 mod 10); digit (n / 10 mod 10);
   digit (n mod 10)].

(** [now.strftime("%Y%m%d_%H%M%S")] *)
Definition timestamp (now : datetime) : str :=
  pad4 (year now) ++ pad2 (month now) ++ pad2 (day now) ++ py "_"
  ++ pad2 (hour now) ++ pad2 (minute now) ++ pad2 (second now).

(** [get_default_output_filename()], at the time [now]. *)
Definition get_default_output_filename (now : datetime) : str :=
  py "result_" ++ timestamp now ++ py ".xlsx".

(** A value of a cell of the sheet that [write_to_excel] fills. *)
Inductive value :=
| Text (s : str)
| Number (n : Z).

(** The workbook of [write_to_excel]: the title of its sheet and the rows
    appended to it. *)
Record Workbook := {
  title : str;
  rows : list (list value)
}.

(** One item of [search_results]: a tuple [(file, line, content)]. *)
Definition result := (str * Z * str)%type.

Definition values_of (item : result) : list value :=
  [Text (fst (fst item)); Number (snd (fst item)); Text (snd item)].

(** What [main] does that can be seen from outside. *)
Inductive event :=
| print_usage                               (* [print_usage()] *)
| print (text : str)                        (* [print] of a string *)
| print_tuple (item : result)               (* [print(result)] *)
| save (filename : str) (wb : Workbook).    (* [wb.save(filename)] *)

(** [write_to_excel(filename, data)] *)
Definition write_to_excel (filename : str) (data : list result)
  : list event :=
  let wb :=
    {| title := py "検索結果";
       rows := [Text (py "ファイル名"); Text (py "行番号"); Text (py "内容")]
               :: map values_of data |} in
  [save filename wb;
   print (py "検索結果を " ++ filename ++ py " に出力しました。")].

Inductive output_kind := excel | csv | text.

Definition output_kind_eqb (a b : output_kind) : bool :=
  match a, b with
  | excel, excel | csv, csv | text, text => true
  | _, _ => false
  end.

(** The namespace that [parser.parse_args()] returns. *)
Record Namespace := {
  help : bool;
  path : str;
  no_recursive : bool;
  case_sensitive : bool;
  file_pattern : option str;
  output : option str;
  output_type : output_kind;
  stdout : bool;
  search_term : option str
}.

(** The dummy data that [main] outputs. *)
Definition search_results : list result :=
  [(py "example.txt", 10%Z, py "これは検索結果の例です。");
   (py "example.txt", 20%Z, py "別の検索結果の例です。")].

(** [main()], for [len(sys.argv) = argc], the namespace [args] that the
    parser returns for the arguments, and the time [now]: what it does, and
    the status of [sys.exit] when it exits ([None] when it returns).
    [output_to_file] is set together with a file name, so that
    [write_to_excel] is always called with one. *)
Definition main (argc : nat) (args : Namespace) (now : datetime)
  : list event * option Z :=
  if (argc =? 1)%nat then ([print_usage], Some 0%Z)
  else if help args
          || match Search.truthy (search_term args) with
             | Some _ => false
             | None => true
             end
  then ([print_usage], Some 0%Z)
  else
    let recursive := negb (no_recursive args) in
    let ignore_case := negb (case_sensitive args) in
    let output_to_file := negb (stdout args) in
    let output_file :=
      if stdout args then None
      else Some (match Search.truthy (output args) with
                 | Some name => name
                 | None => get_default_output_filename now
                 end) in
    if output_to_file && output_kind_eqb (output_type args) excel then
      match output_file with
      | Some name => (write_to_excel name search_results, None)
      | None => ([], None)
      end
    else if stdout args then (map print_tuple search_results, None)
    else ([], None).

End Cli.

(* ================================================================== *)
(** ** [draw_border_around_group] *)

Module Group.

(** [Side(border_style=..., color=...)] *)
Record Side := {
  border_style : option Excel.border_style;
  color : option str
}.

Record Border := {
  left : Side;
  right : Side;
  top : Side;
  bottom : Side
}.

(** The borders of the cells of a worksheet, by row and column. *)
Definition borders := Z -> Z -> Border.

(** A statement finishes or raises the [ValueError] of [worksheet.cell] for
    a row or column below 1; in both cases the worksheet stays as the
    statement left it. *)
Inductive outcome := finished | ValueError.

Definition statement := borders -> outcome * borders.

Definition skip : statement := fun ws => (finished, ws).

Definition then_ (a b : statement) : statement :=
  fun ws => match a ws with
            | (finished, ws') => b ws'
            | (ValueError, ws') => (ValueError, ws')
            end.

Fixpoint for_in {A} (l : list A) (body : A -> statement) : statement :=
  match l with
  | [] => skip
  | x :: l' => then_ (body x) (for_in l' body)
  end.

(** [worksheet.cell(row=row, column=col).border = b] *)
Definition set_border (row col : Z) (b : Border) : statement :=
  fun ws =>
    if ((row <? 1) || (col <? 1))%Z then (ValueError, ws)
    else (finished,
          fun r c => if ((r =? row) && (c =? col))%Z then b else ws r c).

(** [range(a, b)] *)
Definition range (a b : Z) : list Z :=
  map (fun i => (a + Z.of_nat i)%Z) (seq 0 (Z.to_nat (b - a))).

Definition thick : Side :=
  {| border_style := Some Excel.medium; color := Some (py "000000") |}.

Definition no_border : Side := {| border_style := None; color := None |}.

(** [draw_border_around_group(worksheet, start_row, end_row)] *)
Definition draw_border_around_group (start_row end_row : Z) : statement :=
  then_
    (for_in (range 1 6) (fun col =>
       if (col =? 1)%Z then
         set_border start_row col
           {| top := thick; left := thick; right := no_border;
              bottom := no_border |}
       else if (col =? 5)%Z then
         set_border start_row col
           {| top := thick; left := no_border; right := thick;
              bottom := no_border |}
       else
         set_border start_row col
           {| top := thick; left := no_border; right := no_border;
              bottom := no_border |}))
    (then_
       (for_in (range (start_row + 1) end_row) (fun row =>
          for_in (range 1 6) (fun col =>
            if (col =? 1)%Z then
              set_border row col
                {| top := no_border; left := thick; right := no_border;
                   bottom := no_border |}
            else if (col =? 5)%Z then
              set_border row col
                {| top := no_border; left := no_border; right := thick;
                   bottom := no_border |}
            else
              set_border row col
                {| top := no_border; left := no_border; right := no_border;
                   bottom := no_border |})))
       (for_in (range 1 6) (fun col =>
          if (col =? 1)%Z then
            set_border end_row col
              {| top := no_border; left := thick; right := no_border;
                 bottom := thick |}
          else if (col =? 5)%Z then
            set_border end_row col
              {| top := no_border; left := no_border; right := thick;
                 bottom := thick |}
          else
            set_border end_row col
              {| top := no_border; left := no_border; right := no_border;
                 bottom := thick |}))).

End Group.

(* ================================================================== *)
(** ** Notions the statements below use *)

Module Spec.

(** The last character of [s], or [prev] when [s] is empty. *)
Definition last_opt (prev : option char) (s : str) : option char :=
  fold_left (fun _ c => Some c) s prev.

Definition is_word_opt `{UnicodeTable} (o : option char) : bool :=
  match o with Some c => Re.is_word c | None => false end.

(** The pattern that [re.compile] returns for a keyword. *)
Definition keyword_pattern (keyword : str) : Re.pattern :=
  Re.AT_BOUNDARY :: map Re.LITERAL keyword ++ [Re.AT_BOUNDARY].

(** The test [search_files] makes of a keyword against a line. *)
Definition line_hit `{UnicodeTable} (keyword line : str) : bool :=
  Re.search (keyword_pattern keyword) line.

(** The keyword occurs in the line with a [\b] boundary at both ends. *)
Definition boundary_occurrence `{UnicodeTable} (keyword line : str) : Prop :=
  exists pre post,
    line = pre ++ keyword ++ post
    /\ Re.at_boundary (last_opt None pre) (keyword ++ post) = true
    /\ Re.at_boundary (last_opt None (pre ++ keyword)) post = true.

(** The keyword occurs in the line with no word character next to it on
    either side. *)
Definition whole_word_occurrence `{UnicodeTable} (keyword line : str) : Prop :=
  exists pre post,
    line = pre ++ keyword ++ post
    /\ is_word_opt (last_opt None pre) = false
    /\ is_word_opt (hd_error post) = false.

(** The keyword starts and ends with a word character. *)
Definition word_edged `{UnicodeTable} (keyword : str) : Prop :=
  is_word_opt (hd_error keyword) = true
  /\ is_word_opt (last_opt None keyword) = true.

Definition str_eq_dec : forall a b : str, {a = b} + {a <> b} :=
  list_eq_dec N.eq_dec.

(** The order the detail records are sorted by: the file first, then the
    keyword, both ascending. *)
Definition record_le (a b : MatchRecord) : Prop :=
  str_ltb (file a) (file b) = true
  \/ (file a = file b
      /\ (str_ltb (keyword a) (keyword b) = true \/ keyword a = keyword b)).

(** The records with a given file and keyword. *)
Definition has_key (f k : str) (r : MatchRecord) : bool :=
  str_eqb (file r) f && str_eqb (keyword r) k.






(** Row [i] of the sorted data (counted from 0) sits in sheet row [i + 2]. *)
Definition sheet_row (i : nat) : Z := (Z.of_nat i + 2)%Z.

Definition top_border (ws : Excel.worksheet) (i : nat) (col : Z)
  : option Excel.border_style :=
  Excel.top (Excel.border (Excel.style ws (sheet_row i) col)).













(** The locals with the styles of the detail sheet changed by [g]. *)
Definition restyle (g : Excel.styles -> Excel.styles) (st : Excel.locals)
  : Excel.locals :=
  Excel.with_details
    {| Excel.body := Excel.body (Excel.details st);
       Excel.style := g (Excel.style (Excel.details st)) |} st.

(** The styles after [for col in cols: ws.cell(r, col) <- f col]. *)
Definition set_cols (r : Z) (cols : list Z)
  (f : Z -> Excel.cell_style -> Excel.cell_style) (sty : Excel.styles)
  : Excel.styles :=
  fold_left (fun sty col => Excel.set_style r col (f col) sty) cols sty.



(** Counting. *)
Definition ind (b : bool) : Z := if b then 1%Z else 0%Z.

Definition sumZ (l : list Z) : Z := fold_right Z.add 0%Z l.

(** How often a keyword is listed. *)
Definition multiplicity (keywords : list str) (k : str) : Z :=
  Z.of_nat (count_occ str_eq_dec keywords k).

(** The lines of a file that a keyword hits. *)
Definition matching_lines `{UnicodeTable} (k : str) (lines : list str) : Z :=
  sumZ (map (fun line => ind (line_hit k line)) lines).

(** The record of a hit of [kw] on line [il] of the file. *)
Definition hit_record (rel : str) (lines : list str) (il : Z * str)
  (kw : str) : MatchRecord :=
  {| keyword := kw; file := rel; lineno := fst il + 1;
     hit_line := strip (snd il);
     full_context :=
       strip (join_empty (Search.context_window (fst il) lines)) |}.

(** The records a file adds to [excel_data]: line by line, and for each
    line keyword by keyword in the order of the keyword list. *)
Definition file_records `{UnicodeTable} (keywords : list str) (rel : str)
  (lines : list str) : list MatchRecord :=
  flat_map (fun il =>
    flat_map (fun kw =>
      if line_hit kw (snd il) then [hit_record rel lines il kw] else [])
      keywords)
    (enumerate 0 lines).

(** The lines the scan reads from a file: none when it cannot be read. *)
Definition entry_lines (content : exn + list str) : list str :=
  match content with
  | inr lines => lines
  | inl _ => []
  end.

Definition entry_warning (file_path : str) (content : exn + list str)
  : list Search.output :=
  match content with
  | inr _ => []
  | inl e => [Search.print_error file_path e]
  end.

(** The triples of the walk, none when it raises. *)
Definition walk_items (base_dir : str) (found : option Os.node)
  : list Os.walk_item :=
  match Os.walk base_dir found with
  | inr items => items
  | inl _ => []
  end.

(** The files the walk hands to the scan, in scan order: the path used in
    messages, the relative path, and the content. *)
Definition walked_files (base_dir : str) (found : option Os.node)
  : list (str * str * (exn + list str)) :=
  flat_map (fun item =>
    map (fun entry =>
           (Os.path_join (Os.root item) (fst entry),
            Os.relpath (Os.rel item) (fst entry), snd entry))
        (Os.files item))
    (walk_items base_dir found).

(** Every file that cannot be read has a warning that the standard output
    can take. *)
Definition warnable (base_dir : str) (found : option Os.node) : Prop :=
  forall path rel e,
    In (path, rel, inl e) (walked_files base_dir found) ->
    utf8_encodable (Search.warning_text path e) = true.

(** The relative paths and the lines of the scanned files. *)
Definition scanned (base_dir : str) (found : option Os.node)
  : list (str * list str) :=
  map (fun f => (snd (fst f), entry_lines (snd f)))
      (walked_files base_dir found).

Definition total_hits `{UnicodeTable} (k : str)
  (files : list (str * list str)) : Z :=
  sumZ (map (fun f => matching_lines k (snd f)) files).

Definition files_with_hits `{UnicodeTable} (k : str)
  (files : list (str * list str)) : Z :=
  sumZ (map (fun f => ind (matching_lines k (snd f) >? 0)%Z) files).

(** The records of [excel_data] for a keyword, and the distinct files among
    them. *)
Definition records_of (k : str) (excel_data : list MatchRecord)
  : list MatchRecord :=
  filter (fun r => str_eqb (keyword r) k) excel_data.

Definition distinct_files (k : str) (excel_data : list MatchRecord) : Z :=
  Z.of_nat (List.length (nodup str_eq_dec
                           (map file (records_of k excel_data)))).

(** The counters of a state, read per keyword (0 for a missing key). *)
Definition hits_of (s : Search.state) (k : str) : Z :=
  match dict_get k (Search.results s) with
  | Some sm => hit_count sm
  | None => 0%Z
  end.

Definition files_of (s : Search.state) (k : str) : Z :=
  match dict_get k (Search.results s) with
  | Some sm => file_count sm
  | None => 0%Z
  end.

Definition fhits_of (s : Search.state) (k : str) : Z :=
  match dict_get k (Search.file_hits s) with
  | Some h => h
  | None => 0%Z
  end.

(** Every keyword has its entry in the three dictionaries. *)
Definition keyed (keywords : list str) (s : Search.state) : Prop :=
  forall k, In k keywords ->
    In k (map fst (Search.results s))
    /\ In k (map fst (Search.file_hits s))
    /\ In k (map fst (Search.file_results s)).

(** What a piece of the scan of one file does to the state: the keys stay,
    the counters grow by the given amounts, the records are appended. *)
Record inner_effect (s s' : Search.state) (dh dfh dfc : str -> Z)
  (recs : list MatchRecord) : Prop := {
  eff_results_keys :
    map fst (Search.results s') = map fst (Search.results s);
  eff_file_hits_keys :
    map fst (Search.file_hits s') = map fst (Search.file_hits s);
  eff_file_results_keys :
    map fst (Search.file_results s') = map fst (Search.file_results s);
  eff_hits : forall k, hits_of s' k = (hits_of s k + dh k)%Z;
  eff_fhits : forall k, fhits_of s' k = (fhits_of s k + dfh k)%Z;
  eff_files : forall k, files_of s' k = (files_of s k + dfc k)%Z;
  eff_excel : Search.excel_data s' = Search.excel_data s ++ recs;
  eff_stdout : Search.stdout s' = Search.stdout s;
  eff_written : Search.written s' = Search.written s
}.

(** What the scan of whole files does to the state. *)
Record file_effect (s s' : Search.state) (dh dfc : str -> Z)
  (recs : list MatchRecord) (warnings : list Search.output) : Prop := {
  fe_results_keys :
    map fst (Search.results s') = map fst (Search.results s);
  fe_hits : forall k, hits_of s' k = (hits_of s k + dh k)%Z;
  fe_files : forall k, files_of s' k = (files_of s k + dfc k)%Z;
  fe_excel : Search.excel_data s' = Search.excel_data s ++ recs;
  fe_stdout : Search.stdout s' = Search.stdout s ++ warnings;
  fe_written : Search.written s' = Search.written s
}.

(** The keywords have their entries in [results]. *)
Definition results_keyed (keywords : list str) (s : Search.state) : Prop :=
  forall k, In k keywords -> In k (map fst (Search.results s)).


(** A table without letters or digits beyond ASCII, for runs on concrete
    ASCII inputs (where the table is never consulted). *)
Definition ascii_table : UnicodeTable := fun _ => false.

(** A directory [.] holding the one file [a.txt] with the given lines. *)
Definition one_file (lines : list str) : option Os.node :=
  Some (Os.Dir (py ".") true [Os.File (py "a.txt") (inr lines)]).

Definition LF : str := [10%N].

(** A file lies under a directory that can be listed, below the listable
    sub-directories named by [rel]. *)
Inductive file_under : Os.node -> list str -> str -> exn + list str -> Prop :=
| under_here (d : str) (es : list Os.node) (nm : str)
    (c : exn + list str) :
    In (Os.File nm c) es -> file_under (Os.Dir d true es) [] nm c
| under_sub (d : str) (es : list Os.node) (nm : str) (b : bool)
    (es' : list Os.node) (rel : list str) (f : str) (c : exn + list str) :
    In (Os.Dir nm b es') es ->
    file_under (Os.Dir nm b es') rel f c ->
    file_under (Os.Dir d true es) (nm :: rel) f c.

(** A directory [.] with a file [a.txt] and a sub-directory [sub] holding a
    file [b.txt], each with the one line [foo]. *)
Definition nested_tree : option Os.node :=
  Some (Os.Dir (py ".") true
          [Os.File (py "a.txt") (inr [py "foo" ++ LF]);
           Os.Dir (py "sub") true
             [Os.File (py "b.txt") (inr [py "foo" ++ LF])]]).

(** *** The styles of the saved detail sheet *)










(** *** The keyword bands *)




(** *** Sample records *)




(** *** The outputs of a run *)

(** The files that the walk reaches and [open] cannot read, in scan order:
    the path used in the message, and the exception. *)
Definition unreadable (base_dir : str) (found : option Os.node)
  : list (str * exn) :=
  flat_map (fun f => match snd f with
                     | inl e => [(fst (fst f), e)]
                     | inr _ => []
                     end)
           (walked_files base_dir found).

Definition warnings (base_dir : str) (found : option Os.node)
  : list Search.output :=
  map (fun pe => Search.print_error (fst pe) (snd pe))
      (unreadable base_dir found).


(** A directory [.] holding a file [a.txt] that cannot be read and a file
    [b.txt] with the one line [foo]. *)
Definition locked_tree : option Os.node :=
  Some (Os.Dir (py ".") true
          [Os.File (py "a.txt") (inl (OSError (py "Permission denied")));
           Os.File (py "b.txt") (inr [py "foo" ++ LF])]).


(** *** The command line *)

(** A time as [datetime.now()] gives it, from the year 1000 on. *)
Definition valid_datetime (d : Cli.datetime) : Prop :=
  (1000 <= Cli.year d <= 9999)%Z /\ (1 <= Cli.month d <= 12)%Z
  /\ (1 <= Cli.day d <= 31)%Z /\ (0 <= Cli.hour d <= 23)%Z
  /\ (0 <= Cli.minute d <= 59)%Z /\ (0 <= Cli.second d <= 59)%Z.

(** Two namespaces with the same output options, and both with or both
    without a search term; the term itself, the path, and the options
    [-r], [-c] and [-f] are free. *)
Definition same_output_options (a b : Cli.Namespace) : Prop :=
  Cli.help a = Cli.help b /\ Cli.stdout a = Cli.stdout b
  /\ Cli.output a = Cli.output b /\ Cli.output_type a = Cli.output_type b
  /\ (Search.truthy (Cli.search_term a) = None
      <-> Search.truthy (Cli.search_term b) = None).

(** [search.py foo] and [search.py -p src -r -c -f *.py bar]. *)
Definition sample_args : Cli.Namespace :=
  {| Cli.help := false; Cli.path := py "."; Cli.no_recursive := false;
     Cli.case_sensitive := false; Cli.file_pattern := None;
     Cli.output := None; Cli.output_type := Cli.excel; Cli.stdout := false;
     Cli.search_term := Some (py "foo") |}.

Definition sample_args' : Cli.Namespace :=
  {| Cli.help := false; Cli.path := py "src"; Cli.no_recursive := true;
     Cli.case_sensitive := true; Cli.file_pattern := Some (py "*.py");
     Cli.output := None; Cli.output_type := Cli.excel; Cli.stdout := false;
     Cli.search_term := Some (py "bar") |}.

Definition sample_now : Cli.datetime :=
  {| Cli.year := 2024; Cli.month := 1; Cli.day := 2; Cli.hour := 3;
     Cli.minute := 4; Cli.second := 5 |}.

(** *** The frame of a group *)


(** A worksheet whose cells all have a thin border on every side. *)
Definition gridded : Group.borders :=
  fun _ _ =>
    let side := {| Group.border_style := Some Excel.thin;
                   Group.color := None |} in
    {| Group.left := side; Group.right := side; Group.top := side;
       Group.bottom := side |}.


(** *** The report and the targets of a run *)

(** The lines of the text report for the keywords, read from [results];
    a keyword without an entry has none. *)
Definition report_lines (keywords : list str) (results : dict KeywordSummary)
  : list str :=
  flat_map (fun k => match dict_get k results with
                     | Some summary => Search.keyword_lines k summary
                     | None => []
                     end) keywords.

Definition report_text (keywords : list str) (results : dict KeywordSummary)
  : str :=
  Py.join Search.newline (report_lines keywords results).


(** What the run prints for its report, and what it writes for it. *)
Definition report_print (output_file : option str) (text : str)
  : Search.output :=
  match Search.truthy output_file with
  | Some path =>
      Search.print (py "検索結果を '" ++ path ++ py "' に保存しました。")
  | None => Search.print text
  end.

Definition report_file (output_file : option str) (text : str)
  : list (str * Search.artifact) :=
  match Search.truthy output_file with
  | Some path => [(path, Search.text_file text)]
  | None => []
  end.

Definition excel_print (output_excel : option str) : list Search.output :=
  match Search.truthy output_excel with
  | Some path =>
      [Search.print (py "検索結果を Excelファイル '" ++ path
                     ++ py "' に保存しました。")]
  | None => []
  end.

Definition excel_file (output_excel : option str) (wb : Excel.Workbook)
  : list (str * Search.artifact) :=
  match Search.truthy output_excel with
  | Some path => [(path, Search.excel_file wb)]
  | None => []
  end.

(** What the walk starts from: a symbolic link that is the base directory
    itself is followed. *)
Definition followed (n : Os.node) : Os.node :=
  match n with
  | Os.DirLink nm listable es => Os.Dir nm listable es
  | _ => n
  end.

(** A directory [.] with a file [a.txt] and a symbolic link [ln] to a
    directory holding a file [c.txt], each with the one line [foo]. *)
Definition linked_tree : option Os.node :=
  Some (Os.Dir (py ".") true
          [Os.File (py "a.txt") (inr [py "foo" ++ LF]);
           Os.DirLink (py "ln") true
             [Os.File (py "c.txt") (inr [py "foo" ++ LF])]]).

End Spec.
Import Spec.

(* ================================================================== *)
(** * Properties *)

(** ** Strings and dictionaries *)

Lemma str_eqb_eq (a b : str) : str_eqb a b = true <-> a = b.
Proof.
  revert b; induction a as [|x a IH]; intros [|y b]; simpl;
    try (split; (congruence || discriminate)).
  rewrite andb_true_iff, N.eqb_eq, IH. split.
  - intros [-> ->]; reflexivity.
  - intros E; inversion E; auto.
Qed.

Lemma str_eqb_refl (a : str) : str_eqb a a = true.
Proof. apply str_eqb_eq; reflexivity. Qed.

Lemma str_eqb_neq (a b : str) : str_eqb a b = false <-> a <> b.
Proof.
  rewrite <- str_eqb_eq. destruct (str_eqb a b); split; congruence.
Qed.

Lemma str_eqb_sym (a b : str) : str_eqb a b = str_eqb b a.
Proof.
  destruct (str_eqb a b) eqn:E.
  - apply str_eqb_eq in E; subst; symmetry; apply str_eqb_refl.
  - symmetry; apply str_eqb_neq; apply str_eqb_neq in E; congruence.
Qed.

Lemma str_ltb_irrefl (a : str) : str_ltb a a = false.
Proof.
  induction a as [|x a IH]; simpl; auto.
  rewrite N.ltb_irrefl, N.eqb_refl; exact IH.
Qed.

Lemma str_ltb_trans (a b c : str) :
  str_ltb a b = true -> str_ltb b c = true -> str_ltb a c = true.
Proof.
  revert b c; induction a as [|x a IH]; intros [|y b] [|z c]; simpl;
    try congruence.
  destruct (x <? y)%N eqn:Hxy, (y <? z)%N eqn:Hyz, (x <? z)%N eqn:Hxz;
    repeat match goal with
           | H : (_ <? _)%N = true |- _ => apply N.ltb_lt in H
           | H : (_ <? _)%N = false |- _ => apply N.ltb_ge in H
           end; auto; try lia;
    destruct (x =? y)%N eqn:Exy, (y =? z)%N eqn:Eyz, (x =? z)%N eqn:Exz;
    repeat match goal with
           | H : (_ =? _)%N = true |- _ => apply N.eqb_eq in H
           | H : (_ =? _)%N = false |- _ => apply N.eqb_neq in H
           end; try congruence; try lia; eauto.
Qed.

Lemma str_ltb_total (a b : str) :
  str_ltb a b = false -> str_ltb b a = false -> a = b.
Proof.
  revert b; induction a as [|x a IH]; intros [|y b]; simpl; try congruence.
  destruct (x <? y)%N eqn:Hxy; [discriminate|].
  destruct (y <? x)%N eqn:Hyx; [discriminate|].
  apply N.ltb_ge in Hxy, Hyx. assert (x = y) by lia; subst y.
  rewrite N.eqb_refl. intros H1 H2. f_equal; auto.
Qed.

Lemma dict_get_set_same {V} (k : str) (v : V) (d : dict V) :
  dict_get k (dict_set k v d) = Some v.
Proof.
  induction d as [|[k' v'] d IH]; simpl.
  - rewrite str_eqb_refl; reflexivity.
  - destruct (str_eqb k k') eqn:E; simpl; rewrite E; auto.
Qed.

Lemma dict_get_set_other {V} (k k0 : str) (v : V) (d : dict V) :
  k0 <> k -> dict_get k0 (dict_set k v d) = dict_get k0 d.
Proof.
  intros Hne. induction d as [|[k' v'] d IH]; simpl.
  - apply str_eqb_neq in Hne; rewrite Hne; reflexivity.
  - destruct (str_eqb k k') eqn:E; simpl.
    + apply str_eqb_eq in E; subst k'.
      apply str_eqb_neq in Hne; rewrite Hne; reflexivity.
    + destruct (str_eqb k0 k'); auto.
Qed.

Lemma dict_get_set {V} (k k0 : str) (v : V) (d : dict V) :
  dict_get k0 (dict_set k v d)
  = if str_eqb k0 k then Some v else dict_get k0 d.
Proof.
  destruct (str_eqb k0 k) eqn:E.
  - apply str_eqb_eq in E; subst; apply dict_get_set_same.
  - apply dict_get_set_other, str_eqb_neq, E.
Qed.

Lemma dict_keys_set {V} (k : str) (v : V) (d : dict V) :
  map fst (dict_set k v d)
  = if dict_mem k d then map fst d else map fst d ++ [k].
Proof.
  unfold dict_mem. induction d as [|[k' v'] d IH]; simpl; auto.
  destruct (str_eqb k k') eqn:E; simpl; auto.
  rewrite IH. destruct (dict_get k d); reflexivity.
Qed.

Lemma dict_get_In {V} (k : str) (d : dict V) :
  dict_get k d <> None <-> In k (map fst d).
Proof.
  induction d as [|[k' v'] d IH]; simpl.
  - split; [congruence | tauto].
  - destruct (str_eqb k k') eqn:E.
    + apply str_eqb_eq in E; subst. split; [auto | congruence].
    + apply str_eqb_neq in E. rewrite IH. split; [auto | intros [?|?]; congruence || auto].
Qed.

Lemma dict_comprehension_from {V} (ks : list str) (v : str -> V) (d : dict V) (k : str) :
  dict_get k (fold_left (fun d k => dict_set k (v k) d) ks d)
  = if existsb (str_eqb k) ks then Some (v k) else dict_get k d.
Proof.
  revert d; induction ks as [|k' ks IH]; intros d; simpl; auto.
  rewrite IH, dict_get_set.
  destruct (str_eqb k k') eqn:E; simpl.
  - apply str_eqb_eq in E; subst. destruct (existsb _ ks); reflexivity.
  - reflexivity.
Qed.

Lemma existsb_str_In (k : str) (ks : list str) :
  existsb (str_eqb k) ks = true <-> In k ks.
Proof.
  rewrite existsb_exists. split.
  - intros (x & Hin & E). apply str_eqb_eq in E; subst; auto.
  - intros Hin. exists k; split; auto using str_eqb_refl.
Qed.

Lemma dict_comprehension_get {V} (ks : list str) (v : str -> V) (k : str) :
  dict_get k (dict_comprehension ks v)
  = if existsb (str_eqb k) ks then Some (v k) else None.
Proof. unfold dict_comprehension. rewrite dict_comprehension_from. reflexivity. Qed.

Lemma dict_comprehension_In {V} (ks : list str) (v : str -> V) (k : str) :
  In k ks -> dict_get k (dict_comprehension ks v) = Some (v k).
Proof.
  intros Hin. rewrite dict_comprehension_get.
  apply existsb_str_In in Hin. rewrite Hin. reflexivity.
Qed.

(** ** The matcher *)

Section MatcherFacts.
Context `{UnicodeTable}.

Lemma escaped_is_literal (c : char) :
  Re.mem_char c Re.escape_specials = true ->
  (c =? Py.chr "b")%N = false
  /\ Re.ascii_letter c || Re.ascii_digit c = false.
Proof.
  unfold Re.mem_char. rewrite existsb_exists. intros (x & Hin & E).
  apply N.eqb_eq in E; subst x.
  vm_compute in Hin.
  repeat (destruct Hin as [<- | Hin]; [split; reflexivity|]).
  destruct Hin.
Qed.

Lemma unescaped_is_plain (c : char) :
  Re.mem_char c Re.escape_specials = false ->
  (c =? Re.backslash)%N = false /\ Re.mem_char c Re.SPECIAL_CHARS = false.
Proof.
  intros Hesc. split.
  - destruct (c =? Re.backslash)%N eqn:E; auto.
    apply N.eqb_eq in E; subst c. discriminate Hesc.
  - destruct (Re.mem_char c Re.SPECIAL_CHARS) eqn:E; auto.
    unfold Re.mem_char in E. rewrite existsb_exists in E.
    destruct E as (x & Hin & E). apply N.eqb_eq in E; subst x.
    vm_compute in Hin.
    repeat (destruct Hin as [<- | Hin]; [discriminate Hesc|]).
    destruct Hin.
Qed.

Lemma parse_escaped_char (e : char) (rest : str) :
  Re.parse (Re.backslash :: e :: rest)
  = if (e =? Py.chr "b")%N then option_map (cons Re.AT_BOUNDARY) (Re.parse rest)
    else if Re.ascii_letter e || Re.ascii_digit e then None
    else option_map (cons (Re.LITERAL e)) (Re.parse rest).
Proof. reflexivity. Qed.

Lemma parse_plain_char (c : char) (rest : str) :
  (c =? Re.backslash)%N = false ->
  Re.parse (c :: rest)
  = if Re.mem_char c Re.SPECIAL_CHARS then None
    else option_map (cons (Re.LITERAL c)) (Re.parse rest).
Proof. intros E. cbn [Re.parse]. rewrite E. reflexivity. Qed.

Lemma escape_cons (c : char) (kw : str) :
  Re.escape (c :: kw)
  = (if Re.mem_char c Re.escape_specials then [Re.backslash; c] else [c])
    ++ Re.escape kw.
Proof. reflexivity. Qed.

Lemma parse_escape (keyword tail : str) (q : Re.pattern) :
  Re.parse tail = Some q ->
  Re.parse (Re.escape keyword ++ tail) = Some (map Re.LITERAL keyword ++ q).
Proof.
  intros Htail. induction keyword as [|c kw IH]; [exact Htail|].
  rewrite escape_cons.
  destruct (Re.mem_char c Re.escape_specials) eqn:Hc.
  - destruct (escaped_is_literal c Hc) as [Hb Hal].
    cbn [app]. rewrite parse_escaped_char, Hb, Hal, IH. reflexivity.
  - destruct (unescaped_is_plain c Hc) as [Hbs Hsp].
    cbn [app]. rewrite (parse_plain_char _ _ Hbs), Hsp, IH. reflexivity.
Qed.

(** The pattern of a keyword always compiles, to a boundary, the keyword's
    own characters as literals, and a boundary. *)
Lemma compile_keyword_source (keyword : str) :
  Re.compile (Search.keyword_source keyword) = Some (keyword_pattern keyword).
Proof.
  unfold Re.compile, Search.keyword_source, keyword_pattern.
  change (py "\b") with [Re.backslash; Py.chr "b"].
  cbn [app]. rewrite parse_escaped_char, N.eqb_refl.
  rewrite (parse_escape keyword [Re.backslash; Py.chr "b"] [Re.AT_BOUNDARY]);
    reflexivity.
Qed.

Lemma last_opt_app (prev : option char) (a b : str) :
  last_opt prev (a ++ b) = last_opt (last_opt prev a) b.
Proof. apply fold_left_app. Qed.

Lemma at_boundary_eq (prev : option char) (rest : str) :
  Re.at_boundary prev rest
  = negb (Bool.eqb (is_word_opt (hd_error rest)) (is_word_opt prev)).
Proof. destruct prev, rest; reflexivity. Qed.

Lemma match_literals (kw : str) (q : Re.pattern) (prev : option char) (rest : str) :
  Re.match_here (map Re.LITERAL kw ++ q) prev rest = true
  <-> exists post, rest = kw ++ post
                   /\ Re.match_here q (last_opt prev kw) post = true.
Proof.
  revert prev rest; induction kw as [|c kw IH]; intros prev rest; simpl.
  - split; [intros Hm; exists rest; auto | intros (post & -> & Hm); exact Hm].
  - destruct rest as [|x rest].
    + split; [discriminate | intros (post & E & _); discriminate].
    + rewrite andb_true_iff, N.eqb_eq, IH. split.
      * intros (-> & post & -> & Hm). exists post; auto.
      * intros (post & E & Hm). inversion E; subst. split; eauto.
Qed.

Lemma match_keyword (kw : str) (prev : option char) (rest : str) :
  Re.match_here (keyword_pattern kw) prev rest = true
  <-> Re.at_boundary prev rest = true
      /\ exists post, rest = kw ++ post
                      /\ Re.at_boundary (last_opt prev kw) post = true.
Proof.
  unfold keyword_pattern. cbn [Re.match_here].
  rewrite andb_true_iff, match_literals. cbn [Re.match_here].
  split; intros (Hb & post & E & Hm); (split; [exact Hb|]); exists post;
    (split; [exact E|]).
  - rewrite andb_true_r in Hm; exact Hm.
  - rewrite andb_true_r; exact Hm.
Qed.

Lemma search_from_iff (p : Re.pattern) (prev : option char) (rest : str) :
  Re.search_from p prev rest = true
  <-> exists a b, rest = a ++ b /\ Re.match_here p (last_opt prev a) b = true.
Proof.
  revert prev; induction rest as [|x rest IH]; intros prev; simpl.
  - rewrite orb_false_r. split.
    + intros Hm. exists [], []; auto.
    + intros (a & b & E & Hm). symmetry in E. apply app_eq_nil in E.
      destruct E; subst; exact Hm.
  - rewrite orb_true_iff, IH. split.
    + intros [Hm | (a & b & -> & Hm)].
      * exists [], (x :: rest); auto.
      * exists (x :: a), b; auto.
    + intros (a & b & E & Hm). destruct a as [|y a]; simpl in E.
      * subst b. left; exact Hm.
      * inversion E; subst. right. exists a, b; auto.
Qed.

(** A line is a hit exactly when the keyword occurs in it between two
    [\b] boundaries. *)
Lemma line_hit_iff (keyword line : str) :
  line_hit keyword line = true <-> boundary_occurrence keyword line.
Proof.
  unfold line_hit, Re.search, boundary_occurrence.
  rewrite search_from_iff. split.
  - intros (a & b & -> & Hm). apply match_keyword in Hm.
    destruct Hm as (Hb & post & -> & He).
    exists a, post. rewrite last_opt_app. auto.
  - intros (pre & post & -> & Hb & He). exists pre, (keyword ++ post).
    split; auto. apply match_keyword. split; auto.
    exists post. rewrite last_opt_app in He. auto.
Qed.

Lemma word_edged_boundaries (keyword pre post : str) :
  word_edged keyword ->
  (Re.at_boundary (last_opt None pre) (keyword ++ post) = true
   /\ Re.at_boundary (last_opt None (pre ++ keyword)) post = true)
  <-> (is_word_opt (last_opt None pre) = false
       /\ is_word_opt (hd_error post) = false).
Proof.
  intros [Hhd Hlast]. rewrite !at_boundary_eq.
  assert (E1 : is_word_opt (hd_error (keyword ++ post)) = true).
  { destruct keyword; [discriminate Hhd | exact Hhd]. }
  assert (E2 : is_word_opt (last_opt None (pre ++ keyword)) = true).
  { rewrite last_opt_app. destruct keyword as [|c kw]; [discriminate Hhd|].
    unfold last_opt in *. cbn [fold_left] in *. exact Hlast. }
  rewrite E1, E2.
  destruct (is_word_opt (last_opt None pre)), (is_word_opt (hd_error post));
    simpl; intuition congruence.
Qed.

End MatcherFacts.

(** C1: the test of a keyword against a line is documented as
    case-insensitive by default, but [search_files] compiles the pattern
    without any flag: the keyword [foo] does not hit the line [FOO bar], and
    a run over a file holding that line reports no hit. *)
Theorem uppercase_line_is_not_a_hit `{UnicodeTable} :
  line_hit (py "foo") (py "FOO bar") = false
  /\ let r := Search.run [py "foo"] (py ".") (one_file [py "FOO bar" ++ LF])
                None None in
     fst r = inr tt
     /\ Search.results (snd r) = [(py "foo", Search.empty_summary)]
     /\ Search.excel_data (snd r) = [].
Proof. vm_compute. repeat split. Qed.

(** C9, as stated, fails: with the keyword [c++] the line [c++x] is a hit
    although the only occurrence of the keyword has the word character [x]
    right after it, whatever the Unicode table. *)
Lemma metachar_edge_is_not_whole_word :
  ~ exists U : UnicodeTable,
      forall keyword line : str,
        line_hit keyword line = true -> whole_word_occurrence keyword line.
Proof.
  intros [U Hall].
  destruct (Hall (py "c++") (py "c++x") eq_refl) as (pre & post & E & _ & Hpost).
  destruct pre as [|a [|b [|c [|d pre]]]]; vm_compute in E; try discriminate E.
  - inversion E; subst post. discriminate Hpost.
  - inversion E as [[Ea Eb Ec Ed]]. destruct pre; discriminate.
Qed.

(** C9 (amended): for every keyword the pattern compiles to a boundary, the
    keyword's characters as literals (metacharacters included), and a
    boundary; a line is a hit exactly when the keyword occurs in it between
    two [\b] boundaries; and for a keyword that starts and ends with a word
    character that is exactly an occurrence as a whole word. *)
Theorem keyword_pattern_is_literal_between_boundaries `{UnicodeTable}
  (keyword line : str) :
  Re.compile (Search.keyword_source keyword) = Some (keyword_pattern keyword)
  /\ (line_hit keyword line = true <-> boundary_occurrence keyword line)
  /\ (word_edged keyword ->
      (line_hit keyword line = true <-> whole_word_occurrence keyword line)).
Proof.
  split; [apply compile_keyword_source|].
  split; [apply line_hit_iff|].
  intros Hedge. rewrite line_hit_iff.
  unfold boundary_occurrence, whole_word_occurrence.
  split; intros (pre & post & E & Hb); exists pre, post; (split; [exact E|]);
    apply (word_edged_boundaries keyword pre post Hedge); exact Hb.
Qed.

Lemma keyword_pattern_is_literal_between_boundaries_witness :
  @word_edged ascii_table (py "a.b")
  /\ (@line_hit ascii_table (py "a.b") (py "x a.b y") = true
      <-> @whole_word_occurrence ascii_table (py "a.b") (py "x a.b y")).
Proof.
  assert (Hedge : @word_edged ascii_table (py "a.b")) by (split; reflexivity).
  split; [exact Hedge|].
  exact (proj2 (proj2 (@keyword_pattern_is_literal_between_boundaries
                         ascii_table (py "a.b") (py "x a.b y"))) Hedge).
Defined.

(** ** The context window *)

Lemma slice_in_range {A} (l : list A) (a b : Z) :
  (0 <= a <= b)%Z -> (b <= Z.of_nat (List.length l))%Z ->
  slice l a b = firstn (Z.to_nat (b - a)) (skipn (Z.to_nat a) l)
  /\ Z.of_nat (List.length (slice l a b)) = (b - a)%Z.
Proof.
  intros Hab Hb. unfold slice, clamp_index.
  destruct (a <? 0)%Z eqn:Ea; [apply Z.ltb_lt in Ea; lia|].
  destruct (b <? 0)%Z eqn:Eb; [apply Z.ltb_lt in Eb; lia|].
  rewrite !Z.min_l by lia. split; [reflexivity|].
  rewrite length_firstn, length_skipn. lia.
Qed.

Lemma context_bounds (lines : list str) (i : Z) :
  (0 <= i < Z.of_nat (List.length lines))%Z ->
  (0 <= Search.context_start i <= i)%Z
  /\ (i < Search.context_end i lines <= Z.of_nat (List.length lines))%Z.
Proof. unfold Search.context_start, Search.context_end. lia. Qed.

(** C4, as stated, fails: in a file of five lines the window of a hit on
    the third line (index 2, line number 3) holds all five lines, while the
    stated length is four, whether [i] is read as the index or as the line
    number. *)
Lemma context_length_formula_is_off_by_one :
  ~ (forall (lines : list str) (i : Z),
        (0 <= i < Z.of_nat (List.length lines))%Z ->
        Z.of_nat (List.length (Search.context_window i lines))
        = (Z.min (i + 2) (Z.of_nat (List.length lines)) - Z.max (i - 2) 0)%Z)
  /\ ~ (forall (lines : list str) (i : Z),
           (1 <= i <= Z.of_nat (List.length lines))%Z ->
           Z.of_nat (List.length (Search.context_window (i - 1) lines))
           = (Z.min (i + 2) (Z.of_nat (List.length lines))
              - Z.max (i - 2) 0)%Z).
Proof.
  pose (five := [py "1"; py "2"; py "3"; py "4"; py "5"]).
  split; intros Hall.
  - assert (E := Hall five 2%Z ltac:(simpl; lia)).
    vm_compute in E. discriminate E.
  - assert (E := Hall five 3%Z ltac:(simpl; lia)).
    vm_compute in E. discriminate E.
Qed.

(** C4 (amended): for a hit at index [i] of a file of [total_lines] lines,
    the window is the lines at the indices from [max(i-2, 0)] up to, but
    without, [min(i+3, total_lines)]: at most two lines before the hit and
    two after it, [min(i+3, total_lines) - max(i-2, 0)] lines in all, every
    one at an index inside [0, total_lines). *)
Theorem context_window_clipped (lines : list str) (i : Z) :
  (0 <= i < Z.of_nat (List.length lines))%Z ->
  let window := Search.context_window i lines in
  let start := Search.context_start i in
  let stop := Search.context_end i lines in
  Z.of_nat (List.length window)
  = (Z.min (i + 3) (Z.of_nat (List.length lines)) - Z.max (i - 2) 0)%Z
  /\ (0 <= start <= i)%Z /\ (i - start <= 2)%Z
  /\ (i < stop <= Z.of_nat (List.length lines))%Z /\ (stop - 1 - i <= 2)%Z
  /\ forall j : nat,
       (j < List.length window)%nat ->
       (Z.to_nat start + j < List.length lines)%nat
       /\ nth_error window j = nth_error lines (Z.to_nat start + j).
Proof.
  intros Hi window start stop.
  destruct (context_bounds lines i Hi) as [Hs He].
  fold start in Hs. fold stop in He.
  destruct (@slice_in_range str lines start stop ltac:(lia) ltac:(lia))
    as [Eslice Elen].
  change (slice lines start stop) with window in Eslice, Elen.
  split; [rewrite Elen; reflexivity|].
  split; [exact Hs|].
  split; [unfold start, Search.context_start; lia|].
  split; [exact He|].
  split; [unfold stop, Search.context_end; lia|].
  intros j Hj. split; [lia|].
  rewrite Eslice, nth_error_firstn, nth_error_skipn.
  destruct (j <? Z.to_nat (stop - start))%nat eqn:E; [reflexivity|].
  apply Nat.ltb_ge in E. lia.
Qed.

Lemma context_window_clipped_witness :
  let lines := [py "foo" ++ LF; py "bar foo" ++ LF; py "baz" ++ LF] in
  (0 <= 1 < Z.of_nat (List.length lines))%Z
  /\ Z.of_nat (List.length (Search.context_window 1 lines)) = 3%Z.
Proof.
  intros lines.
  assert (Hi : (0 <= 1 < Z.of_nat (List.length lines))%Z)
    by (split; [intros ?; discriminate | reflexivity]).
  split; [exact Hi|].
  exact (proj1 (context_window_clipped lines 1%Z Hi)).
Defined.

(** ** The sort of the detail records *)

Lemma record_le_of_not_ltb (a b : MatchRecord) :
  Excel.key_ltb (Excel.sort_key b) (Excel.sort_key a) = false -> record_le a b.
Proof.
  unfold Excel.key_ltb, Excel.sort_key, record_le; simpl.
  rewrite orb_false_iff, andb_false_iff. intros [Hf Hk].
  destruct (str_ltb (file a) (file b)) eqn:Hab; [left; reflexivity|].
  right. assert (E : file a = file b) by (apply str_ltb_total; assumption).
  split; [exact E|].
  destruct Hk as [Hk | Hk].
  - rewrite E, str_eqb_refl in Hk. discriminate.
  - destruct (str_ltb (keyword a) (keyword b)) eqn:Hkab; [left; reflexivity|].
    right. apply str_ltb_total; assumption.
Qed.

Lemma record_le_of_ltb (a b : MatchRecord) :
  Excel.key_ltb (Excel.sort_key a) (Excel.sort_key b) = true -> record_le a b.
Proof.
  unfold Excel.key_ltb, Excel.sort_key, record_le; simpl.
  rewrite orb_true_iff, andb_true_iff, str_eqb_eq. intros [Hf | [E Hk]]; auto.
Qed.

Lemma record_le_trans (a b c : MatchRecord) :
  record_le a b -> record_le b c -> record_le a c.
Proof.
  unfold record_le.
  intros [Hab | [Eab Kab]] [Hbc | [Ebc Kbc]].
  - left; eapply str_ltb_trans; eauto.
  - left; rewrite <- Ebc; exact Hab.
  - left; rewrite Eab; exact Hbc.
  - right. split; [congruence|].
    destruct Kab as [Kab | Kab], Kbc as [Kbc | Kbc].
    + left; eapply str_ltb_trans; eauto.
    + left; rewrite <- Kbc; exact Kab.
    + left; rewrite Kab; exact Kbc.
    + right; congruence.
Qed.

Lemma key_ltb_irrefl (k : str * str) : Excel.key_ltb k k = false.
Proof.
  unfold Excel.key_ltb. rewrite !str_ltb_irrefl, andb_false_r. reflexivity.
Qed.

Section InsertionFacts.
Let ins := Excel.insert Excel.key_ltb Excel.sort_key.

Lemma insert_cons (x y : MatchRecord) (l : list MatchRecord) :
  ins x (y :: l)
  = if Excel.key_ltb (Excel.sort_key y) (Excel.sort_key x)
    then y :: ins x l else x :: y :: l.
Proof. reflexivity. Qed.

Lemma insert_perm (x : MatchRecord) (l : list MatchRecord) :
  Permutation (x :: l) (ins x l).
Proof.
  induction l as [|y l IH]; [apply Permutation_refl|].
  rewrite insert_cons.
  destruct (Excel.key_ltb (Excel.sort_key y) (Excel.sort_key x));
    [|apply Permutation_refl].
  apply perm_trans with (y :: x :: l); [apply perm_swap|].
  apply perm_skip. exact IH.
Qed.

Lemma insert_HdRel (x y : MatchRecord) (l : list MatchRecord) :
  HdRel record_le y l -> record_le y x -> HdRel record_le y (ins x l).
Proof.
  intros Hhd Hyx. destruct l as [|z l].
  - constructor; exact Hyx.
  - rewrite insert_cons.
    destruct (Excel.key_ltb (Excel.sort_key z) (Excel.sort_key x)).
    + constructor. inversion Hhd; assumption.
    + constructor; exact Hyx.
Qed.

Lemma insert_Sorted (x : MatchRecord) (l : list MatchRecord) :
  Sorted record_le l -> Sorted record_le (ins x l).
Proof.
  induction 1 as [|y l Hs IH Hhd].
  - repeat constructor.
  - rewrite insert_cons.
    destruct (Excel.key_ltb (Excel.sort_key y) (Excel.sort_key x)) eqn:E.
    + constructor; [exact IH|].
      apply insert_HdRel; [exact Hhd | apply record_le_of_ltb, E].
    + constructor; [constructor; assumption|].
      constructor. apply record_le_of_not_ltb, E.
Qed.

Lemma insert_filter (f k : str) (x : MatchRecord) (l : list MatchRecord) :
  filter (has_key f k) (ins x l)
  = if has_key f k x then x :: filter (has_key f k) l
    else filter (has_key f k) l.
Proof.
  induction l as [|y l IH]; [reflexivity|].
  rewrite insert_cons.
  destruct (Excel.key_ltb (Excel.sort_key y) (Excel.sort_key x)) eqn:E;
    [|reflexivity].
  cbn [filter]. rewrite IH.
  destruct (has_key f k y) eqn:Hy, (has_key f k x) eqn:Hx; try reflexivity.
  exfalso. unfold has_key in Hy, Hx.
  rewrite andb_true_iff, !str_eqb_eq in Hy, Hx.
  destruct Hy as [<- <-], Hx as [Hf Hk].
  assert (Ek : Excel.sort_key y = Excel.sort_key x)
    by (unfold Excel.sort_key; congruence).
  rewrite Ek, key_ltb_irrefl in E. discriminate.
Qed.

End InsertionFacts.

Lemma sorted_data_sorted (excel_data : list MatchRecord) :
  StronglySorted record_le (Excel.sorted_data excel_data).
Proof.
  unfold Excel.sorted_data, Excel.sorted.
  apply Sorted_StronglySorted.
  - intros a b c; apply record_le_trans.
  - induction excel_data as [|x l IH]; cbn [fold_right]; [constructor|].
    apply insert_Sorted; exact IH.
Qed.




(** C8: the detail records are ordered by file path, then by keyword, both
    ascending, and the sort is stable: the sorted list holds the same
    records, every record precedes only records of greater or equal
    (file, keyword), and the records of any one (file, keyword) appear in
    their scan order. *)
Theorem sorted_data_is_a_stable_sort (excel_data : list MatchRecord) :
  Permutation excel_data (Excel.sorted_data excel_data)
  /\ StronglySorted record_le (Excel.sorted_data excel_data)
  /\ forall f k : str,
       filter (has_key f k) (Excel.sorted_data excel_data)
       = filter (has_key f k) excel_data.
Proof.
  unfold Excel.sorted_data, Excel.sorted.
  split; [|split].
  - induction excel_data as [|x l IH]; simpl; auto.
    eapply perm_trans; [|apply insert_perm]. apply perm_skip; exact IH.
  - apply sorted_data_sorted.
  - intros f k. induction excel_data as [|x l IH]; simpl; [reflexivity|].
    rewrite insert_filter, IH. reflexivity.
Qed.

(** ** The monad *)

(** A statement that finishes hands its value and state to what follows. *)
Lemma bind_run {S A B} (m : M S A) (k : A -> M S B) (s s' : S) (a : A) :
  m s = (inr a, s') -> bind m k s = k a s'.
Proof. intros E. unfold bind. rewrite E. reflexivity. Qed.


Lemma modify_twice_run {S} (f1 f2 : S -> S) (s : S) :
  bind (modify f1) (fun _ => modify f2) s = (inr tt, f2 (f1 s)).
Proof. reflexivity. Qed.

Lemma get_run {S} (s : S) : get s = (inr s, s).
Proof. reflexivity. Qed.



(** ** Sorted lists of records *)







(** ** The banding pre-pass *)









(** ** The second loop: rows, borders and fills *)





Lemma set_cols_at (r : Z) (cols : list Z)
  (f : Z -> Excel.cell_style -> Excel.cell_style) (sty : Excel.styles) (c : Z) :
  NoDup cols -> In c cols -> set_cols r cols f sty r c = f c (sty r c).
Proof.
  unfold set_cols. intros Hnd. revert sty.
  induction Hnd as [|a cols Hnotin Hnd IH]; intros sty Hin; [destruct Hin|].
  cbn [fold_left]. destruct (Z.eq_dec c a) as [-> | Hne].
  - clear IH Hin.
    assert (Hskip : forall sty0,
               fold_left (fun sty col => Excel.set_style r col (f col) sty)
                         cols sty0 r a = sty0 r a).
    { induction cols as [|b cols IHc]; intros sty0; cbn [fold_left]; [reflexivity|].
      rewrite IHc.
      - unfold Excel.set_style.
        destruct (Z.eqb_spec a b) as [-> | _];
          [exfalso; apply Hnotin; left; reflexivity|].
        rewrite andb_false_r. reflexivity.
      - intros Hin. apply Hnotin. right; exact Hin.
      - inversion Hnd; assumption. }
    rewrite Hskip. unfold Excel.set_style. rewrite !Z.eqb_refl. reflexivity.
  - destruct Hin as [-> | Hin]; [contradiction Hne; reflexivity|].
    rewrite (IH _ Hin). f_equal. unfold Excel.set_style.
    apply Z.eqb_neq in Hne. rewrite Hne, andb_false_r. reflexivity.
Qed.

Lemma NoDup_columns_1_to_5 : NoDup Excel.columns_1_to_5.
Proof.
  unfold Excel.columns_1_to_5.
  repeat (constructor; [cbn; intros H; repeat (destruct H as [H | H]; [discriminate H|]); exact H|]).
  constructor.
Qed.

Lemma In_columns_1_to_5 (c : Z) : (1 <= c <= 5)%Z -> In c Excel.columns_1_to_5.
Proof.
  intros Hc. unfold Excel.columns_1_to_5. cbn.
  assert (c = 1 \/ c = 2 \/ c = 3 \/ c = 4 \/ c = 5)%Z as H by lia.
  intuition.
Qed.

Lemma set_cell_run (r c : Z) (f : Excel.cell_style -> Excel.cell_style)
  (st : Excel.locals) :
  Excel.set_cell r c f st = (inr tt, restyle (Excel.set_style r c f) st).
Proof. reflexivity. Qed.

Lemma for_each_set_cell (r : Z) (cols : list Z)
  (f : Z -> Excel.cell_style -> Excel.cell_style) (st : Excel.locals) :
  for_each cols (fun col => Excel.set_cell r col (f col)) st
  = (inr tt, restyle (set_cols r cols f) st).
Proof.
  revert st. induction cols as [|a cols IH]; intros st.
  - destruct st as [? ? ? ? ? ? [? ?]]. reflexivity.
  - cbn [for_each]. unfold bind. rewrite set_cell_run, IH. reflexivity.
Qed.





(** A record that the sheet does not take stops the loop at its
    [append]. *)
Lemma append_row_raises (x : MatchRecord) (st : Excel.locals) (e : exn) :
  Excel.check_row x = inl e -> Excel.append_row x st = (inl e, st).
Proof. intros E. unfold Excel.append_row. rewrite E. reflexivity. Qed.



















(** ** The saved workbook *)


(** After the loop the border of every cell of the last row is replaced by
    one with a bottom side only: the top side that the loop gave the last
    row is not in the saved workbook. *)
Lemma last_row_pass_drops_top (sd : list MatchRecord) (st : Excel.locals)
  (col : Z) :
  sd <> [] -> (1 <= col <= 5)%Z ->
  exists st',
    Excel.last_row_pass sd st = (inr tt, st')
    /\ top_border (Excel.details st') (List.length sd - 1) col = None.
Proof.
  intros Hne Hcol. unfold Excel.last_row_pass.
  destruct sd as [|x sd]; [contradiction Hne; reflexivity|].
  assert (Hpos : (Z.of_nat (List.length (x :: sd)) >? 0)%Z = true).
  { apply Z.gtb_lt. cbn [List.length]. lia. }
  rewrite Hpos, for_each_set_cell. eexists. split; [reflexivity|].
  unfold top_border, sheet_row, restyle.
  cbn [Excel.with_details Excel.details Excel.style].
  replace (Z.of_nat (List.length (x :: sd) - 1) + 2)%Z
    with (Z.of_nat (List.length (x :: sd)) + 1)%Z
    by (cbn [List.length]; lia).
  rewrite set_cols_at
    by (apply NoDup_columns_1_to_5 || apply In_columns_1_to_5; exact Hcol).
  destruct (col =? 1)%Z; [reflexivity|]. destruct (col =? 5)%Z; reflexivity.
Qed.





(** ** The scan *)

Lemma dict_keys_set_In {V} (k : str) (v : V) (d : dict V) :
  In k (map fst d) -> map fst (dict_set k v d) = map fst d.
Proof.
  intros Hin. rewrite dict_keys_set. unfold dict_mem.
  apply dict_get_In in Hin. destruct (dict_get k d); [reflexivity | congruence].
Qed.

Lemma dict_get_of_key {V} (k : str) (d : dict V) :
  In k (map fst d) -> exists v, dict_get k d = Some v.
Proof.
  intros Hin. apply dict_get_In in Hin.
  destruct (dict_get k d) as [v|]; [exists v; reflexivity | congruence].
Qed.

Lemma sumZ_cons (x : Z) (l : list Z) : sumZ (x :: l) = (x + sumZ l)%Z.
Proof. reflexivity. Qed.

Lemma sumZ_app (a b : list Z) : sumZ (a ++ b) = (sumZ a + sumZ b)%Z.
Proof.
  induction a as [|x a IH]; [reflexivity|].
  cbn [app]. rewrite !sumZ_cons, IH. lia.
Qed.

Lemma sumZ_flat_map {A B} (f : B -> Z) (g : A -> list B) (l : list A) :
  sumZ (map f (flat_map g l)) = sumZ (map (fun x => sumZ (map f (g x))) l).
Proof.
  induction l as [|x l IH]; [reflexivity|].
  cbn [flat_map map]. rewrite map_app, sumZ_app, sumZ_cons, IH. reflexivity.
Qed.

Lemma sumZ_zero {A} (l : list A) : sumZ (map (fun _ => 0%Z) l) = 0%Z.
Proof.
  induction l as [|x l IH]; [reflexivity|].
  cbn [map]. rewrite sumZ_cons, IH. reflexivity.
Qed.

Lemma sumZ_ext {A} (f g : A -> Z) (l : list A) :
  (forall x, In x l -> f x = g x) -> sumZ (map f l) = sumZ (map g l).
Proof.
  induction l as [|x l IH]; intros Hfg; [reflexivity|].
  cbn [map]. rewrite !sumZ_cons, Hfg, IH;
    [reflexivity | intros; apply Hfg; right; assumption | left; reflexivity].
Qed.

Lemma sumZ_scale {A} (m : Z) (f : A -> Z) (l : list A) :
  sumZ (map (fun x => m * f x)%Z l) = (m * sumZ (map f l))%Z.
Proof.
  induction l as [|x l IH]; [cbn; lia|].
  cbn [map]. rewrite !sumZ_cons, IH. lia.
Qed.

Lemma sum_over_keywords (keywords : list str) (k : str) (P : str -> bool) :
  sumZ (map (fun kw => ind (str_eqb k kw && P kw)) keywords)
  = (multiplicity keywords k * ind (P k))%Z.
Proof.
  unfold multiplicity. induction keywords as [|kw l IH]; [reflexivity|].
  cbn [map]. rewrite sumZ_cons, IH.
  destruct (str_eq_dec kw k) as [-> | Hne].
  - rewrite count_occ_cons_eq by reflexivity. rewrite str_eqb_refl. cbn [andb]. lia.
  - rewrite count_occ_cons_neq by exact Hne.
    assert (E : str_eqb k kw = false) by (apply str_eqb_neq; congruence).
    rewrite E. cbn [andb ind]. lia.
Qed.

Lemma inner_effect_refl (s : Search.state) :
  inner_effect s s (fun _ => 0%Z) (fun _ => 0%Z) (fun _ => 0%Z) [].
Proof.
  constructor; intros; try reflexivity; try lia.
  rewrite app_nil_r. reflexivity.
Qed.

Lemma inner_effect_trans (s s' s'' : Search.state)
  (dh dfh dfc dh' dfh' dfc' : str -> Z) (recs recs' : list MatchRecord) :
  inner_effect s s' dh dfh dfc recs ->
  inner_effect s' s'' dh' dfh' dfc' recs' ->
  inner_effect s s'' (fun k => dh k + dh' k)%Z (fun k => dfh k + dfh' k)%Z
    (fun k => dfc k + dfc' k)%Z (recs ++ recs').
Proof.
  intros [K1 K2 K3 H1 H2 H3 E O W] [K1' K2' K3' H1' H2' H3' E' O' W'].
  constructor; try congruence.
  - intros k. rewrite H1', H1. lia.
  - intros k. rewrite H2', H2. lia.
  - intros k. rewrite H3', H3. lia.
  - rewrite E', E, app_assoc. reflexivity.
Qed.

Lemma inner_effect_ext (s s' : Search.state) (dh dfh dfc dh' dfh' dfc' : str -> Z)
  (recs recs' : list MatchRecord) :
  inner_effect s s' dh dfh dfc recs ->
  (forall k, dh k = dh' k) -> (forall k, dfh k = dfh' k) ->
  (forall k, dfc k = dfc' k) -> recs = recs' ->
  inner_effect s s' dh' dfh' dfc' recs'.
Proof.
  intros [K1 K2 K3 H1 H2 H3 E O W] A B C ->.
  constructor; auto; intros k; rewrite <- ?A, <- ?B, <- ?C; auto.
Qed.

Lemma keyed_inner (keywords : list str) (s s' : Search.state)
  (dh dfh dfc : str -> Z) (recs : list MatchRecord) :
  inner_effect s s' dh dfh dfc recs -> keyed keywords s -> keyed keywords s'.
Proof.
  intros [K1 K2 K3 _ _ _ _ _ _] Hk k Hin. rewrite K1, K2, K3. apply Hk, Hin.
Qed.

(** A loop whose every round has an effect of this kind has the sum of the
    effects. *)
Lemma for_each_inner {A} (items : list A) (body : A -> M Search.state unit)
  (I : Search.state -> Prop) (dh dfh dfc : A -> str -> Z)
  (recs : A -> list MatchRecord) :
  (forall a s, In a items -> I s ->
     exists s', body a s = (inr tt, s') /\ I s'
                /\ inner_effect s s' (dh a) (dfh a) (dfc a) (recs a)) ->
  forall s, I s ->
    exists s', for_each items body s = (inr tt, s') /\ I s'
               /\ inner_effect s s'
                    (fun k => sumZ (map (fun a => dh a k) items))
                    (fun k => sumZ (map (fun a => dfh a k) items))
                    (fun k => sumZ (map (fun a => dfc a k) items))
                    (flat_map recs items).
Proof.
  induction items as [|a items IH]; intros Hbody s Hs.
  - exists s. split; [reflexivity|]. split; [exact Hs|]. apply inner_effect_refl.
  - destruct (Hbody a s (or_introl eq_refl) Hs) as (s1 & E1 & Hs1 & Eff1).
    destruct (IH (fun b t Hb => Hbody b t (or_intror Hb)) s1 Hs1)
      as (s2 & E2 & Hs2 & Eff2).
    exists s2. split; [|split; [exact Hs2|]].
    + cbn [for_each]. rewrite (bind_run _ _ _ _ _ E1). exact E2.
    + exact (inner_effect_trans _ _ _ _ _ _ _ _ _ _ _ Eff1 Eff2).
Qed.

Lemma for_each_map {S A B} (g : A -> B) (l : list A) (body : B -> M S unit)
  (s : S) :
  for_each (map g l) body s = for_each l (fun x => body (g x)) s.
Proof.
  revert s; induction l as [|x l IH]; intros s; [reflexivity|].
  cbn [map for_each]. unfold bind. destruct (body (g x) s) as [[e | []] s'];
    [reflexivity | apply IH].
Qed.

Lemma combine_map_self {A B} (g : A -> B) (l : list A) :
  combine l (map g l) = map (fun x => (x, g x)) l.
Proof. induction l as [|x l IH]; cbn; [reflexivity | rewrite IH; reflexivity]. Qed.

Lemma compile_keywords_run {S} (keywords : list str) (s : S) :
  Search.compile_keywords keywords s = (inr (map keyword_pattern keywords), s).
Proof.
  induction keywords as [|kw l IH]; [reflexivity|].
  cbn [Search.compile_keywords map]. unfold Search.compile_keyword.
  rewrite compile_keyword_source.
  unfold bind, ret in *. rewrite IH. reflexivity.
Qed.

Ltac state_simpl :=
  cbn [Search.with_excel_data Search.with_file_results Search.with_file_hits
       Search.with_results Search.with_stdout Search.with_written
       Search.results Search.file_hits Search.file_results
       Search.excel_data Search.stdout Search.written].

Section ScanFacts.
Context `{UnicodeTable}.

Lemma record_hit_effect (rel : str) (lines : list str) (i : Z) (line kw : str)
  (s : Search.state) :
  In kw (map fst (Search.results s)) ->
  In kw (map fst (Search.file_hits s)) ->
  In kw (map fst (Search.file_results s)) ->
  exists s',
    Search.record_hit rel lines i line kw s = (inr tt, s')
    /\ inner_effect s s' (fun k => ind (str_eqb k kw))
         (fun k => ind (str_eqb k kw)) (fun _ => 0%Z)
         [hit_record rel lines (i, line) kw].
Proof.
  intros Kr Kh Kf.
  destruct (dict_get_of_key kw _ Kr) as [sm Esm].
  destruct (dict_get_of_key kw _ Kh) as [h Eh].
  destruct (dict_get_of_key kw _ Kf) as [d Ed].
  unfold Search.record_hit, lookup, bind, get, modify, ret, raise.
  rewrite Esm. state_simpl. rewrite Eh. state_simpl. rewrite Ed.
  eexists. split; [reflexivity|].
  constructor; state_simpl; try reflexivity.
  - apply dict_keys_set_In, Kr.
  - apply dict_keys_set_In, Kh.
  - apply dict_keys_set_In, Kf.
  - intros k. unfold hits_of.
    state_simpl.
    rewrite dict_get_set. destruct (str_eqb k kw) eqn:E.
    + apply str_eqb_eq in E; subst k. rewrite Esm. reflexivity.
    + cbn [ind]. lia.
  - intros k. unfold fhits_of.
    state_simpl.
    rewrite dict_get_set. destruct (str_eqb k kw) eqn:E.
    + apply str_eqb_eq in E; subst k. rewrite Eh. reflexivity.
    + cbn [ind]. lia.
  - intros k. unfold files_of.
    state_simpl.
    rewrite dict_get_set. destruct (str_eqb k kw) eqn:E.
    + apply str_eqb_eq in E; subst k. rewrite Esm. cbn. lia.
    + lia.
Qed.

(** One line against every keyword of the list. *)
Lemma line_effect (keywords : list str) (rel : str) (lines : list str)
  (il : Z * str) (s : Search.state) :
  keyed keywords s ->
  exists s',
    for_each (combine keywords (map keyword_pattern keywords))
      (fun kp => if Re.search (snd kp) (snd il)
                 then Search.record_hit rel lines (fst il) (snd il) (fst kp)
                 else ret tt) s = (inr tt, s')
    /\ keyed keywords s'
    /\ inner_effect s s'
         (fun k => multiplicity keywords k * ind (line_hit k (snd il)))%Z
         (fun k => multiplicity keywords k * ind (line_hit k (snd il)))%Z
         (fun _ => 0%Z)
         (flat_map (fun kw => if line_hit kw (snd il)
                              then [hit_record rel lines il kw] else [])
                   keywords).
Proof.
  intros Hk. rewrite combine_map_self, for_each_map. cbn [fst snd].
  assert (Hbody : forall kw t, In kw keywords -> keyed keywords t ->
            exists t',
              (if Re.search (keyword_pattern kw) (snd il)
               then Search.record_hit rel lines (fst il) (snd il) kw
               else ret tt) t = (inr tt, t')
              /\ keyed keywords t'
              /\ inner_effect t t'
                   (fun k => ind (str_eqb k kw && line_hit kw (snd il)))
                   (fun k => ind (str_eqb k kw && line_hit kw (snd il)))
                   (fun _ => 0%Z)
                   (if line_hit kw (snd il)
                    then [hit_record rel lines il kw] else [])).
  { intros kw t Hin Ht. unfold line_hit.
    destruct (Re.search (keyword_pattern kw) (snd il)).
    - destruct (Ht kw Hin) as (Kr & Kh & Kf).
      destruct (record_hit_effect rel lines (fst il) (snd il) kw t Kr Kh Kf)
        as (t' & Et & Eff).
      exists t'. split; [exact Et|].
      split; [exact (keyed_inner _ _ _ _ _ _ _ Eff Ht)|].
      destruct il as [i line]. cbn [fst snd] in *.
      eapply inner_effect_ext; [exact Eff | | | |]; intros;
        rewrite ?andb_true_r; reflexivity.
    - exists t. split; [reflexivity|]. split; [exact Ht|].
      eapply inner_effect_ext; [apply inner_effect_refl | | | |]; intros;
        rewrite ?andb_false_r; reflexivity. }
  destruct (for_each_inner keywords _ (keyed keywords) _ _ _ _ Hbody s Hk)
    as (s' & E & Hk' & Eff).
  exists s'. split; [exact E|]. split; [exact Hk'|].
  eapply inner_effect_ext; [exact Eff | | | |]; intros; cbv beta;
    rewrite ?sum_over_keywords, ?sumZ_zero; reflexivity.
Qed.

Lemma sum_over_lines (m : Z) (k : str) (lines : list str) (start : Z) :
  sumZ (map (fun il : Z * str => m * ind (line_hit k (snd il)))%Z
            (enumerate start lines))
  = (m * matching_lines k lines)%Z.
Proof.
  unfold matching_lines. revert start.
  induction lines as [|line lines IH]; intros start; [cbn; lia|].
  cbn [enumerate map snd]. rewrite !sumZ_cons, IH. lia.
Qed.

Lemma scan_lines_effect (keywords : list str) (rel : str) (lines : list str)
  (s : Search.state) :
  keyed keywords s ->
  exists s',
    Search.scan_lines keywords (map keyword_pattern keywords) rel lines s
    = (inr tt, s')
    /\ keyed keywords s'
    /\ inner_effect s s'
         (fun k => multiplicity keywords k * matching_lines k lines)%Z
         (fun k => multiplicity keywords k * matching_lines k lines)%Z
         (fun _ => 0%Z)
         (file_records keywords rel lines).
Proof.
  intros Hk. unfold Search.scan_lines.
  destruct (for_each_inner (enumerate 0 lines) _ (keyed keywords) _ _ _ _
              (fun il t _ Ht => line_effect keywords rel lines il t Ht) s Hk)
    as (s' & E & Hk' & Eff).
  exists s'. split; [exact E|]. split; [exact Hk'|].
  eapply inner_effect_ext; [exact Eff | | | |]; intros; cbv beta;
    rewrite ?sum_over_lines, ?sumZ_zero; reflexivity.
Qed.

Lemma register_file_effect (keywords : list str) (rel : str)
  (fh : str -> Z) (s : Search.state) :
  keyed keywords s -> (forall k, fhits_of s k = fh k) ->
  exists s',
    Search.register_file keywords rel s = (inr tt, s')
    /\ inner_effect s s' (fun _ => 0%Z) (fun _ => 0%Z)
         (fun k => multiplicity keywords k * ind (fh k >? 0)%Z)%Z [].
Proof.
  intros Hk Hfh. unfold Search.register_file.
  set (I := fun t => keyed keywords t /\ forall k, fhits_of t k = fh k).
  assert (Hbody : forall kw t, In kw keywords -> I t ->
            exists t',
              bind get (fun s0 =>
                bind (lookup kw (Search.file_hits s0)) (fun hits =>
                  if (hits >? 0)%Z then
                    bind (lookup kw (Search.results s0)) (fun summary =>
                      bind (lookup kw (Search.file_results s0)) (fun descs =>
                        modify (Search.with_results
                                  (dict_set kw
                                     (Search.add_file rel descs summary)
                                     (Search.results s0)))))
                  else ret tt)) t = (inr tt, t')
              /\ I t'
              /\ inner_effect t t' (fun _ => 0%Z) (fun _ => 0%Z)
                   (fun k => ind (str_eqb k kw && (fh kw >? 0)%Z)) []).
  { intros kw t Hin [Ht Hfht].
    destruct (Ht kw Hin) as (Kr & Kh & Kf).
    destruct (dict_get_of_key kw _ Kr) as [sm Esm].
    destruct (dict_get_of_key kw _ Kh) as [h Eh].
    destruct (dict_get_of_key kw _ Kf) as [d Ed].
    assert (Eh' : h = fh kw).
    { rewrite <- Hfht. unfold fhits_of. rewrite Eh. reflexivity. }
    unfold lookup, bind, get, modify, ret, raise. rewrite Eh. subst h.
    destruct (fh kw >? 0)%Z.
    - rewrite Esm, Ed. eexists. split; [reflexivity|].
      assert (Eff : inner_effect t
                      (Search.with_results
                         (dict_set kw (Search.add_file rel d sm)
                                   (Search.results t)) t)
                      (fun _ => 0%Z) (fun _ => 0%Z)
                      (fun k => ind (str_eqb k kw && true)) []).
      { constructor; state_simpl; try reflexivity.
        - apply dict_keys_set_In, Kr.
        - intros k. unfold hits_of. state_simpl.
          rewrite dict_get_set. destruct (str_eqb k kw) eqn:E.
          + apply str_eqb_eq in E; subst k. rewrite Esm. cbn. lia.
          + lia.
        - intros k. unfold fhits_of. state_simpl. lia.
        - intros k. unfold files_of. state_simpl.
          rewrite dict_get_set. destruct (str_eqb k kw) eqn:E.
          + apply str_eqb_eq in E; subst k. rewrite Esm. reflexivity.
          + cbn [andb ind]. lia.
        - rewrite app_nil_r. reflexivity. }
      split; [|exact Eff].
      split; [exact (keyed_inner _ _ _ _ _ _ _ Eff Ht)|].
      intros k. rewrite (eff_fhits _ _ _ _ _ _ Eff k), Hfht. lia.
    - exists t. split; [reflexivity|]. split; [split; assumption|].
      eapply inner_effect_ext; [apply inner_effect_refl | | | |]; intros;
        rewrite ?andb_false_r; reflexivity. }
  destruct (for_each_inner keywords _ I _ _ _ _ Hbody s (conj Hk Hfh))
    as (s' & E & _ & Eff).
  exists s'. split; [exact E|].
  eapply inner_effect_ext; [exact Eff | | | |]; intros; cbv beta;
    rewrite ?sum_over_keywords, ?sumZ_zero; try reflexivity.
  clear. induction keywords as [|a l IH]; [reflexivity | exact IH].
Qed.

End ScanFacts.

Lemma file_effect_refl (s : Search.state) :
  file_effect s s (fun _ => 0%Z) (fun _ => 0%Z) [] [].
Proof.
  constructor; intros; try reflexivity; try lia; rewrite app_nil_r; reflexivity.
Qed.

Lemma file_effect_trans (s s' s'' : Search.state) (dh dfc dh' dfc' : str -> Z)
  (recs recs' : list MatchRecord) (w w' : list Search.output) :
  file_effect s s' dh dfc recs w -> file_effect s' s'' dh' dfc' recs' w' ->
  file_effect s s'' (fun k => dh k + dh' k)%Z (fun k => dfc k + dfc' k)%Z
    (recs ++ recs') (w ++ w').
Proof.
  intros [K H1 H3 E O W] [K' H1' H3' E' O' W'].
  constructor; try congruence.
  - intros k. rewrite H1', H1. lia.
  - intros k. rewrite H3', H3. lia.
  - rewrite E', E, app_assoc. reflexivity.
  - rewrite O', O, app_assoc. reflexivity.
Qed.

Lemma file_effect_ext (s s' : Search.state) (dh dfc dh' dfc' : str -> Z)
  (recs recs' : list MatchRecord) (w w' : list Search.output) :
  file_effect s s' dh dfc recs w ->
  (forall k, dh k = dh' k) -> (forall k, dfc k = dfc' k) ->
  recs = recs' -> w = w' ->
  file_effect s s' dh' dfc' recs' w'.
Proof.
  intros [K H1 H3 E O W] A C -> ->.
  constructor; auto; intros k; rewrite <- ?A, <- ?C; auto.
Qed.

Lemma for_each_file {A} (items : list A) (body : A -> M Search.state unit)
  (keywords : list str) (dh dfc : A -> str -> Z)
  (recs : A -> list MatchRecord) (w : A -> list Search.output) :
  (forall a s, In a items -> results_keyed keywords s ->
     exists s', body a s = (inr tt, s')
                /\ file_effect s s' (dh a) (dfc a) (recs a) (w a)) ->
  forall s, results_keyed keywords s ->
    exists s', for_each items body s = (inr tt, s')
               /\ file_effect s s'
                    (fun k => sumZ (map (fun a => dh a k) items))
                    (fun k => sumZ (map (fun a => dfc a k) items))
                    (flat_map recs items) (flat_map w items).
Proof.
  induction items as [|a items IH]; intros Hbody s Hs.
  - exists s. split; [reflexivity | apply file_effect_refl].
  - destruct (Hbody a s (or_introl eq_refl) Hs) as (s1 & E1 & Eff1).
    assert (Hs1 : results_keyed keywords s1).
    { intros k Hk. rewrite (fe_results_keys _ _ _ _ _ _ Eff1). apply Hs, Hk. }
    destruct (IH (fun b t Hb => Hbody b t (or_intror Hb)) s1 Hs1)
      as (s2 & E2 & Eff2).
    exists s2. split.
    + cbn [for_each]. rewrite (bind_run _ _ _ _ _ E1). exact E2.
    + exact (file_effect_trans _ _ _ _ _ _ _ _ _ _ _ Eff1 Eff2).
Qed.

Section FileFacts.
Context `{UnicodeTable}.

Lemma matching_lines_nonneg (k : str) (lines : list str) :
  (0 <= matching_lines k lines)%Z.
Proof.
  unfold matching_lines. induction lines as [|l lines IH]; [cbn; lia|].
  cbn [map]. rewrite sumZ_cons. destruct (line_hit k l); cbn [ind]; lia.
Qed.

Lemma multiplicity_nonneg (keywords : list str) (k : str) :
  (0 <= multiplicity keywords k)%Z.
Proof. unfold multiplicity. lia. Qed.

Lemma positive_product (m n : Z) :
  (0 <= m)%Z -> (0 <= n)%Z ->
  (m * ind (0 + m * n >? 0)%Z = m * ind (n >? 0)%Z)%Z.
Proof.
  intros Hm Hn.
  destruct (Z.eq_dec m 0) as [-> | Hne]; [lia|].
  destruct (Z.gtb_spec (0 + m * n) 0), (Z.gtb_spec n 0); cbn [ind]; nia.
Qed.

Lemma scan_file_effect (keywords : list str) (root : str) (rel : list str)
  (entry : str * (exn + list str)) (s : Search.state) :
  results_keyed keywords s ->
  (forall e, snd entry = inl e ->
     utf8_encodable (Search.warning_text (Os.path_join root (fst entry)) e)
     = true) ->
  exists s',
    Search.scan_file keywords (map keyword_pattern keywords) root rel entry s
    = (inr tt, s')
    /\ file_effect s s'
         (fun k => multiplicity keywords k
                   * matching_lines k (entry_lines (snd entry)))%Z
         (fun k => multiplicity keywords k
                   * ind (matching_lines k (entry_lines (snd entry)) >? 0)%Z)%Z
         (file_records keywords (Os.relpath rel (fst entry))
            (entry_lines (snd entry)))
         (entry_warning (Os.path_join root (fst entry)) (snd entry)).
Proof.
  intros Hk Hwarn. destruct entry as [name [e | lines]]; cbn [fst snd] in *;
    unfold Search.scan_file, try_except; cbn [fst snd].
  - unfold bind, raise, Search.print_as. rewrite (Hwarn e eq_refl).
    unfold modify. eexists. split; [reflexivity|].
    constructor; state_simpl; try reflexivity.
    + intros k. unfold hits_of. state_simpl. cbn. lia.
    + intros k. unfold files_of. state_simpl. cbn. lia.
    + symmetry. apply app_nil_r.
  - set (s1 := Search.with_file_results
                 (dict_comprehension keywords (fun _ => []))
                 (Search.with_file_hits
                    (dict_comprehension keywords (fun _ => 0%Z)) s)).
    assert (Hk1 : keyed keywords s1).
    { intros k Hin. split; [exact (Hk k Hin)|].
      split; apply dict_get_In; unfold s1; state_simpl;
        rewrite dict_comprehension_In by exact Hin; discriminate. }
    assert (Hf1 : forall k, fhits_of s1 k = 0%Z).
    { intros k. unfold fhits_of, s1. state_simpl.
      rewrite dict_comprehension_get. destruct (existsb _ _); reflexivity. }
    destruct (scan_lines_effect keywords (Os.relpath rel name) lines s1 Hk1)
      as (s2 & E2 & Hk2 & Eff2).
    destruct (register_file_effect keywords (Os.relpath rel name)
                (fun k => 0 + multiplicity keywords k * matching_lines k lines)%Z
                s2 Hk2) as (s3 & E3 & Eff3).
    { intros k. rewrite (eff_fhits _ _ _ _ _ _ Eff2 k), Hf1. reflexivity. }
    exists s3. split.
    + unfold bind at 1. unfold ret at 1.
      rewrite (bind_run (modify _) _ _ _ tt eq_refl).
      rewrite (bind_run (modify _) _ _ _ tt eq_refl).
      fold s1. rewrite (bind_run _ _ _ _ _ E2), E3. reflexivity.
    + pose proof (inner_effect_trans _ _ _ _ _ _ _ _ _ _ _ Eff2 Eff3) as Eff.
      destruct Eff as [K1 _ _ H1 _ H3 E O W].
      constructor.
      * exact K1.
      * intros k. rewrite H1. unfold hits_of, s1. state_simpl.
        cbn [entry_lines]. lia.
      * intros k. rewrite H3. unfold files_of, s1. state_simpl.
        cbn [entry_lines].
        rewrite positive_product
          by (apply multiplicity_nonneg || apply matching_lines_nonneg).
        lia.
      * rewrite E, app_nil_r. reflexivity.
      * rewrite O. cbn [entry_warning]. rewrite app_nil_r. reflexivity.
      * exact W.
Qed.

End FileFacts.

Lemma flat_map_map {A B C} (g : A -> B) (f : B -> list C) (l : list A) :
  flat_map f (map g l) = flat_map (fun x => f (g x)) l.
Proof.
  induction l as [|x l IH]; [reflexivity|]. cbn [map flat_map].
  rewrite IH. reflexivity.
Qed.

Lemma flat_map_nested {A B C} (g : A -> list B) (f : B -> list C) (l : list A) :
  flat_map f (flat_map g l) = flat_map (fun x => flat_map f (g x)) l.
Proof.
  induction l as [|x l IH]; [reflexivity|]. cbn [flat_map].
  rewrite flat_map_app, IH. reflexivity.
Qed.

Lemma flat_map_ext_in {A B} (f g : A -> list B) (l : list A) :
  (forall x, In x l -> f x = g x) -> flat_map f l = flat_map g l.
Proof.
  induction l as [|x l IH]; intros Hfg; [reflexivity|]. cbn [flat_map].
  rewrite Hfg, IH; [reflexivity | intros; apply Hfg; right; assumption
                    | left; reflexivity].
Qed.

Lemma dict_set_keys_NoDup {V} (k : str) (v : V) (d : dict V) :
  NoDup (map fst d) -> NoDup (map fst (dict_set k v d)).
Proof.
  intros Hnd. rewrite dict_keys_set. unfold dict_mem.
  destruct (dict_get k d) eqn:E; [exact Hnd|].
  apply NoDup_app; [exact Hnd | repeat constructor; intros [] |].
  intros x Hx [<- | []]. apply dict_get_In in Hx. congruence.
Qed.

Lemma dict_comprehension_keys_NoDup {V} (ks : list str) (v : str -> V) :
  NoDup (map fst (dict_comprehension ks v)).
Proof.
  unfold dict_comprehension.
  assert (G : forall d : dict V, NoDup (map fst d) ->
                NoDup (map fst (fold_left (fun d k => dict_set k (v k) d) ks d))).
  { induction ks as [|k ks IH]; intros d Hd; [exact Hd|].
    cbn [fold_left]. apply IH, dict_set_keys_NoDup, Hd. }
  apply G. constructor.
Qed.

Section RunFacts.
Context `{UnicodeTable}.

Lemma sum_over_walk (F : str * str * (exn + list str) -> Z) (base_dir : str)
  (found : option Os.node) :
  sumZ (map (fun item =>
               sumZ (map (fun entry =>
                            F (Os.path_join (Os.root item) (fst entry),
                               Os.relpath (Os.rel item) (fst entry), snd entry))
                         (Os.files item)))
            (walk_items base_dir found))
  = sumZ (map F (walked_files base_dir found)).
Proof.
  unfold walked_files. rewrite sumZ_flat_map.
  apply sumZ_ext. intros item _. rewrite map_map. reflexivity.
Qed.

Lemma flat_map_over_walk {C} (G : str * str * (exn + list str) -> list C)
  (base_dir : str) (found : option Os.node) :
  flat_map (fun item =>
              flat_map (fun entry =>
                          G (Os.path_join (Os.root item) (fst entry),
                             Os.relpath (Os.rel item) (fst entry), snd entry))
                       (Os.files item))
           (walk_items base_dir found)
  = flat_map G (walked_files base_dir found).
Proof.
  unfold walked_files. rewrite flat_map_nested.
  apply flat_map_ext_in. intros item _. rewrite flat_map_map. reflexivity.
Qed.

Lemma walk_ok (base_dir : str) (found : option Os.node) :
  Os.path_error base_dir = None ->
  Os.walk base_dir found = inr (walk_items base_dir found).
Proof.
  intros Hp. unfold walk_items, Os.walk. rewrite Hp. reflexivity.
Qed.

Lemma walk_raises (base_dir : str) (found : option Os.node) (e : exn) :
  Os.path_error base_dir = Some e ->
  Os.walk base_dir found = inl e /\ walk_items base_dir found = [].
Proof.
  intros Hp. unfold walk_items, Os.walk. rewrite Hp. split; reflexivity.
Qed.

(** When [base_dir] is a path and every warning can be printed, the scan
    runs to its end, and its counters and records are those of the files
    it walked. *)
Lemma scan_run (keywords : list str) (base_dir : str)
  (found : option Os.node) (s0 : Search.state) :
  Os.path_error base_dir = None ->
  warnable base_dir found ->
  exists s,
    Search.scan keywords base_dir found s0 = (inr tt, s)
    /\ map fst (Search.results s)
       = map fst (dict_comprehension keywords (fun _ => Search.empty_summary))
    /\ (forall k, hits_of s k
                  = (multiplicity keywords k
                     * total_hits k (scanned base_dir found))%Z)
    /\ (forall k, files_of s k
                  = (multiplicity keywords k
                     * files_with_hits k (scanned base_dir found))%Z)
    /\ Search.excel_data s
       = flat_map (fun f => file_records keywords (fst f) (snd f))
                  (scanned base_dir found)
    /\ Search.stdout s
       = Search.stdout s0
         ++ flat_map (fun f => entry_warning (fst (fst f)) (snd f))
                     (walked_files base_dir found)
    /\ Search.written s = Search.written s0.
Proof.
  intros Hpath Hwarn.
  set (s1 := Search.with_excel_data []
               (Search.with_results
                  (dict_comprehension keywords (fun _ => Search.empty_summary))
                  s0)).
  assert (Hk1 : results_keyed keywords s1).
  { intros k Hin. apply dict_get_In. unfold s1. state_simpl.
    rewrite dict_comprehension_In by exact Hin. discriminate. }
  assert (Hinner : forall item t,
            In item (walk_items base_dir found) -> results_keyed keywords t ->
            exists t',
              for_each (Os.files item)
                (Search.scan_file keywords (map keyword_pattern keywords)
                   (Os.root item) (Os.rel item)) t = (inr tt, t')
              /\ file_effect t t'
                   (fun k => sumZ (map (fun entry =>
                      multiplicity keywords k
                      * matching_lines k (entry_lines (snd entry)))%Z
                      (Os.files item)))
                   (fun k => sumZ (map (fun entry =>
                      multiplicity keywords k
                      * ind (matching_lines k (entry_lines (snd entry)) >? 0)%Z)%Z
                      (Os.files item)))
                   (flat_map (fun entry =>
                      file_records keywords
                        (Os.relpath (Os.rel item) (fst entry))
                        (entry_lines (snd entry))) (Os.files item))
                   (flat_map (fun entry =>
                      entry_warning (Os.path_join (Os.root item) (fst entry))
                        (snd entry)) (Os.files item))).
  { intros item t Hitem Ht.
    apply (for_each_file (Os.files item) _ keywords _ _ _ _); [|exact Ht].
    intros entry u Hentry Hu.
    apply (scan_file_effect keywords (Os.root item) (Os.rel item) entry u Hu).
    intros e He. apply (Hwarn _ (Os.relpath (Os.rel item) (fst entry)) e).
    unfold walked_files. apply in_flat_map. exists item.
    split; [exact Hitem|]. apply in_map_iff. exists entry.
    split; [rewrite He; reflexivity | exact Hentry]. }
  destruct (for_each_file (walk_items base_dir found) _ keywords _ _ _ _
              Hinner s1 Hk1) as (s & E & Eff).
  exists s. split.
  { unfold Search.scan.
    rewrite (bind_run _ _ _ _ _ (compile_keywords_run keywords s0)).
    rewrite (bind_run (modify _) _ _ _ tt eq_refl).
    rewrite (bind_run (modify _) _ _ _ tt eq_refl).
    rewrite (walk_ok base_dir found Hpath).
    rewrite (bind_run (ret _) _ _ _ _ eq_refl).
    exact E. }
  destruct Eff as [K H1 H3 Ex O W].
  split; [exact K|].
  assert (Hzero : forall k, hits_of s1 k = 0%Z /\ files_of s1 k = 0%Z).
  { intros k. unfold hits_of, files_of, s1. state_simpl.
    rewrite dict_comprehension_get. destruct (existsb _ _); split; reflexivity. }
  split; [|split; [|split; [|split]]].
  - intros k. rewrite H1, (proj1 (Hzero k)).
    rewrite (sum_over_walk
               (fun f => multiplicity keywords k
                         * matching_lines k (entry_lines (snd f)))%Z).
    rewrite sumZ_scale. unfold total_hits, scanned. rewrite map_map.
    cbn [snd]. lia.
  - intros k. rewrite H3, (proj2 (Hzero k)).
    rewrite (sum_over_walk
               (fun f => multiplicity keywords k
                         * ind (matching_lines k (entry_lines (snd f)) >? 0)%Z)%Z).
    rewrite sumZ_scale. unfold files_with_hits, scanned. rewrite map_map.
    cbn [snd]. lia.
  - rewrite Ex. unfold s1. state_simpl. cbn [app].
    rewrite (flat_map_over_walk
               (fun f => file_records keywords (snd (fst f))
                           (entry_lines (snd f)))).
    unfold scanned. rewrite flat_map_map. reflexivity.
  - rewrite O. unfold s1. state_simpl.
    rewrite (flat_map_over_walk
               (fun f => entry_warning (fst (fst f)) (snd f))).
    reflexivity.
  - rewrite W. reflexivity.
Qed.

End RunFacts.

(** ** The whole run *)



Lemma output_lines_run (keywords : list str) (results : dict KeywordSummary)
  (s : Search.state) :
  (forall k, In k keywords -> In k (map fst results)) ->
  Search.output_lines keywords results s
  = (inr (report_lines keywords results), s).
Proof.
  induction keywords as [|k l IH]; intros Hk; [reflexivity|].
  destruct (dict_get_of_key k results (Hk k (or_introl eq_refl))) as [sm Esm].
  pose proof (IH (fun k' Hin => Hk k' (or_intror Hin))) as Et.
  cbn [Search.output_lines]. unfold lookup. rewrite Esm.
  unfold bind at 1. unfold ret at 1.
  rewrite (bind_run _ _ _ _ _ Et).
  unfold report_lines. cbn [flat_map]. rewrite Esm. reflexivity.
Qed.

Lemma print_text_run (text : str) (s : Search.state) :
  utf8_encodable text = true ->
  Search.print_text text s
  = (inr tt, Search.with_stdout (Search.stdout s ++ [Search.print text]) s).
Proof.
  intros E. unfold Search.print_text, Search.print_as. rewrite E. reflexivity.
Qed.

Lemma print_text_raises (text : str) (s : Search.state) :
  utf8_encodable text = false ->
  Search.print_text text s = (inl (UnicodeEncodeError text), s).
Proof.
  intros E. unfold Search.print_text, Search.print_as. rewrite E. reflexivity.
Qed.



Lemma bind_raise {S A B} (m : M S A) (k : A -> M S B) (s s' : S) (e : exn) :
  m s = (inl e, s') -> bind m k s = (inl e, s').
Proof. intros E. unfold bind. rewrite E. reflexivity. Qed.

Lemma write_text_run (path text : str) (s : Search.state) :
  Os.path_error path = None -> utf8_encodable text = true ->
  Search.write_text path text s
  = (inr tt,
     Search.with_written
       (Search.written s ++ [(path, Search.text_file text)]) s).
Proof.
  intros Hp He. unfold Search.write_text. rewrite Hp, He. reflexivity.
Qed.

Lemma write_text_cut (path text : str) (s : Search.state) :
  Os.path_error path = None -> utf8_encodable text = false ->
  Search.write_text path text s
  = (inl (UnicodeEncodeError text),
     Search.with_written
       (Search.written s ++ [(path, Search.text_file [])]) s).
Proof.
  intros Hp He. unfold Search.write_text. rewrite Hp, He. reflexivity.
Qed.

Lemma write_text_no_path (path text : str) (s : Search.state) (e : exn) :
  Os.path_error path = Some e -> Search.write_text path text s = (inl e, s).
Proof. intros Hp. unfold Search.write_text. rewrite Hp. reflexivity. Qed.

Lemma save_workbook_run (path : str) (wb : Excel.Workbook)
  (s : Search.state) :
  Os.path_error path = None ->
  Search.save_workbook path wb s
  = (inr tt,
     Search.with_written
       (Search.written s ++ [(path, Search.excel_file wb)]) s).
Proof. intros Hp. unfold Search.save_workbook. rewrite Hp. reflexivity. Qed.

Lemma save_workbook_no_path (path : str) (wb : Excel.Workbook)
  (s : Search.state) (e : exn) :
  Os.path_error path = Some e -> Search.save_workbook path wb s = (inl e, s).
Proof. intros Hp. unfold Search.save_workbook. rewrite Hp. reflexivity. Qed.

(** *** The report: lines 187 to 192 *)

(** Whatever happens, the report step keeps [results] and [excel_data],
    prints at most its one line, and writes at most its one file. *)
Lemma write_report_state (output_file : option str) (text : str)
  (s : Search.state) :
  let r := Search.write_report output_file text s in
  Search.results (snd r) = Search.results s
  /\ Search.excel_data (snd r) = Search.excel_data s
  /\ (exists printed,
        Search.stdout (snd r) = Search.stdout s ++ printed
        /\ (printed = [] \/ printed = [report_print output_file text]))
  /\ (exists files,
        Search.written (snd r) = Search.written s ++ files
        /\ forall p a, In (p, a) files -> Search.truthy output_file = Some p).
Proof.
  unfold Search.write_report, report_print. cbn zeta.
  destruct (Search.truthy output_file) as [path|].
  - destruct (Os.path_error path) as [e|] eqn:Hp.
    + rewrite (bind_raise _ _ _ _ _ (write_text_no_path path text s e Hp)).
      cbn [fst snd]. repeat split; try reflexivity.
      * exists []. rewrite app_nil_r. auto.
      * exists []. rewrite app_nil_r. split; [reflexivity | intros p a []].
    + destruct (utf8_encodable text) eqn:Et.
      * rewrite (bind_run _ _ _ _ _ (write_text_run path text s Hp Et)).
        destruct (utf8_encodable (py "検索結果を '" ++ path
                                  ++ py "' に保存しました。")) eqn:Em.
        -- rewrite (print_text_run _ _ Em). cbn [fst snd]. state_simpl.
           repeat split; try reflexivity.
           ++ eexists. split; [reflexivity | right; reflexivity].
           ++ eexists. split; [reflexivity|].
              intros p a [C | []]. inversion C. reflexivity.
        -- rewrite (print_text_raises _ _ Em). cbn [fst snd]. state_simpl.
           repeat split; try reflexivity.
           ++ exists []. rewrite app_nil_r. auto.
           ++ eexists. split; [reflexivity|].
              intros p a [C | []]. inversion C. reflexivity.
      * rewrite (bind_raise _ _ _ _ _ (write_text_cut path text s Hp Et)).
        cbn [fst snd]. state_simpl.
        repeat split; try reflexivity.
        -- exists []. rewrite app_nil_r. auto.
        -- eexists. split; [reflexivity|].
           intros p a [C | []]. inversion C. reflexivity.
  - destruct (utf8_encodable text) eqn:Et.
    + rewrite (print_text_run _ _ Et). cbn [fst snd]. state_simpl.
      repeat split; try reflexivity.
      * eexists. split; [reflexivity | right; reflexivity].
      * exists []. rewrite app_nil_r. split; [reflexivity | intros p a []].
    + rewrite (print_text_raises _ _ Et). cbn [fst snd].
      repeat split; try reflexivity.
      * exists []. rewrite app_nil_r. auto.
      * exists []. rewrite app_nil_r. split; [reflexivity | intros p a []].
Qed.

(** The report step finishes exactly when its target is a path and its
    text and message can be encoded; it has then printed its line and
    written its file. *)
Lemma write_report_finished (output_file : option str) (text : str)
  (s s' : Search.state) :
  Search.write_report output_file text s = (inr tt, s') ->
  Search.results s' = Search.results s
  /\ Search.excel_data s' = Search.excel_data s
  /\ Search.stdout s' = Search.stdout s ++ [report_print output_file text]
  /\ Search.written s' = Search.written s ++ report_file output_file text
  /\ utf8_encodable text = true.
Proof.
  unfold Search.write_report, report_print, report_file.
  destruct (Search.truthy output_file) as [path|].
  - destruct (Os.path_error path) as [e|] eqn:Hp.
    + rewrite (bind_raise _ _ _ _ _ (write_text_no_path path text s e Hp)).
      intros C. discriminate C.
    + destruct (utf8_encodable text) eqn:Et.
      * rewrite (bind_run _ _ _ _ _ (write_text_run path text s Hp Et)).
        destruct (utf8_encodable (py "検索結果を '" ++ path
                                  ++ py "' に保存しました。")) eqn:Em.
        -- rewrite (print_text_run _ _ Em). intros E. inversion E.
           state_simpl. auto.
        -- rewrite (print_text_raises _ _ Em). intros C. discriminate C.
      * rewrite (bind_raise _ _ _ _ _ (write_text_cut path text s Hp Et)).
        intros C. discriminate C.
  - destruct (utf8_encodable text) eqn:Et.
    + rewrite (print_text_run _ _ Et). intros E. inversion E.
      state_simpl. rewrite app_nil_r. auto.
    + rewrite (print_text_raises _ _ Et). intros C. discriminate C.
Qed.


(** *** The workbook: lines 194 to 196 *)

Lemma write_excel_state (output_excel : option str) (s : Search.state) :
  let r := Search.write_excel output_excel s in
  Search.results (snd r) = Search.results s
  /\ Search.excel_data (snd r) = Search.excel_data s
  /\ (exists printed,
        Search.stdout (snd r) = Search.stdout s ++ printed
        /\ (printed = [] \/ printed = excel_print output_excel))
  /\ (exists files,
        Search.written (snd r) = Search.written s ++ files
        /\ forall p a, In (p, a) files -> Search.truthy output_excel = Some p).
Proof.
  unfold Search.write_excel, excel_print. cbn zeta.
  destruct (Search.truthy output_excel) as [path|].
  - rewrite (bind_run _ _ _ _ _ (get_run s)).
    destruct (Excel.save_results_to_excel (Search.results s)
                (Search.excel_data s)) as [e | wb].
    + unfold raise. cbn [fst snd]. repeat split; try reflexivity.
      * exists []. rewrite app_nil_r. auto.
      * exists []. rewrite app_nil_r. split; [reflexivity | intros p a []].
    + destruct (Os.path_error path) as [e|] eqn:Hp.
      * rewrite (bind_raise _ _ _ _ _ (save_workbook_no_path path wb s e Hp)).
        cbn [fst snd]. repeat split; try reflexivity.
        -- exists []. rewrite app_nil_r. auto.
        -- exists []. rewrite app_nil_r.
           split; [reflexivity | intros p a []].
      * rewrite (bind_run _ _ _ _ _ (save_workbook_run path wb s Hp)).
        destruct (utf8_encodable (py "検索結果を Excelファイル '" ++ path
                                  ++ py "' に保存しました。")) eqn:Em.
        -- rewrite (print_text_run _ _ Em). cbn [fst snd]. state_simpl.
           repeat split; try reflexivity.
           ++ eexists. split; [reflexivity | right; reflexivity].
           ++ eexists. split; [reflexivity|].
              intros p a [C | []]. inversion C. reflexivity.
        -- rewrite (print_text_raises _ _ Em). cbn [fst snd]. state_simpl.
           repeat split; try reflexivity.
           ++ exists []. rewrite app_nil_r. auto.
           ++ eexists. split; [reflexivity|].
              intros p a [C | []]. inversion C. reflexivity.
  - unfold ret. cbn [fst snd]. repeat split; try reflexivity.
    + exists []. rewrite app_nil_r. auto.
    + exists []. rewrite app_nil_r. split; [reflexivity | intros p a []].
Qed.

Lemma write_excel_finished (output_excel : option str)
  (s s' : Search.state) :
  Search.write_excel output_excel s = (inr tt, s') ->
  Search.results s' = Search.results s
  /\ Search.excel_data s' = Search.excel_data s
  /\ Search.stdout s' = Search.stdout s ++ excel_print output_excel
  /\ match Search.truthy output_excel with
     | Some path =>
         exists wb,
           Excel.save_results_to_excel (Search.results s)
             (Search.excel_data s) = inr wb
           /\ Search.written s'
              = Search.written s ++ [(path, Search.excel_file wb)]
     | None => Search.written s' = Search.written s
     end.
Proof.
  unfold Search.write_excel, excel_print.
  destruct (Search.truthy output_excel) as [path|].
  - rewrite (bind_run _ _ _ _ _ (get_run s)).
    destruct (Excel.save_results_to_excel (Search.results s)
                (Search.excel_data s)) as [e | wb].
    + intros C. discriminate C.
    + destruct (Os.path_error path) as [e|] eqn:Hp.
      * rewrite (bind_raise _ _ _ _ _ (save_workbook_no_path path wb s e Hp)).
        intros C. discriminate C.
      * rewrite (bind_run _ _ _ _ _ (save_workbook_run path wb s Hp)).
        destruct (utf8_encodable (py "検索結果を Excelファイル '" ++ path
                                  ++ py "' に保存しました。")) eqn:Em.
        -- rewrite (print_text_run _ _ Em). intros E. inversion E.
           state_simpl. repeat split; try reflexivity.
           exists wb. split; reflexivity.
        -- rewrite (print_text_raises _ _ Em). intros C. discriminate C.
  - unfold ret. intros E. inversion E. rewrite app_nil_r. auto.
Qed.


Section WholeRun.
Context `{UnicodeTable}.

Lemma search_files_tail (keywords : list str) (base_dir : str)
  (found : option Os.node) (output_file output_excel : option str)
  (s0 s1 : Search.state) :
  Search.scan keywords base_dir found s0 = (inr tt, s1) ->
  results_keyed keywords s1 ->
  Search.search_files keywords base_dir found output_file output_excel s0
  = bind (Search.write_report output_file
            (report_text keywords (Search.results s1)))
         (fun _ => Search.write_excel output_excel) s1.
Proof.
  intros Escan Hk. unfold Search.search_files.
  rewrite (bind_run _ _ _ _ _ Escan).
  rewrite (bind_run _ _ _ _ _ (get_run s1)).
  rewrite (bind_run _ _ _ _ _
             (output_lines_run keywords (Search.results s1) s1 Hk)).
  reflexivity.
Qed.

(** Once the scan is over, the rest of [search_files] leaves [results]
    and [excel_data] as they are, whether it finishes or raises; it prints
    at most two lines, and writes nothing but its targets. *)
Lemma search_files_state (keywords : list str) (base_dir : str)
  (found : option Os.node) (output_file output_excel : option str)
  (s0 s1 : Search.state) :
  Search.scan keywords base_dir found s0 = (inr tt, s1) ->
  results_keyed keywords s1 ->
  let s := snd (Search.search_files keywords base_dir found output_file
                  output_excel s0) in
  Search.results s = Search.results s1
  /\ Search.excel_data s = Search.excel_data s1
  /\ (exists printed,
        Search.stdout s = Search.stdout s1 ++ printed
        /\ (forall o, In o printed -> exists text, o = Search.print text)
        /\ (List.length printed <= 2)%nat)
  /\ (exists files,
        Search.written s = Search.written s1 ++ files
        /\ forall p a, In (p, a) files ->
             Search.truthy output_file = Some p
             \/ Search.truthy output_excel = Some p).
Proof.
  intros Escan Hk.
  rewrite (search_files_tail _ _ _ _ _ _ _ Escan Hk).
  set (text := report_text keywords (Search.results s1)).
  pose proof (write_report_state output_file text s1) as Hr.
  unfold bind.
  destruct (Search.write_report output_file text s1) as [[e | []] s2].
  - cbn [fst snd] in *.
    destruct Hr as (Er & Ee & (pr & Ep & Hpr) & (w & Ew & Hw)).
    split; [exact Er|]. split; [exact Ee|]. split.
    + exists pr. split; [exact Ep|]. split.
      * intros o Ho. destruct Hpr as [-> | ->]; [destruct Ho|].
        destruct Ho as [<- | []]. unfold report_print.
        destruct (Search.truthy output_file); eexists; reflexivity.
      * destruct Hpr as [-> | ->]; cbn; lia.
    + exists w. split; [exact Ew|]. intros p a Hin. left. exact (Hw p a Hin).
  - cbn [fst snd] in Hr.
    destruct Hr as (Er & Ee & (pr & Ep & Hpr) & (w & Ew & Hw)).
    pose proof (write_excel_state output_excel s2) as Hx.
    cbn zeta in Hx.
    destruct Hx as (Er2 & Ee2 & (pr2 & Ep2 & Hpr2) & (w2 & Ew2 & Hw2)).
    split; [rewrite Er2; exact Er|]. split; [rewrite Ee2; exact Ee|]. split.
    + exists (pr ++ pr2). split; [rewrite Ep2, Ep, app_assoc; reflexivity|].
      split.
      * intros o Ho. apply in_app_or in Ho. destruct Ho as [Ho | Ho].
        -- destruct Hpr as [-> | ->]; [destruct Ho|].
           destruct Ho as [<- | []]. unfold report_print.
           destruct (Search.truthy output_file); eexists; reflexivity.
        -- destruct Hpr2 as [-> | ->]; [destruct Ho|].
           unfold excel_print in Ho.
           destruct (Search.truthy output_excel); [|destruct Ho].
           destruct Ho as [<- | []]. eexists. reflexivity.
      * rewrite length_app.
        assert (List.length pr <= 1)%nat
          by (destruct Hpr as [-> | ->]; cbn; lia).
        assert (List.length pr2 <= 1)%nat.
        { destruct Hpr2 as [-> | ->]; [cbn; lia|]. unfold excel_print.
          destruct (Search.truthy output_excel); cbn; lia. }
        lia.
    + exists (w ++ w2). split; [rewrite Ew2, Ew, app_assoc; reflexivity|].
      intros p a Hin. apply in_app_or in Hin.
      destruct Hin as [Hin | Hin];
        [left; exact (Hw p a Hin) | right; exact (Hw2 p a Hin)].
Qed.

(** A run that finishes has printed its report line and written its
    files. *)
Lemma search_files_finished (keywords : list str) (base_dir : str)
  (found : option Os.node) (output_file output_excel : option str)
  (s0 s1 s : Search.state) :
  Search.scan keywords base_dir found s0 = (inr tt, s1) ->
  results_keyed keywords s1 ->
  Search.search_files keywords base_dir found output_file output_excel s0
  = (inr tt, s) ->
  let text := report_text keywords (Search.results s1) in
  Search.results s = Search.results s1
  /\ Search.excel_data s = Search.excel_data s1
  /\ Search.stdout s
     = Search.stdout s1 ++ report_print output_file text
                           :: excel_print output_excel
  /\ match Search.truthy output_excel with
     | Some path =>
         exists wb,
           Excel.save_results_to_excel (Search.results s1)
             (Search.excel_data s1) = inr wb
           /\ Search.written s
              = Search.written s1 ++ report_file output_file text
                ++ [(path, Search.excel_file wb)]
     | None =>
         Search.written s = Search.written s1 ++ report_file output_file text
     end.
Proof.
  intros Escan Hk E text.
  rewrite (search_files_tail _ _ _ _ _ _ _ Escan Hk) in E.
  fold text in E. unfold bind in E.
  destruct (Search.write_report output_file text s1) as [[e | []] s2] eqn:Er;
    [discriminate E|].
  destruct (write_report_finished _ _ _ _ Er) as (R1 & R2 & R3 & R4 & _).
  destruct (write_excel_finished _ _ _ E) as (X1 & X2 & X3 & X4).
  split; [rewrite X1; exact R1|]. split; [rewrite X2; exact R2|].
  split; [rewrite X3, R3, <- app_assoc; reflexivity|].
  destruct (Search.truthy output_excel) as [path|].
  - destruct X4 as (wb & Ewb & Ew). exists wb.
    rewrite <- R1, <- R2. split; [exact Ewb|].
    rewrite Ew, R4, <- app_assoc. reflexivity.
  - rewrite X4. exact R4.
Qed.


Lemma results_keyed_of_keys (keywords : list str) (s : Search.state) :
  map fst (Search.results s)
  = map fst (dict_comprehension keywords (fun _ => Search.empty_summary)) ->
  results_keyed keywords s.
Proof.
  intros K k Hin. rewrite K. apply dict_get_In.
  rewrite dict_comprehension_In by exact Hin. discriminate.
Qed.

(** When the scan runs to its end, the state that the run leaves - whether
    its last steps finish or raise - has the counters and records of the
    files it walked. *)
Lemma run_counts (keywords : list str) (base_dir : str)
  (found : option Os.node) (output_file output_excel : option str) :
  Os.path_error base_dir = None ->
  warnable base_dir found ->
  let s := snd (Search.run keywords base_dir found output_file
                  output_excel) in
  NoDup (map fst (Search.results s))
  /\ results_keyed keywords s
  /\ (forall k, hits_of s k
                = (multiplicity keywords k
                   * total_hits k (scanned base_dir found))%Z)
  /\ (forall k, files_of s k
                = (multiplicity keywords k
                   * files_with_hits k (scanned base_dir found))%Z)
  /\ Search.excel_data s
     = flat_map (fun f => file_records keywords (fst f) (snd f))
                (scanned base_dir found).
Proof.
  intros Hpath Hwarn.
  destruct (scan_run keywords base_dir found Search.init_state Hpath Hwarn)
    as (s1 & Escan & K & H1 & H3 & Ex & _ & _).
  pose proof (results_keyed_of_keys keywords s1 K) as Hk.
  destruct (search_files_state keywords base_dir found output_file
              output_excel Search.init_state s1 Escan Hk)
    as (Er & Ee & _).
  unfold Search.run. cbn zeta.
  split; [rewrite Er, K; apply dict_comprehension_keys_NoDup|].
  split; [intros k Hin; unfold results_keyed in *; rewrite Er; apply Hk, Hin|].
  unfold hits_of, files_of in *. rewrite Er, Ee.
  split; [exact H1|]. split; [exact H3 | exact Ex].
Qed.

End WholeRun.

(** ** The keys of [results] and the rows of the summary sheet *)









(** ** A base directory that cannot be walked *)



Section EmptyScan.
Context `{UnicodeTable}.




End EmptyScan.




(** ** Duplicated keywords *)

Section Counts.
Context `{UnicodeTable}.

Lemma summary_of (keywords : list str) (s : Search.state) (k : str) :
  results_keyed keywords s -> In k keywords ->
  exists sm, dict_get k (Search.results s) = Some sm
             /\ hit_count sm = hits_of s k /\ file_count sm = files_of s k.
Proof.
  intros Hk Hin. destruct (dict_get_of_key k _ (Hk k Hin)) as [sm Esm].
  exists sm. unfold hits_of, files_of. rewrite Esm. auto.
Qed.

End Counts.

(** C10: if a keyword is listed n times, the summary that the scan leaves
    has one entry for it, whose hit_count is n times the number of matching
    lines and whose file_count is n times the number of files with a
    matching line: n times the counts of a run that lists the keyword
    once.  The scan is one of a base directory that is a path, whose
    warnings the standard output takes; the summary is the one in the
    state the run ends in, whether or not its outputs could be
    produced. *)
Theorem duplicated_keyword_counts_n_times `{UnicodeTable}
  (keywords : list str) (base_dir : str) (found : option Os.node)
  (output_file output_excel : option str) (k : str) :
  Os.path_error base_dir = None ->
  warnable base_dir found ->
  In k keywords ->
  let n := multiplicity keywords k in
  let s := snd (Search.run keywords base_dir found output_file
                  output_excel) in
  let s1 := snd (Search.run [k] base_dir found output_file output_excel) in
  exists sm sm1,
    count_occ str_eq_dec (map fst (Search.results s)) k = 1%nat
    /\ dict_get k (Search.results s) = Some sm
    /\ dict_get k (Search.results s1) = Some sm1
    /\ hit_count sm = (n * total_hits k (scanned base_dir found))%Z
    /\ file_count sm = (n * files_with_hits k (scanned base_dir found))%Z
    /\ hit_count sm = (n * hit_count sm1)%Z
    /\ file_count sm = (n * file_count sm1)%Z.
Proof.
  intros Hpath Hwarn Hin n s s1.
  destruct (run_counts keywords base_dir found output_file output_excel
              Hpath Hwarn) as (Hnd & Hk & H1 & H3 & _).
  destruct (run_counts [k] base_dir found output_file output_excel
              Hpath Hwarn) as (_ & Hk1 & H1' & H3' & _).
  fold s in Hnd, Hk, H1, H3. fold s1 in Hk1, H1', H3'.
  destruct (summary_of keywords s k Hk Hin) as (sm & Esm & Eh & Ef).
  destruct (summary_of [k] s1 k Hk1 (or_introl eq_refl))
    as (sm1 & Esm1 & Eh1 & Ef1).
  exists sm, sm1.
  assert (Hone : multiplicity [k] k = 1%Z).
  { unfold multiplicity. rewrite count_occ_cons_eq by reflexivity. reflexivity. }
  rewrite Eh, Ef, Eh1, Ef1, H1, H3, H1', H3', Hone.
  repeat split; try assumption; try lia.
  apply NoDup_count_occ'; [exact Hnd | apply Hk, Hin].
Qed.

Lemma duplicated_keyword_counts_n_times_witness :
  Os.path_error (py ".") = None
  /\ warnable (py ".") (one_file [py "foo" ++ LF; py "bar foo" ++ LF])
  /\ In (py "foo") [py "foo"; py "bar"; py "foo"]
  /\ exists sm sm1,
       dict_get (py "foo")
         (Search.results
            (snd (@Search.run ascii_table [py "foo"; py "bar"; py "foo"]
                    (py ".")
                    (one_file [py "foo" ++ LF; py "bar foo" ++ LF])
                    None None)))
       = Some sm
       /\ dict_get (py "foo")
            (Search.results
               (snd (@Search.run ascii_table [py "foo"] (py ".")
                       (one_file [py "foo" ++ LF; py "bar foo" ++ LF])
                       None None)))
          = Some sm1
       /\ hit_count sm = (2 * hit_count sm1)%Z
       /\ file_count sm = (2 * file_count sm1)%Z.
Proof.
  assert (Hpath : Os.path_error (py ".") = None) by (vm_compute; reflexivity).
  assert (Hwarn : warnable (py ".")
                    (one_file [py "foo" ++ LF; py "bar foo" ++ LF])).
  { intros path rel e Hin. vm_compute in Hin.
    destruct Hin as [C | []]. discriminate C. }
  assert (Hin : In (py "foo") [py "foo"; py "bar"; py "foo"])
    by (left; reflexivity).
  split; [exact Hpath|]. split; [exact Hwarn|]. split; [exact Hin|].
  destruct (@duplicated_keyword_counts_n_times ascii_table
              [py "foo"; py "bar"; py "foo"] (py ".")
              (one_file [py "foo" ++ LF; py "bar foo" ++ LF]) None None
              (py "foo") Hpath Hwarn Hin)
    as (sm & sm1 & _ & Esm & Esm1 & _ & _ & Eh & Ef).
  exists sm, sm1.
  repeat (split; [assumption|]). exact Ef.
Defined.

(** ** Counters and records *)

Lemma length_filter_flat_map {A B} (p : B -> bool) (g : A -> list B)
  (l : list A) :
  Z.of_nat (List.length (filter p (flat_map g l)))
  = sumZ (map (fun x => Z.of_nat (List.length (filter p (g x)))) l).
Proof.
  induction l as [|x l IH]; [reflexivity|].
  cbn [flat_map map]. rewrite filter_app, length_app, sumZ_cons, <- IH. lia.
Qed.

Lemma map_filter_flat_map {A B C} (h : B -> C) (p : B -> bool)
  (g : A -> list B) (l : list A) :
  map h (filter p (flat_map g l))
  = flat_map (fun x => map h (filter p (g x))) l.
Proof.
  induction l as [|x l IH]; [reflexivity|].
  cbn [flat_map]. rewrite filter_app, map_app, IH. reflexivity.
Qed.

Lemma nodup_block (block rest : list str) (p : str) :
  (forall y, In y block -> y = p) -> ~ In p rest ->
  List.length (nodup str_eq_dec (block ++ rest))
  = ((match block with [] => 0 | _ => 1 end)
     + List.length (nodup str_eq_dec rest))%nat.
Proof.
  intros Hall Hnot. induction block as [|y b IH]; [reflexivity|].
  assert (Ey : y = p) by (apply Hall; left; reflexivity). subst y.
  assert (Hb : forall z, In z b -> z = p) by (intros; apply Hall; right; assumption).
  specialize (IH Hb). cbn [app nodup].
  destruct (in_dec str_eq_dec p (b ++ rest)) as [Hin | Hnin].
  - destruct b as [|z b']; [contradiction (Hnot Hin)|]. exact IH.
  - destruct b as [|z b'].
    + reflexivity.
    + exfalso. apply Hnin. left. apply Hb. left; reflexivity.
Qed.

Lemma nodup_length_blocks {B} (blk : str * B -> list str) (l : list (str * B)) :
  (forall f y, In f l -> In y (blk f) -> y = fst f) ->
  NoDup (map fst l) ->
  Z.of_nat (List.length (nodup str_eq_dec (flat_map blk l)))
  = sumZ (map (fun f => ind (match blk f with [] => false | _ => true end)) l).
Proof.
  intros Hblk Hnd. induction l as [|f l IH]; [reflexivity|].
  cbn [flat_map map]. rewrite sumZ_cons.
  inversion Hnd as [|? ? Hnot Hnd']; subst.
  rewrite (nodup_block (blk f) (flat_map blk l) (fst f)).
  - rewrite Nat2Z.inj_add, IH.
    + destruct (blk f); reflexivity.
    + intros g y Hg Hy. apply (Hblk g y); [right; exact Hg | exact Hy].
    + exact Hnd'.
  - intros y Hy. apply (Hblk f y); [left; reflexivity | exact Hy].
  - intros Hin. apply in_flat_map in Hin. destruct Hin as (g & Hg & Hy).
    apply Hnot. rewrite (Hblk g (fst f) (or_intror Hg) Hy).
    apply in_map, Hg.
Qed.

Section RecordFacts.
Context `{UnicodeTable}.

Lemma file_records_file (keywords : list str) (rel : str) (lines : list str)
  (r : MatchRecord) :
  In r (file_records keywords rel lines) -> file r = rel.
Proof.
  unfold file_records. intros Hin.
  apply in_flat_map in Hin. destruct Hin as (il & _ & Hin).
  apply in_flat_map in Hin. destruct Hin as (kw & _ & Hin).
  destruct (line_hit kw (snd il)); [|destruct Hin].
  destruct Hin as [<- | []]. reflexivity.
Qed.

(** The records of a keyword in one file: one per listing of the keyword
    and matching line. *)
Lemma count_file_records (keywords : list str) (rel : str) (lines : list str)
  (k : str) :
  Z.of_nat (List.length (records_of k (file_records keywords rel lines)))
  = (multiplicity keywords k * matching_lines k lines)%Z.
Proof.
  unfold records_of, file_records. rewrite length_filter_flat_map.
  rewrite <- sum_over_lines with (start := 0%Z).
  apply sumZ_ext. intros il _.
  rewrite length_filter_flat_map.
  rewrite <- (sum_over_keywords keywords k (fun kw => line_hit kw (snd il))).
  apply sumZ_ext. intros kw _.
  rewrite (str_eqb_sym k kw).
  destruct (line_hit kw (snd il)); cbn [filter hit_record keyword];
    [|rewrite andb_false_r; reflexivity].
  rewrite andb_true_r. destruct (str_eqb kw k); reflexivity.
Qed.

Lemma files_with_hits_le (k : str) (files : list (str * list str)) :
  (0 <= files_with_hits k files <= total_hits k files)%Z.
Proof.
  unfold files_with_hits, total_hits.
  induction files as [|f l IH]; [cbn; lia|].
  cbn [map]. rewrite !sumZ_cons.
  pose proof (matching_lines_nonneg k (snd f)) as Hn.
  destruct (Z.gtb_spec (matching_lines k (snd f)) 0); cbn [ind]; lia.
Qed.

(** The distinct files among the records of a listed keyword are the
    scanned files with a matching line. *)
Lemma distinct_files_of_scan (keywords : list str)
  (files : list (str * list str)) (k : str) :
  NoDup (map fst files) -> In k keywords ->
  distinct_files k
    (flat_map (fun f => file_records keywords (fst f) (snd f)) files)
  = files_with_hits k files.
Proof.
  intros Hnd Hin. unfold distinct_files, records_of, files_with_hits.
  rewrite map_filter_flat_map.
  rewrite (nodup_length_blocks
             (fun f => map file
                         (filter (fun r => str_eqb (keyword r) k)
                                 (file_records keywords (fst f) (snd f))))).
  - apply sumZ_ext. intros f _.
    pose proof (count_file_records keywords (fst f) (snd f) k) as Hc.
    unfold records_of in Hc.
    pose proof (matching_lines_nonneg k (snd f)) as Hn.
    assert (Hm : (1 <= multiplicity keywords k)%Z).
    { unfold multiplicity.
      apply (count_occ_In str_eq_dec) in Hin. lia. }
    destruct (filter _ (file_records keywords (fst f) (snd f))) as [|r rs];
      cbn [map List.length] in *;
      destruct (Z.gtb_spec (matching_lines k (snd f)) 0); cbn [ind];
      try reflexivity; nia.
  - intros f y _ Hy. apply in_map_iff in Hy. destruct Hy as (r & <- & Hr).
    apply filter_In in Hr. destruct Hr as [Hr _].
    exact (file_records_file _ _ _ _ Hr).
  - exact Hnd.
Qed.

End RecordFacts.

(** C6, as stated, fails: with the keyword [foo] listed twice and one file
    with one matching line, file_count is 2 while one file contributed
    records. *)
Lemma duplicated_keyword_counts_a_file_twice :
  ~ (forall (U : UnicodeTable) (keywords : list str) (base_dir : str)
            (found : option Os.node) (output_file output_excel : option str)
            (k : str) (sm : KeywordSummary),
        let s := snd (Search.run keywords base_dir found output_file
                        output_excel) in
        In k keywords ->
        dict_get k (Search.results s) = Some sm ->
        (file_count sm <= hit_count sm)%Z
        /\ file_count sm = distinct_files k (Search.excel_data s)).
Proof.
  intros Hall.
  destruct (Hall ascii_table [py "foo"; py "foo"] (py ".")
              (one_file [py "foo" ++ LF]) None None (py "foo")
              {| hit_count := 2; file_count := 2;
                 files := [(py "a.txt",
                            [py "a.txt (Line 1): foo";
                             py "a.txt (Line 1): foo"])] |}
              (or_introl eq_refl) eq_refl) as [_ C].
  vm_compute in C. discriminate C.
Qed.

(** C6 (amended): after scanning, for every keyword k of the keyword list,
    file_count(k) <= hit_count(k), hit_count(k) is the number of match
    records for k, and file_count(k) is the number of distinct files that
    contributed at least one match record for k, multiplied by the number
    of times k is listed: the number of distinct files itself when k is
    listed once.  The scan is one of a base directory that is a path,
    whose warnings the standard output takes; the counters and the records
    are those of the state the run ends in, whether or not its outputs
    could be produced. *)
Theorem file_count_counts_distinct_files `{UnicodeTable}
  (keywords : list str) (base_dir : str) (found : option Os.node)
  (output_file output_excel : option str) (k : str) :
  Os.path_error base_dir = None ->
  warnable base_dir found ->
  NoDup (map fst (scanned base_dir found)) ->
  In k keywords ->
  let s := snd (Search.run keywords base_dir found output_file
                  output_excel) in
  exists sm,
    dict_get k (Search.results s) = Some sm
    /\ (file_count sm <= hit_count sm)%Z
    /\ hit_count sm
       = Z.of_nat (List.length (records_of k (Search.excel_data s)))
    /\ file_count sm
       = (multiplicity keywords k
          * distinct_files k (Search.excel_data s))%Z
    /\ (multiplicity keywords k = 1%Z ->
        file_count sm = distinct_files k (Search.excel_data s)).
Proof.
  intros Hpath Hwarn Hnd Hin s.
  destruct (run_counts keywords base_dir found output_file output_excel
              Hpath Hwarn) as (_ & Hk & H1 & H3 & Ex).
  fold s in Hk, H1, H3, Ex.
  destruct (summary_of keywords s k Hk Hin) as (sm & Esm & Eh & Ef).
  exists sm. split; [exact Esm|].
  rewrite Eh, Ef, H1, H3, Ex.
  rewrite (distinct_files_of_scan keywords _ k Hnd Hin).
  pose proof (files_with_hits_le k (scanned base_dir found)) as Hle.
  pose proof (multiplicity_nonneg keywords k) as Hm.
  split; [nia|]. split; [|split; [reflexivity | intros ->; lia]].
  unfold records_of. rewrite length_filter_flat_map.
  unfold total_hits. rewrite <- sumZ_scale.
  apply sumZ_ext. intros f _. symmetry.
  apply (count_file_records keywords (fst f) (snd f) k).
Qed.

Lemma file_count_counts_distinct_files_witness :
  Os.path_error (py ".") = None
  /\ warnable (py ".") nested_tree
  /\ NoDup (map fst (scanned (py ".") nested_tree))
  /\ In (py "foo") [py "foo"]
  /\ exists sm,
       let s := snd (@Search.run ascii_table [py "foo"] (py ".") nested_tree
                       None None) in
       dict_get (py "foo") (Search.results s) = Some sm
       /\ (file_count sm <= hit_count sm)%Z
       /\ file_count sm = distinct_files (py "foo") (Search.excel_data s).
Proof.
  assert (Hpath : Os.path_error (py ".") = None) by (vm_compute; reflexivity).
  assert (Hwarn : warnable (py ".") nested_tree).
  { intros path rel e Hin. vm_compute in Hin.
    destruct Hin as [C | [C | []]]; discriminate C. }
  assert (Hnd : NoDup (map fst (scanned (py ".") nested_tree))).
  { vm_compute. constructor.
    - intros [C | []]. discriminate C.
    - constructor; [intros [] | constructor]. }
  assert (Hin : In (py "foo") [py "foo"]) by (left; reflexivity).
  split; [exact Hpath|]. split; [exact Hwarn|].
  split; [exact Hnd|]. split; [exact Hin|].
  destruct (@file_count_counts_distinct_files ascii_table [py "foo"] (py ".")
              nested_tree None None (py "foo") Hpath Hwarn Hnd Hin)
    as (sm & Esm & Hle & _ & _ & Hone).
  exists sm. cbn zeta. split; [exact Esm|]. split; [exact Hle|].
  apply Hone. reflexivity.
Defined.

(** ** The walk *)

Lemma nondirs_In (es : list Os.node) (nm : str) (c : exn + list str) :
  In (Os.File nm c) es -> In (nm, c) (Os.nondirs es).
Proof.
  induction es as [|e es IH]; [intros []|].
  intros [-> | Hin]; [left; reflexivity|].
  destruct e; cbn [Os.nondirs]; try right; apply IH, Hin.
Qed.

(** The walk reaches every file under the base directory, at any depth. *)
Lemma walk_reaches_every_file (n : Os.node) (rel : list str) (f : str)
  (c : exn + list str) :
  file_under n rel f c ->
  forall (top : str) (pre : list str),
    exists item,
      In item (Os.walk_node top pre n)
      /\ Os.rel item = pre ++ rel
      /\ In (f, c) (Os.files item).
Proof.
  induction 1 as [d es nm c Hin | d es nm b es' rel f c Hin Hunder IH];
    intros top pre.
  - eexists. split; [left; reflexivity|]. cbn [Os.rel Os.files].
    split; [rewrite app_nil_r; reflexivity | apply nondirs_In, Hin].
  - destruct (IH (Os.path_join top nm) (pre ++ [nm])) as (item & Hitem & Hrel & Hf).
    exists item. split; [|split; [|exact Hf]].
    + cbn [Os.walk_node]. right. apply in_flat_map.
      exists (Os.Dir nm b es'). split; [exact Hin | exact Hitem].
    + rewrite Hrel, <- app_assoc. reflexivity.
Qed.

(** C2: the recursion flag of the command line never reaches the scan:
    [search_files] takes no such argument, and a file in a sub-directory
    is scanned like a direct child of the base directory. *)
Theorem subdirectory_files_are_always_scanned `{UnicodeTable} :
  map fst (scanned (py ".") nested_tree) = [py "a.txt"; py "sub/b.txt"]
  /\ let r := Search.run [py "foo"] (py ".") nested_tree None None in
     fst r = inr tt
     /\ map file (Search.excel_data (snd r)) = [py "a.txt"; py "sub/b.txt"].
Proof. vm_compute. repeat split. Qed.

(** * Further properties *)

(** ** Every cell of the saved detail sheet *)






















(** ** The keyword bands *)











(** ** The whole of [render] on the detail sheet *)



(** ** The saved detail sheet *)

(** The hypotheses of the properties of the saved workbook: the sheets take
    every keyword of the summary and every cell of the records, so that no
    [append] raises. *)


















(** ** The keyword bands *)





(** ** What a run prints and writes *)

Section RunOutputs.
Context `{UnicodeTable}.

Lemma warnings_of_walk (base_dir : str) (found : option Os.node) :
  flat_map (fun f => entry_warning (fst (fst f)) (snd f))
           (walked_files base_dir found)
  = warnings base_dir found.
Proof.
  unfold warnings, unreadable.
  induction (walked_files base_dir found) as [|f l IH]; [reflexivity|].
  cbn [flat_map]. rewrite map_app, IH. f_equal.
  destruct f as [[p r] [e|lines]]; reflexivity.
Qed.

(** The state a run ends in, whether its outputs could be produced or
    not, when the scan went through. *)
Lemma run_state (keywords : list str) (base_dir : str)
  (found : option Os.node) (output_file output_excel : option str) :
  Os.path_error base_dir = None ->
  warnable base_dir found ->
  let s := snd (Search.run keywords base_dir found output_file
                  output_excel) in
  map fst (Search.results s)
  = map fst (dict_comprehension keywords (fun _ => Search.empty_summary))
  /\ Search.excel_data s
     = flat_map (fun f => file_records keywords (fst f) (snd f))
                (scanned base_dir found)
  /\ (exists printed,
        Search.stdout s = warnings base_dir found ++ printed
        /\ (forall o, In o printed -> exists text, o = Search.print text)
        /\ (List.length printed <= 2)%nat)
  /\ (forall p a, In (p, a) (Search.written s) ->
        Search.truthy output_file = Some p
        \/ Search.truthy output_excel = Some p).
Proof.
  intros Hpath Hwarn.
  destruct (scan_run keywords base_dir found Search.init_state Hpath Hwarn)
    as (s1 & Escan & K & _ & _ & Ex & Eo & Ew).
  pose proof (results_keyed_of_keys keywords s1 K) as Hk.
  destruct (search_files_state keywords base_dir found output_file
              output_excel Search.init_state s1 Escan Hk)
    as (Er & Ee & (printed & Ep & Hp & Hlen) & (files & Ef & Hf)).
  unfold Search.run. cbn zeta.
  split; [rewrite Er; exact K|]. split; [rewrite Ee; exact Ex|]. split.
  - exists printed. split; [|split; assumption].
    rewrite Ep, Eo, warnings_of_walk. reflexivity.
  - intros p a Hin. rewrite Ef, Ew in Hin. exact (Hf p a Hin).
Qed.

(** The state of a run that finished. *)
Lemma run_finished (keywords : list str) (base_dir : str)
  (found : option Os.node) (output_file output_excel : option str)
  (s : Search.state) :
  Os.path_error base_dir = None ->
  warnable base_dir found ->
  Search.run keywords base_dir found output_file output_excel = (inr tt, s) ->
  let text := report_text keywords (Search.results s) in
  Search.stdout s
  = warnings base_dir found
    ++ report_print output_file text :: excel_print output_excel
  /\ match Search.truthy output_excel with
     | Some path =>
         exists wb,
           Excel.save_results_to_excel (Search.results s)
             (Search.excel_data s) = inr wb
           /\ Search.written s
              = report_file output_file text
                ++ [(path, Search.excel_file wb)]
     | None => Search.written s = report_file output_file text
     end.
Proof.
  intros Hpath Hwarn E.
  destruct (scan_run keywords base_dir found Search.init_state Hpath Hwarn)
    as (s1 & Escan & K & _ & _ & _ & Eo & Ew).
  pose proof (results_keyed_of_keys keywords s1 K) as Hk.
  destruct (search_files_finished keywords base_dir found output_file
              output_excel Search.init_state s1 s Escan Hk E)
    as (Er & Ee & Eout & Ewr).
  cbn zeta. rewrite Er, Ee. split.
  - rewrite Eout, Eo, warnings_of_walk. reflexivity.
  - rewrite Ew in Ewr. exact Ewr.
Qed.


End RunOutputs.

Lemma locked_tree_warnable : warnable (py ".") locked_tree.
Proof.
  intros path rel e Hin. vm_compute in Hin.
  destruct Hin as [C | [C | []]]; [|discriminate C].
  inversion C. vm_compute. reflexivity.
Qed.

Lemma dot_is_a_path : Os.path_error (py ".") = None.
Proof. vm_compute. reflexivity. Qed.

(** X10: a file that cannot be read does not stop the scan, and each is
    reported once, when the base directory is a path and the standard
    output takes the warnings: whether the run then finishes or not, its
    standard output is one warning per file that could not be read, in
    scan order, followed by what the report prints - at most two printed
    texts, and exactly one, or two when an Excel file is asked for, once
    the run has finished. *)
Theorem unreadable_files_are_warned_about_in_scan_order `{UnicodeTable}
  (keywords : list str) (base_dir : str) (found : option Os.node)
  (output_file output_excel : option str) :
  Os.path_error base_dir = None ->
  warnable base_dir found ->
  let r := Search.run keywords base_dir found output_file output_excel in
  exists report,
    Search.stdout (snd r)
    = map (fun pe => Search.print_error (fst pe) (snd pe))
          (unreadable base_dir found) ++ report
    /\ (forall o, In o report -> exists text, o = Search.print text)
    /\ (List.length report <= 2)%nat
    /\ (fst r = inr tt ->
        List.length report
        = match Search.truthy output_excel with Some _ => 2 | None => 1 end).
Proof.
  intros Hpath Hwarn r.
  destruct (run_state keywords base_dir found output_file output_excel
              Hpath Hwarn) as (_ & _ & (report & Eo & Hp & Hlen) & _).
  fold r in Eo. exists report. split; [exact Eo|].
  split; [exact Hp|]. split; [exact Hlen|].
  intros Efin.
  destruct r as [[e | []] s] eqn:Er; [discriminate Efin|].
  destruct (run_finished keywords base_dir found output_file output_excel s
              Hpath Hwarn Er) as [Eout _].
  cbn [snd] in Eo. rewrite Eo in Eout. apply app_inv_head in Eout.
  rewrite Eout. unfold excel_print.
  destruct (Search.truthy output_excel); reflexivity.
Qed.

Lemma unreadable_files_are_warned_about_in_scan_order_witness :
  Os.path_error (py ".") = None
  /\ warnable (py ".") locked_tree
  /\ exists report,
       Search.stdout
         (snd (@Search.run ascii_table [py "foo"] (py ".") locked_tree
                 None None))
       = Search.print_error (py "./a.txt") (OSError (py "Permission denied"))
         :: report
       /\ (List.length report <= 2)%nat.
Proof.
  split; [exact dot_is_a_path|]. split; [exact locked_tree_warnable|].
  destruct (@unreadable_files_are_warned_about_in_scan_order ascii_table
              [py "foo"] (py ".") locked_tree None None
              dot_is_a_path locked_tree_warnable)
    as (report & Eo & _ & Hlen & _).
  exists report. split; [exact Eo | exact Hlen].
Defined.

(** X11: a run writes what it is asked to and nothing else, when the base
    directory is a path and the standard output takes the warnings of the
    scan: whether it finishes or not, it writes to no path but a target
    that is given as a non-empty string; once it has finished, it has
    written the text report when [output_file] is a non-empty string, then
    the workbook of the final [results] and [excel_data] when
    [output_excel] is a non-empty string; [None] and the empty string both
    count as not given, so that with neither target nothing is written and
    the report is printed. *)
Theorem run_writes_only_the_requested_files `{UnicodeTable}
  (keywords : list str) (base_dir : str) (found : option Os.node)
  (output_file output_excel : option str) :
  Os.path_error base_dir = None ->
  warnable base_dir found ->
  let r := Search.run keywords base_dir found output_file output_excel in
  let s := snd r in
  let text := report_text keywords (Search.results s) in
  (forall p a, In (p, a) (Search.written s) ->
     p <> [] /\ (output_file = Some p \/ output_excel = Some p))
  /\ (fst r = inr tt ->
      (exists wb,
         (match output_excel with
          | None | Some [] => True
          | Some _ =>
              Excel.save_results_to_excel (Search.results s)
                (Search.excel_data s) = inr wb
          end)
         /\ Search.written s
            = match output_file with
              | None | Some [] => []
              | Some path => [(path, Search.text_file text)]
              end
              ++ match output_excel with
                 | None | Some [] => []
                 | Some path => [(path, Search.excel_file wb)]
                 end)
      /\ match output_file with
         | None | Some [] => In (Search.print text) (Search.stdout s)
         | Some _ => True
         end).
Proof.
  intros Hpath Hwarn r s text.
  assert (Htruthy : forall (o : option str) p,
            Search.truthy o = Some p -> p <> [] /\ o = Some p).
  { intros [[|c q]|] p E; cbn [Search.truthy] in E; try discriminate E.
    inversion E. split; [discriminate | reflexivity]. }
  split.
  - destruct (run_state keywords base_dir found output_file output_excel
                Hpath Hwarn) as (_ & _ & _ & Hw).
    intros p a Hin. destruct (Hw p a Hin) as [E | E];
      destruct (Htruthy _ _ E) as [Hne Eo]; auto.
  - intros Efin. subst s text.
    destruct r as [[e | []] s] eqn:Er; [discriminate Efin|].
    cbn [snd].
    destruct (run_finished keywords base_dir found output_file output_excel s
                Hpath Hwarn Er) as [Eout Ewr].
    unfold report_file, report_print in *. split.
    + destruct output_excel as [[|c' p']|]; cbn [Search.truthy] in Ewr.
      * exists {| Excel.ws_summary := [];
                  Excel.ws_details := Excel.details Excel.init_locals |}.
        split; [exact I|]. rewrite Ewr, app_nil_r.
        destruct output_file as [[|c p]|]; reflexivity.
      * destruct Ewr as (wb & Ewb & Ewr). exists wb. split; [exact Ewb|].
        rewrite Ewr. destruct output_file as [[|c p]|]; reflexivity.
      * exists {| Excel.ws_summary := [];
                  Excel.ws_details := Excel.details Excel.init_locals |}.
        split; [exact I|]. rewrite Ewr, app_nil_r.
        destruct output_file as [[|c p]|]; reflexivity.
    + destruct output_file as [[|c p]|]; [|exact I|]; rewrite Eout;
        cbn [Search.truthy]; apply in_or_app; right; left; reflexivity.
Qed.

Lemma run_writes_only_the_requested_files_witness :
  Os.path_error (py ".") = None
  /\ warnable (py ".") locked_tree
  /\ Search.written
       (snd (@Search.run ascii_table [py "foo"] (py ".") locked_tree
               (Some []) None)) = [].
Proof.
  split; [exact dot_is_a_path|]. split; [exact locked_tree_warnable|].
  destruct (@run_writes_only_the_requested_files ascii_table
              [py "foo"] (py ".") locked_tree (Some []) None
              dot_is_a_path locked_tree_warnable) as [Hw _].
  destruct (Search.written _) as [|[p a] l]; [reflexivity|].
  destruct (Hw p a (or_introl eq_refl)) as [Hne [E | E]].
  - inversion E. subst p. contradiction Hne. reflexivity.
  - discriminate E.
Defined.

(** ** The records of a run *)

Lemma enumerate_In {A} (l : list A) (start i : Z) (x : A) :
  In (i, x) (enumerate start l)
  <-> exists n : nat, i = (start + Z.of_nat n)%Z /\ nth_error l n = Some x.
Proof.
  revert start. induction l as [|a l IH]; intros start; cbn [enumerate].
  - split; [intros [] | intros ([|n] & _ & E); discriminate E].
  - split.
    + intros [E | Hin].
      * inversion E; subst. exists 0%nat. split; [lia | reflexivity].
      * apply IH in Hin. destruct Hin as (n & -> & E).
        exists (S n). split; [lia | exact E].
    + intros ([|n] & -> & E).
      * inversion E; subst. left. f_equal. lia.
      * right. apply IH. exists n. split; [lia | exact E].
Qed.

Lemma scanned_In (base_dir : str) (found : option Os.node) (rel : str)
  (lines : list str) :
  In (rel, lines) (scanned base_dir found)
  <-> exists path content,
        In (path, rel, content) (walked_files base_dir found)
        /\ lines = entry_lines content.
Proof.
  unfold scanned. rewrite in_map_iff. split.
  - intros ([[p r] c] & E & Hin). cbn [fst snd] in E. inversion E; subst.
    exists p, c. split; [exact Hin | reflexivity].
  - intros (p & c & Hin & ->). exists (p, rel, c). split; [reflexivity | exact Hin].
Qed.

Section Records.
Context `{UnicodeTable}.

Lemma file_records_In (keywords : list str) (rel : str) (lines : list str)
  (r : MatchRecord) :
  In r (file_records keywords rel lines)
  <-> exists (n : nat) line kw,
        nth_error lines n = Some line /\ In kw keywords
        /\ line_hit kw line = true
        /\ r = hit_record rel lines (Z.of_nat n, line) kw.
Proof.
  unfold file_records. rewrite in_flat_map. split.
  - intros ([i line] & Hil & Hin). apply enumerate_In in Hil.
    destruct Hil as (n & -> & En). apply in_flat_map in Hin.
    destruct Hin as (kw & Hkw & Hr). cbn [snd] in Hr.
    destruct (line_hit kw line) eqn:Hhit; [|destruct Hr].
    destruct Hr as [<- | []]. exists n, line, kw.
    repeat split; assumption.
  - intros (n & line & kw & En & Hkw & Hhit & ->).
    exists (Z.of_nat n, line). split.
    + apply enumerate_In. exists n. split; [lia | exact En].
    + apply in_flat_map. exists kw. split; [exact Hkw|].
      cbn [snd]. rewrite Hhit. left. reflexivity.
Qed.

End Records.

(** X12: the records of a run are exactly the hits, when the base
    directory is a path and the standard output takes the warnings of the
    scan: in the state the run ends in, whether its outputs could be
    produced or not, a record is in [excel_data] if and only if it is the
    record of a line of a file that the walk reached and could read, and
    of a listed keyword whose pattern is found in that line; its line
    number is the index of the line plus one, its hit line the stripped
    line and its context the stripped window around the line. *)
Theorem records_are_exactly_the_hits `{UnicodeTable}
  (keywords : list str) (base_dir : str) (found : option Os.node)
  (output_file output_excel : option str) :
  Os.path_error base_dir = None ->
  warnable base_dir found ->
  let s := snd (Search.run keywords base_dir found output_file
                  output_excel) in
  forall r,
    In r (Search.excel_data s)
    <-> exists path rel lines (n : nat) line kw,
          In (path, rel, inr lines) (walked_files base_dir found)
          /\ nth_error lines n = Some line
          /\ In kw keywords
          /\ line_hit kw line = true
          /\ r = {| keyword := kw; file := rel;
                    lineno := Z.of_nat n + 1;
                    hit_line := strip line;
                    full_context :=
                      strip (join_empty
                               (Search.context_window (Z.of_nat n)
                                  lines)) |}.
Proof.
  intros Hpath Hwarn s r.
  destruct (run_state keywords base_dir found output_file output_excel
              Hpath Hwarn) as (_ & Ex & _).
  fold s in Ex.
  rewrite Ex, in_flat_map. split.
  - intros ([rel lines] & Hf & Hr). cbn [fst snd] in Hr.
    apply scanned_In in Hf. destruct Hf as (path & content & Hw & ->).
    apply file_records_In in Hr.
    destruct Hr as (n & line & kw & En & Hkw & Hhit & ->).
    destruct content as [e | lines].
    + destruct n; discriminate En.
    + exists path, rel, lines, n, line, kw. repeat split; assumption.
  - intros (path & rel & lines & n & line & kw & Hw & En & Hkw & Hhit & ->).
    exists (rel, lines). split.
    + apply scanned_In. exists path, (inr lines). split; [exact Hw | reflexivity].
    + cbn [fst snd]. apply file_records_In.
      exists n, line, kw. repeat split; assumption.
Qed.

Lemma records_are_exactly_the_hits_witness :
  Os.path_error (py ".") = None
  /\ warnable (py ".") locked_tree
  /\ In {| keyword := py "foo"; file := py "b.txt"; lineno := 1;
           hit_line := py "foo"; full_context := py "foo" |}
        (Search.excel_data
           (snd (@Search.run ascii_table [py "foo"] (py ".") locked_tree
                   None None))).
Proof.
  split; [exact dot_is_a_path|]. split; [exact locked_tree_warnable|].
  apply (@records_are_exactly_the_hits ascii_table [py "foo"] (py ".")
           locked_tree None None dot_is_a_path locked_tree_warnable).
  exists (py "./b.txt"), (py "b.txt"), [py "foo" ++ LF], 0%nat,
         (py "foo" ++ LF), (py "foo").
  split; [vm_compute; right; left; reflexivity|].
  split; [reflexivity|]. split; [left; reflexivity|].
  split; [vm_compute; reflexivity|]. vm_compute. reflexivity.
Defined.

(** ** The order of the detail rows *)


Lemma filter_flat_map {A B} (p : B -> bool) (g : A -> list B) (l : list A) :
  filter p (flat_map g l) = flat_map (fun x => filter p (g x)) l.
Proof.
  induction l as [|x l IH]; cbn [flat_map]; [reflexivity|].
  rewrite filter_app, IH. reflexivity.
Qed.




Section LineOrder.
Context `{UnicodeTable}.






End LineOrder.



(** ** The keys of [results] and the summary sheet *)







(** ** The walk, both ways *)

Lemma node_nested_ind (P : Os.node -> Prop) :
  (forall nm c, P (Os.File nm c)) ->
  (forall nm b es, (forall e, In e es -> P e) -> P (Os.Dir nm b es)) ->
  (forall nm b es, P (Os.DirLink nm b es)) ->
  forall n, P n.
Proof.
  intros HF HD HL. fix IH 1. intros [nm c | nm b es | nm b es];
    [apply HF | | apply HL].
  apply HD. induction es as [|e es IHes]; intros e' Hin; [destruct Hin|].
  destruct Hin as [<- | Hin]; [apply IH | apply IHes, Hin].
Qed.

Lemma In_nondirs (es : list Os.node) (nm : str) (c : exn + list str) :
  In (nm, c) (Os.nondirs es) -> In (Os.File nm c) es.
Proof.
  induction es as [|[nm' c' | nm' b es' | nm' b es'] es IH];
    cbn [Os.nondirs]; intros Hin.
  - destruct Hin.
  - destruct Hin as [E | Hin]; [inversion E; left; reflexivity | right; auto].
  - right. auto.
  - right. auto.
Qed.

(** Every file of a triple of the walk lies under listable directories,
    none of them reached through a symbolic link. *)
Lemma walk_only_reaches_files_under (n : Os.node) :
  forall (top : str) (pre : list str) (item : Os.walk_item) (f : str)
         (c : exn + list str),
    In item (Os.walk_node top pre n) -> In (f, c) (Os.files item) ->
    exists rel, Os.rel item = pre ++ rel /\ file_under n rel f c.
Proof.
  induction n as [nm c0 | nm b es IH | nm b es] using node_nested_ind;
    intros top pre item f c Hin Hf; [destruct Hin | | destruct Hin].
  destruct b; [|destruct Hin]. cbn [Os.walk_node] in Hin.
  destruct Hin as [<- | Hin].
  - exists []. rewrite app_nil_r. split; [reflexivity|].
    apply under_here, In_nondirs, Hf.
  - apply in_flat_map in Hin. destruct Hin as (e & He & Hin).
    destruct e as [nm' c' | nm' b' es' | nm' b' es'];
      [destruct Hin | | destruct Hin].
    destruct (IH _ He _ _ _ _ _ Hin Hf) as (rel & Erel & Hu).
    exists (nm' :: rel). split.
    + rewrite Erel, <- app_assoc. reflexivity.
    + eapply under_sub; eassumption.
Qed.

Lemma walk_of_followed (base_dir : str) (n : Os.node) :
  Os.path_error base_dir = None ->
  Os.walk base_dir (Some n) = inr (Os.walk_node base_dir [] (followed n)).
Proof.
  intros Hpath. unfold Os.walk. rewrite Hpath. destruct n; reflexivity.
Qed.

(** X16: the walk of a base directory that is a path raises nothing and
    hands the scan exactly the files that lie under directories that can
    be listed and are reached without a symbolic link below the base
    directory: a file is in the triple of the directory reached through
    [rel] if and only if the base directory (a link there being followed)
    and every directory on the way down is a directory that can be
    listed; a directory that cannot be listed hides everything below it,
    without an error, and so does a symbolic link to a directory, which is
    named among the directories of its triple and not walked. *)
Theorem walk_yields_exactly_the_files_under_listable_directories
  (base_dir : str) (n : Os.node) (rel : list str) (f : str)
  (c : exn + list str) :
  Os.path_error base_dir = None ->
  exists items,
    Os.walk base_dir (Some n) = inr items
    /\ ((exists item,
           In item items /\ Os.rel item = rel /\ In (f, c) (Os.files item))
        <-> file_under (followed n) rel f c).
Proof.
  intros Hpath. eexists. split; [exact (walk_of_followed base_dir n Hpath)|].
  split.
  - intros (item & Hin & Erel & Hf).
    destruct (walk_only_reaches_files_under (followed n) base_dir [] item f c
                Hin Hf) as (rel' & Erel' & Hu).
    cbn [app] in Erel'. congruence.
  - intros Hu.
    exact (walk_reaches_every_file (followed n) rel f c Hu base_dir []).
Qed.

Lemma walk_yields_exactly_the_files_under_listable_directories_witness :
  Os.path_error (py ".") = None
  /\ exists items,
       Os.walk (py ".") linked_tree = inr items
       /\ map Os.dirs items = [[py "ln"]]
       /\ ~ (exists item,
               In item items /\ Os.rel item = [py "ln"]
               /\ In (py "c.txt", inr [py "foo" ++ LF]) (Os.files item)).
Proof.
  split; [exact dot_is_a_path|].
  destruct (walk_yields_exactly_the_files_under_listable_directories
              (py ".")
              (Os.Dir (py ".") true
                 [Os.File (py "a.txt") (inr [py "foo" ++ LF]);
                  Os.DirLink (py "ln") true
                    [Os.File (py "c.txt") (inr [py "foo" ++ LF])]])
              [py "ln"] (py "c.txt") (inr [py "foo" ++ LF]) dot_is_a_path)
    as (items & E & Hiff).
  exists items. split; [exact E|]. split.
  - vm_compute in E. inversion E. vm_compute. reflexivity.
  - intros Hex. apply Hiff in Hex. cbn [followed] in Hex.
    inversion Hex as [|d es nm b es' rel' f' c' Hin Hu]; subst.
    destruct Hin as [C | [C | []]]; discriminate C.
Defined.

(** ** The empty keyword *)

Section EmptyKeyword.
Context `{UnicodeTable}.

Lemma search_two_boundaries (prev : option char) (rest : str) :
  Re.search_from (keyword_pattern []) prev rest
  = is_word_opt prev || existsb Re.is_word rest.
Proof.
  revert prev. induction rest as [|x rest IH]; intros prev.
  - unfold keyword_pattern. cbn [map app Re.search_from Re.match_here existsb].
    unfold Re.at_boundary, is_word_opt.
    destruct prev as [c|]; [destruct (Re.is_word c)|]; reflexivity.
  - cbn [Re.search_from existsb]. rewrite IH.
    unfold keyword_pattern. cbn [map app Re.match_here].
    unfold Re.at_boundary, is_word_opt.
    destruct prev as [c|]; [destruct (Re.is_word c)|];
      destruct (Re.is_word x); reflexivity.
Qed.

End EmptyKeyword.

(** X17: the empty keyword compiles to two word boundaries, and it hits
    exactly the lines that hold a word character (a letter, a digit or an
    underscore): the test is whether the line has a word boundary at
    all. *)
Theorem empty_keyword_hits_lines_with_a_word_character `{UnicodeTable}
  (line : str) :
  Re.compile (Search.keyword_source [])
  = Some [Re.AT_BOUNDARY; Re.AT_BOUNDARY]
  /\ line_hit [] line = existsb Re.is_word line.
Proof.
  split; [reflexivity|].
  unfold line_hit, Re.search. rewrite search_two_boundaries. reflexivity.
Qed.

(** ** The command line *)

Lemma truthy_None (v : option str) :
  Search.truthy v = None <-> v = None \/ v = Some [].
Proof.
  destruct v as [[|c s]|]; cbn [Search.truthy]; split; intros Hv;
    try discriminate; auto; destruct Hv as [Hv | Hv]; discriminate Hv.
Qed.

(** X18: [main] prints the usage and exits with status 0 exactly when
    there is no argument, the help option is set, or the search term is
    missing or empty; otherwise it returns without exiting and never
    prints the usage. *)
Theorem main_shows_the_usage_exactly_without_a_search_term
  (argc : nat) (args : Cli.Namespace) (now : Cli.datetime) :
  let asks_for_usage :=
    argc = 1%nat \/ Cli.help args = true
    \/ Cli.search_term args = None \/ Cli.search_term args = Some [] in
  (asks_for_usage ->
   Cli.main argc args now = ([Cli.print_usage], Some 0%Z))
  /\ (~ asks_for_usage ->
      snd (Cli.main argc args now) = None
      /\ ~ In Cli.print_usage (fst (Cli.main argc args now))).
Proof.
  intros asks. unfold asks, Cli.main. split.
  - intros [-> | [Hh | Hs]]; [reflexivity| |].
    + destruct (argc =? 1)%nat; [reflexivity|]. rewrite Hh. reflexivity.
    + destruct (argc =? 1)%nat; [reflexivity|].
      apply truthy_None in Hs. rewrite Hs, orb_true_r. reflexivity.
  - intros Hno.
    destruct (Nat.eqb_spec argc 1) as [E | _]; [exfalso; auto|].
    destruct (Cli.help args) eqn:Hh; [exfalso; auto|].
    destruct (Search.truthy (Cli.search_term args)) eqn:Hs;
      [|apply truthy_None in Hs; exfalso; tauto].
    cbn [orb].
    destruct (Cli.stdout args), (Cli.output_type args);
      cbn [negb andb Cli.output_kind_eqb fst snd map Cli.write_to_excel
           Cli.search_results In];
      (split; [reflexivity|]); intros C;
      repeat (destruct C as [C | C]; [discriminate C|]); exact C.
Qed.

Lemma main_shows_the_usage_exactly_without_a_search_term_witness :
  Cli.main 2
    {| Cli.help := false; Cli.path := py "."; Cli.no_recursive := false;
       Cli.case_sensitive := false; Cli.file_pattern := None;
       Cli.output := None; Cli.output_type := Cli.excel;
       Cli.stdout := true; Cli.search_term := Some [] |} sample_now
  = ([Cli.print_usage], Some 0%Z).
Proof.
  apply (proj1 (main_shows_the_usage_exactly_without_a_search_term 2 _ _)).
  right. right. right. reflexivity.
Defined.

(** X19: [main] searches nothing: what it does depends on the help and
    output options and on whether a search term is there, never on the
    term itself, on the path, or on the options [-r], [-c] and [-f]; and
    whatever it prints or saves is the fixed sample data. *)
Theorem main_never_looks_at_the_search_request
  (argc : nat) (args args' : Cli.Namespace) (now : Cli.datetime) :
  same_output_options args args' ->
  Cli.main argc args now = Cli.main argc args' now
  /\ forall e, In e (fst (Cli.main argc args now)) ->
       match e with
       | Cli.print_tuple item => In item Cli.search_results
       | Cli.save _ wb =>
           List.tl (Cli.rows wb) = map Cli.values_of Cli.search_results
       | _ => True
       end.
Proof.
  intros (Hh & Hs & Ho & Ht & Hterm). split.
  - unfold Cli.main. rewrite <- Hh, <- Hs, <- Ho, <- Ht.
    destruct (Search.truthy (Cli.search_term args)) eqn:E1,
             (Search.truthy (Cli.search_term args')) eqn:E2;
      try reflexivity.
    + destruct Hterm as [_ Hterm]. discriminate (Hterm eq_refl).
    + destruct Hterm as [Hterm _]. discriminate (Hterm eq_refl).
  - unfold Cli.main. intros e.
    destruct (argc =? 1)%nat; [intros [<- | []]; exact I|].
    destruct (Cli.help args
              || match Search.truthy (Cli.search_term args) with
                 | Some _ => false
                 | None => true
                 end); [intros [<- | []]; exact I|].
    assert (Hprinted : In e (map Cli.print_tuple Cli.search_results) ->
                       match e with
                       | Cli.print_tuple item => In item Cli.search_results
                       | Cli.save _ wb =>
                           tl (Cli.rows wb)
                           = map Cli.values_of Cli.search_results
                       | _ => True
                       end).
    { intros Hin. apply in_map_iff in Hin.
      destruct Hin as (item & <- & Hitem). exact Hitem. }
    destruct (Cli.stdout args); cbn [negb andb fst].
    + exact Hprinted.
    + destruct (Cli.output_type args); cbn [Cli.output_kind_eqb fst].
      * unfold Cli.write_to_excel. intros [<- | [<- | []]].
        -- cbn [Cli.rows tl]. reflexivity.
        -- exact I.
      * intros [].
      * intros [].
Qed.

Lemma main_never_looks_at_the_search_request_witness :
  same_output_options sample_args sample_args'
  /\ Cli.main 2 sample_args sample_now = Cli.main 7 sample_args' sample_now.
Proof.
  assert (Hsame : same_output_options sample_args sample_args').
  { unfold same_output_options, sample_args, sample_args'.
    cbn [Cli.help Cli.stdout Cli.output Cli.output_type Cli.search_term].
    repeat split; intros C; vm_compute in C; discriminate C. }
  split; [exact Hsame|].
  transitivity (Cli.main 7 sample_args sample_now);
    [vm_compute; reflexivity|].
  exact (proj1 (main_never_looks_at_the_search_request 7 sample_args
                  sample_args' sample_now Hsame)).
Defined.

(** X20: [main] writes a file only in Excel mode: once past the usage
    check it saves exactly one workbook when [--stdout] is off and the
    output type is [excel] - under the name given with [-o] when that is
    not empty, under the default name otherwise - and with [--stdout] or
    another output type it saves nothing; with the types [csv] and [text]
    and without [--stdout] it does nothing at all. *)
Theorem main_saves_a_file_only_in_excel_mode
  (argc : nat) (args : Cli.Namespace) (now : Cli.datetime) :
  argc <> 1%nat -> Cli.help args = false ->
  Search.truthy (Cli.search_term args) <> None ->
  let events := fst (Cli.main argc args now) in
  (Cli.stdout args = false -> Cli.output_type args = Cli.excel ->
   exists wb message,
     events
     = [Cli.save (match Search.truthy (Cli.output args) with
                  | Some name => name
                  | None => Cli.get_default_output_filename now
                  end) wb;
        Cli.print message])
  /\ (Cli.stdout args = true \/ Cli.output_type args <> Cli.excel ->
      forall name wb, ~ In (Cli.save name wb) events)
  /\ (Cli.stdout args = false -> Cli.output_type args <> Cli.excel ->
      events = []).
Proof.
  intros Hargc Hhelp Hterm events. unfold events, Cli.main. clear events.
  destruct (Nat.eqb_spec argc 1) as [E | _]; [contradiction|].
  rewrite Hhelp.
  destruct (Search.truthy (Cli.search_term args)); [|contradiction].
  cbn [orb]. split; [|split].
  - intros Hs Ht. rewrite Hs, Ht.
    cbn [negb andb Cli.output_kind_eqb fst Cli.write_to_excel].
    eexists. eexists. reflexivity.
  - intros Hoff name wb.
    destruct (Cli.stdout args) eqn:Hs.
    + cbn [negb andb fst map Cli.search_results In]. intros C.
      repeat (destruct C as [C | C]; [discriminate C|]). exact C.
    + destruct Hoff as [C | Hne]; [discriminate C|].
      destruct (Cli.output_type args); [contradiction Hne; reflexivity| |];
        cbn [negb andb Cli.output_kind_eqb fst In]; intros C; exact C.
  - intros Hs Hne. rewrite Hs.
    destruct (Cli.output_type args); [contradiction Hne; reflexivity| |];
      reflexivity.
Qed.

Lemma main_saves_a_file_only_in_excel_mode_witness :
  exists wb message,
    fst (Cli.main 2 sample_args sample_now)
    = [Cli.save (py "result_20240102_030405.xlsx") wb; Cli.print message].
Proof.
  destruct (proj1 (main_saves_a_file_only_in_excel_mode 2 sample_args
                     sample_now ltac:(discriminate) eq_refl
                     ltac:(vm_compute; discriminate)) eq_refl eq_refl)
    as (wb & message & E).
  exists wb, message. rewrite E. vm_compute. reflexivity.
Defined.

(** ** The default file name *)

Lemma digit_inj (a b : Z) :
  (0 <= a)%Z -> (0 <= b)%Z -> Cli.digit a = Cli.digit b -> a = b.
Proof. unfold Cli.digit. lia. Qed.

Lemma pad2_inj (a b : Z) :
  (0 <= a < 100)%Z -> (0 <= b < 100)%Z -> Cli.pad2 a = Cli.pad2 b -> a = b.
Proof.
  intros Ha Hb E. unfold Cli.pad2 in E. inversion E as [[E1 E0]].
  apply digit_inj in E1; [|Z.div_mod_to_equations; lia..].
  apply digit_inj in E0; [|Z.div_mod_to_equations; lia..].
  Z.div_mod_to_equations. lia.
Qed.

Lemma pad4_inj (a b : Z) :
  (0 <= a < 10000)%Z -> (0 <= b < 10000)%Z ->
  Cli.pad4 a = Cli.pad4 b -> a = b.
Proof.
  intros Ha Hb E. unfold Cli.pad4 in E. inversion E as [[E3 E2 E1 E0]].
  apply digit_inj in E3; [|Z.div_mod_to_equations; lia..].
  apply digit_inj in E2; [|Z.div_mod_to_equations; lia..].
  apply digit_inj in E1; [|Z.div_mod_to_equations; lia..].
  apply digit_inj in E0; [|Z.div_mod_to_equations; lia..].
  Z.div_mod_to_equations. lia.
Qed.

(** X21: the default file name tells the second of the run: two runs get
    the same default name [result_YYYYmmdd_HHMMSS.xlsx] only when they
    start in the same second (and then the later one overwrites the file
    of the earlier one). *)
Theorem default_file_name_determines_the_second (d1 d2 : Cli.datetime) :
  valid_datetime d1 -> valid_datetime d2 ->
  Cli.get_default_output_filename d1 = Cli.get_default_output_filename d2 ->
  d1 = d2.
Proof.
  intros (Hy1 & Hm1 & Hd1 & Hh1 & Hi1 & Hs1) (Hy2 & Hm2 & Hd2 & Hh2 & Hi2 & Hs2) E.
  unfold Cli.get_default_output_filename in E.
  apply app_inv_head, app_inv_tail in E.
  unfold Cli.timestamp in E.
  destruct d1 as [y1 m1 a1 h1 i1 s1], d2 as [y2 m2 a2 h2 i2 s2].
  cbn [Cli.year Cli.month Cli.day Cli.hour Cli.minute Cli.second] in *.
  change (py "_") with [95%N] in E.
  assert (Ey : Cli.pad4 y1 = Cli.pad4 y2)
    by (unfold Cli.pad4, Cli.pad2 in *; cbn [app] in E; congruence).
  assert (Em : Cli.pad2 m1 = Cli.pad2 m2)
    by (unfold Cli.pad4, Cli.pad2 in *; cbn [app] in E; congruence).
  assert (Ea : Cli.pad2 a1 = Cli.pad2 a2)
    by (unfold Cli.pad4, Cli.pad2 in *; cbn [app] in E; congruence).
  assert (Eh : Cli.pad2 h1 = Cli.pad2 h2)
    by (unfold Cli.pad4, Cli.pad2 in *; cbn [app] in E; congruence).
  assert (Ei : Cli.pad2 i1 = Cli.pad2 i2)
    by (unfold Cli.pad4, Cli.pad2 in *; cbn [app] in E; congruence).
  assert (Es : Cli.pad2 s1 = Cli.pad2 s2)
    by (unfold Cli.pad4, Cli.pad2 in *; cbn [app] in E; congruence).
  apply pad4_inj in Ey; [|lia..].
  apply pad2_inj in Em; [|lia..]. apply pad2_inj in Ea; [|lia..].
  apply pad2_inj in Eh; [|lia..]. apply pad2_inj in Ei; [|lia..].
  apply pad2_inj in Es; [|lia..].
  subst. reflexivity.
Qed.

Lemma default_file_name_determines_the_second_witness :
  valid_datetime sample_now
  /\ Cli.get_default_output_filename sample_now
     = py "result_20240102_030405.xlsx"
  /\ (Cli.get_default_output_filename sample_now
      = Cli.get_default_output_filename sample_now ->
      sample_now = sample_now).
Proof.
  assert (Hv : valid_datetime sample_now)
    by (unfold valid_datetime, sample_now; cbn; lia).
  split; [exact Hv|]. split; [vm_compute; reflexivity|].
  exact (default_file_name_determines_the_second sample_now sample_now Hv Hv).
Defined.

(** ** The frame of a group *)

Lemma range_1_6 : Group.range 1 6 = [1; 2; 3; 4; 5]%Z.
Proof. reflexivity. Qed.











(** X24: a start row below 1 stops [draw_border_around_group] at its
    first cell: [worksheet.cell] raises the [ValueError] and no border is
    set. *)
Theorem start_row_below_one_raises_before_any_border (start_row end_row : Z)
  (ws : Group.borders) :
  (start_row < 1)%Z ->
  Group.draw_border_around_group start_row end_row ws = (Group.ValueError, ws).
Proof.
  intros Hlow. unfold Group.draw_border_around_group.
  rewrite range_1_6. cbn [Group.for_in Z.eqb Pos.eqb].
  unfold Group.then_, Group.set_border.
  destruct (Z.ltb_spec start_row 1); [reflexivity | lia].
Qed.

Lemma start_row_below_one_raises_before_any_border_witness :
  Group.draw_border_around_group 0 3 gridded = (Group.ValueError, gridded).
Proof.
  apply start_row_below_one_raises_before_any_border. lia.
Defined.
